(** * chat_with_db: the question-to-insight pipeline

    A shallow embedding of the SQL security validator ([app/db/security.py]),
    the SQL executor ([app/db/executor.py]), the SQL generation chain
    ([app/llm/chains.py]), the SQL stage of the orchestrator
    ([app/services/chat_service.py]), the query intent detector
    ([app/llm/query_intent.py]) and the statistical analysis service
    ([app/services/statistical_analysis.py]); and of what surrounds them:
    the error messages ([app/utils/error_messages.py]), the question
    classifier ([app/llm/question_classifier.py]), the visualization
    service ([app/services/visualization_service.py]), the last step of
    the orchestrator and the JSON sanitizer ([app/utils/json_sanitizer.py]).

    Text.  A Python [str] is modelled as a [string] holding the UTF-8 bytes
    of the text.  Case mapping ([upper], [lower], [re.IGNORECASE]) acts on the
    ASCII letters, white space is the ASCII white space of [str.isspace] and
    digits are the ASCII digits; this is what Python does on text written
    with unaccented Latin letters, ASCII digits and Arabic letters, the text
    of the patterns of the program.  What is proved of the query taken from
    an answer of the language model is stated for an answer of ASCII
    characters ([Domain.ascii_text]), on which the two agree.

    Numbers.  The statistics are computed on real numbers: a Python [float]
    or [int] cell is the real number it denotes, and rounding errors of the
    binary representation are not modelled.  What is proved of a coefficient
    or of a comparison of means is stated for columns of integers of at
    most a million in size, on at most ten thousand rows
    ([Domain.small_int], [Domain.max_rows]), where the binary computation
    reports what the real one does.

    Libraries.  The parser of sqlparse, the language model and the database
    session are parameters of the code that calls them.  Of pandas and numpy
    the model keeps what the service uses: the columns and dtypes of a data
    frame built from rows, [dropna], the mean and Pearson's coefficient. *)

From Stdlib Require Import String Ascii List Bool Arith ZArith QArith Lia.
From Stdlib Require Import DecimalString.
From Stdlib Require Import Reals Lra.
Import ListNotations.

Set Warnings "-register-all".

Close Scope R_scope.
Close Scope Q_scope.
Close Scope Z_scope.
Open Scope string_scope.
Open Scope bool_scope.
Open Scope nat_scope.

(* ================================================================= *)
(** ** Python strings *)

Module PyStr.

(** [c.isspace()] on ASCII: TAB, LF, VT, FF, CR, FS, GS, RS, US and space.
    The regular-expression class [\s] is the same set. *)
Definition isspace (c : ascii) : bool :=
  let n := nat_of_ascii c in
  ((9 <=? n) && (n <=? 13)) || ((28 <=? n) && (n <=? 32)).

(** [\d] on ASCII. *)
Definition isdigit (c : ascii) : bool :=
  let n := nat_of_ascii c in
  (48 <=? n) && (n <=? 57).

(** [\w] : letters, digits and the underscore; a byte of a multi-byte
    UTF-8 sequence counts as a letter (the letters of the Arabic script;
    punctuation outside ASCII is not told apart from them). *)
Definition isword (c : ascii) : bool :=
  let n := nat_of_ascii c in
  ((48 <=? n) && (n <=? 57)) || ((65 <=? n) && (n <=? 90)) ||
  ((97 <=? n) && (n <=? 122)) || (n =? 95) || (128 <=? n).

Definition upper_char (c : ascii) : ascii :=
  let n := nat_of_ascii c in
  if (97 <=? n) && (n <=? 122) then ascii_of_nat (n - 32) else c.

Definition lower_char (c : ascii) : ascii :=
  let n := nat_of_ascii c in
  if (65 <=? n) && (n <=? 90) then ascii_of_nat (n + 32) else c.

Fixpoint map (f : ascii -> ascii) (s : string) : string :=
  match s with
  | EmptyString => EmptyString
  | String c s' => String (f c) (map f s')
  end.

(** [s.upper()] and [s.lower()]. *)
Definition upper (s : string) : string := map upper_char s.
Definition lower (s : string) : string := map lower_char s.

(** [s.lstrip(chars)], the characters to strip given as a predicate. *)
Fixpoint lstrip_by (p : ascii -> bool) (s : string) : string :=
  match s with
  | EmptyString => EmptyString
  | String c s' => if p c then lstrip_by p s' else s
  end.

(** [s.rstrip(chars)]. *)
Fixpoint rstrip_by (p : ascii -> bool) (s : string) : string :=
  match s with
  | EmptyString => EmptyString
  | String c s' =>
      match rstrip_by p s' with
      | EmptyString => if p c then EmptyString else String c EmptyString
      | r => String c r
      end
  end.

(** [s.strip()]. *)
Definition strip (s : string) : string := rstrip_by isspace (lstrip_by isspace s).

(** [s.rstrip(";")]. *)
Definition rstrip_semicolon (s : string) : string :=
  rstrip_by (fun c => Ascii.eqb c ";") s.

(** [s.startswith(p)]. *)
Definition startswith (p s : string) : bool := String.prefix p s.

(** [sub in s]. *)
Fixpoint contains (sub s : string) : bool :=
  String.prefix sub s ||
  match s with
  | EmptyString => false
  | String _ s' => contains sub s'
  end.

(** [s.find(sub)]: the index of the first occurrence, [-1] when there is
    none. *)
Fixpoint find (sub s : string) : Z :=
  if String.prefix sub s then 0%Z
  else match s with
       | EmptyString => (-1)%Z
       | String _ s' =>
           let r := find sub s' in
           if (r <? 0)%Z then (-1)%Z else (r + 1)%Z
       end.

(** [s[n:]] for [n >= 0]. *)
Fixpoint drop (n : nat) (s : string) : string :=
  match n, s with
  | O, _ => s
  | S _, EmptyString => EmptyString
  | S n', String _ s' => drop n' s'
  end.

(** [s[:n]] for [n >= 0]. *)
Fixpoint take (n : nat) (s : string) : string :=
  match n, s with
  | O, _ => EmptyString
  | S _, EmptyString => EmptyString
  | S n', String c s' => String c (take n' s')
  end.

(** [s[i:]] for an index [i >= 0] computed as an integer. *)
Definition slice_from (i : Z) (s : string) : string := drop (Z.to_nat i) s.

(** [not s]: the empty string is falsy. *)
Definition is_empty (s : string) : bool :=
  match s with EmptyString => true | _ => false end.

(** [str(n)] for an integer. *)
Definition str_of_int (n : Z) : string := NilEmpty.string_of_int (Z.to_int n).

(** [x in xs] for a list (or a set) of strings. *)
Definition mem (x : string) (xs : list string) : bool :=
  existsb (String.eqb x) xs.

(** Case-insensitive [startswith], as a pattern under [re.IGNORECASE]
    matches its literal characters. *)
Fixpoint iprefix (p s : string) : bool :=
  match p, s with
  | EmptyString, _ => true
  | String _ _, EmptyString => false
  | String a p', String b s' =>
      Ascii.eqb (lower_char a) (lower_char b) && iprefix p' s'
  end.

(** A literal searched under [re.IGNORECASE]. *)
Fixpoint icontains (sub s : string) : bool :=
  iprefix sub s ||
  match s with
  | EmptyString => false
  | String _ s' => icontains sub s'
  end.

(** The longest prefix of [s] whose characters satisfy [p], and the rest. *)
Fixpoint span (p : ascii -> bool) (s : string) : string * string :=
  match s with
  | EmptyString => (EmptyString, EmptyString)
  | String c s' =>
      if p c then let (a, b) := span p s' in (String c a, b)
      else (EmptyString, s)
  end.

(** A character that is not white space. *)
Definition nospace (c : ascii) : bool := negb (isspace c).

(** Every character of [s] satisfies [p]. *)
Fixpoint all (p : ascii -> bool) (s : string) : bool :=
  match s with
  | EmptyString => true
  | String c s' => p c && all p s'
  end.

(** [\bword\b] somewhere in [s]; [prev_word] tells whether the character
    before [s] is a word character. *)
Fixpoint search_word (prev_word : bool) (word s : string) : bool :=
  (negb prev_word && iprefix word s &&
   match drop (String.length word) s with
   | EmptyString => true
   | String d _ => negb (isword d)
   end) ||
  match s with
  | EmptyString => false
  | String c r => search_word (isword c) word r
  end.

End PyStr.

(* ================================================================= *)
(** ** Shared data: configuration, log records, result sets *)

(** [app/config.py], the settings read by the modelled code. *)
Record Settings := {
  SQL_TIMEOUT_SECONDS : Z;
  SQL_MAX_ROWS : Z;
  SQL_ALLOWED_OPERATIONS : list string
}.

Definition default_settings : Settings :=
  {| SQL_TIMEOUT_SECONDS := 30;
     SQL_MAX_ROWS := 1000;
     SQL_ALLOWED_OPERATIONS := ["SELECT"] |}.

Inductive LogLevel := LDebug | LInfo | LWarning | LError.

(** A scalar of a result set. *)
Inductive Cell :=
| VNull
| VBool (b : bool)
| VInt (n : Z)
| VFloat (x : R)
| VText (s : string)
| VTimestamp (t : Z).

(** A row maps column names to scalars; the order of the keys is the order
    of the columns of the query. *)
Definition Row := list (string * Cell).

(** What the modelled code does to the outside, in program order. *)
Inductive Event :=
| Log (level : LogLevel) (message : string)
| ValidatorCall (sql : string)
| DatabaseCall (sql : string).

(** A computation that returns [A] and appends events to the trace. *)
Definition Traced (A : Type) : Type := A * list Event.

Definition ret {A} (a : A) : Traced A := (a, []).

Definition bind {A B} (m : Traced A) (k : A -> Traced B) : Traced B :=
  let (a, t1) := m in
  let (b, t2) := k a in
  (b, (t1 ++ t2)%list).

Definition emit (e : Event) : Traced unit := (tt, [e]).

Notation "x <- m ;; k" := (bind m (fun x => k))
  (at level 61, m at next level, right associativity).
Notation "m ;;; k" := (bind m (fun _ => k))
  (at level 61, right associativity).

(* ================================================================= *)
(** ** sqlparse: the parsed form of a statement *)

Module Sqlparse.

(** The token types of [sqlparse.tokens].  [DML], [DDL] and [CTE] are the
    sub-types [Keyword.DML], [Keyword.DDL] and [Keyword.CTE]; the test
    [ttype is Keyword] of the validator holds of [Keyword] itself only. *)
Inductive TokenType :=
| Keyword | DML | DDL | CTE | Name | Wildcard | Punctuation | Whitespace
| Newline | Number | Literal | Operator | Comparison | Comment | Error.

(** The classes of [sqlparse.sql] that group tokens. *)
Inductive GroupClass :=
| Identifier | IdentifierList | Parenthesis | Where | Function
| ComparisonGroup | Other.

(** A token is a leaf with a type and a text, or a group whose [ttype] is
    [None] and whose text is the text of its members. *)
Inductive Token :=
| Leaf (ttype : TokenType) (value : string)
| Group (cls : GroupClass) (tokens : list Token).

(** [statement.tokens]: the direct children of the statement. *)
Definition Statement := list Token.

Definition ttype_eqb (a b : TokenType) : bool :=
  match a, b with
  | Keyword, Keyword | DML, DML | DDL, DDL | CTE, CTE | Name, Name
  | Wildcard, Wildcard | Punctuation, Punctuation | Whitespace, Whitespace
  | Newline, Newline | Number, Number | Literal, Literal
  | Operator, Operator | Comparison, Comparison | Comment, Comment
  | Error, Error => true
  | _, _ => false
  end.

(** [token.ttype is t]. *)
Definition ttype_is (token : Token) (t : TokenType) : bool :=
  match token with
  | Leaf ty _ => ttype_eqb ty t
  | Group _ _ => false
  end.

(** [token.value]. *)
Fixpoint value (token : Token) : string :=
  match token with
  | Leaf _ v => v
  | Group _ ts => String.concat "" (List.map value ts)
  end.

(** [token.flatten()]: the leaves of a token, left to right. *)
Fixpoint flatten (token : Token) : list Token :=
  match token with
  | Leaf _ _ => [token]
  | Group _ ts => List.flat_map flatten ts
  end.

(** The result of [sqlparse.parse]: the statements of the text, or an
    exception. *)
Inductive ParseOutcome :=
| Parsed (statements : list Statement)
| Raised (message : string).

End Sqlparse.

(* ================================================================= *)
(** ** app/db/security.py *)

Module Security.
Import PyStr Sqlparse.

Definition blocked_keywords : list string :=
  ["DELETE"; "DROP"; "TRUNCATE"; "ALTER"; "CREATE";
   "INSERT"; "UPDATE"; "GRANT"; "REVOKE"; "EXEC";
   "EXECUTE"; "CALL"; "MERGE"; "COPY"].

(** [_has_limit]. *)
Definition _has_limit (sql : string) : bool :=
  let sql_upper := upper sql in
  contains "LIMIT" sql_upper.

(** [_is_select_only]. *)
Fixpoint _is_select_only (statement : Statement) : bool :=
  match statement with
  | [] => false
  | token :: rest =>
      if ttype_is token DML
      then String.eqb (strip (upper (value token))) "SELECT"
      else _is_select_only rest
  end.

Section Validator.

Variable settings : Settings.

(** [sqlparse.parse]. *)
Variable parse : string -> ParseOutcome.

Definition allowed_operations : list string := SQL_ALLOWED_OPERATIONS settings.

(** The body of the loop of [validate] for one token: the error it
    returns, if any. *)
Definition check_token (token : Token) : option string :=
  let dml_error :=
    if ttype_is token DML then
      let operation := strip (upper (value token)) in
      if negb (mem operation allowed_operations)
      then Some ("Operation '" ++ operation ++
                 "' is not allowed. Only SELECT queries are permitted.")
      else None
    else None in
  match dml_error with
  | Some e => Some e
  | None =>
      if ttype_is token Keyword then
        let keyword := strip (upper (value token)) in
        if mem keyword blocked_keywords
        then Some ("Keyword '" ++ keyword ++
                   "' is not allowed for security reasons.")
        else None
      else None
  end.

(** The loop [for token in statement.tokens] of [validate]. *)
Fixpoint check_tokens (tokens : list Token) : option string :=
  match tokens with
  | [] => None
  | token :: rest =>
      match check_token token with
      | Some e => Some e
      | None => check_tokens rest
      end
  end.

(** [validate]: [(is_valid, error_message)], and the records it logs. *)
Definition validate (sql : string) : Traced (bool * option string) :=
  if is_empty sql || is_empty (strip sql) then
    ret (false, Some "Empty SQL query")
  else
    match parse (strip sql) with
    | Raised e =>
        emit (Log LError ("SQL validation error: " ++ e)) ;;;
        ret (false, Some ("SQL validation failed: " ++ e))
    | Parsed [] => ret (false, Some "Invalid SQL syntax")
    | Parsed (statement :: _) =>
        match check_tokens statement with
        | Some e => ret (false, Some e)
        | None =>
            if negb (_is_select_only statement) then
              ret (false, Some "Only SELECT statements are allowed")
            else
              (if negb (_has_limit sql)
               then emit (Log LWarning
                            ("Query missing LIMIT clause: " ++ take 100 sql))
               else ret tt) ;;;
              ret (true, None)
        end
    end.

(** [sanitize]. *)
Definition sanitize (sql : string) : string :=
  let sql := rstrip_semicolon (strip sql) in
  if negb (_has_limit sql)
  then sql ++ " LIMIT " ++ str_of_int (SQL_MAX_ROWS settings)
  else sql.

End Validator.

End Security.

(* ================================================================= *)
(** ** app/db/executor.py *)

Module Executor.
Import PyStr Sqlparse Security.

(** What the database session does with a statement: the rows it returns,
    or the exception it raises. *)
Inductive DbOutcome :=
| DbRows (data : list Row)
| DbRaised (message : string).

(** [str(x)] for an optional message. *)
Definition str_of_option (x : option string) : string :=
  match x with Some s => s | None => "None" end.

Section SQLExecutor.

Variable settings : Settings.
Variable parse : string -> ParseOutcome.

(** [session.execute(text(safe_sql))] followed by [fetchall]. *)
Variable db_execute : string -> DbOutcome.

(** The database name written to the debug log. *)
Variable db_name : string.

(** [SQLExecutor.execute]: [(success, data, error_message)]. *)
Definition execute (sql : string)
  : Traced (bool * option (list Row) * option string) :=
  emit (ValidatorCall sql) ;;;
  r <- validate settings parse sql ;;
  let '(is_valid, error) := r in
  if negb is_valid then
    emit (Log LWarning ("SQL validation failed: " ++ str_of_option error)) ;;;
    ret (false, None, error)
  else
    let safe_sql := sanitize settings sql in
    emit (Log LDebug ("Executing SQL on database: " ++ db_name)) ;;;
    emit (DatabaseCall safe_sql) ;;;
    match db_execute safe_sql with
    | DbRows data =>
        emit (Log LInfo "SQL executed successfully") ;;;
        ret (true, Some data, None)
    | DbRaised error_msg =>
        emit (Log LError ("SQL execution failed: " ++ error_msg)) ;;;
        ret (false, None, Some error_msg)
    end.

End SQLExecutor.

End Executor.

(* ================================================================= *)
(** ** app/llm/chains.py *)

Module Chains.
Import PyStr.

(** [re.sub(r"```.*?```", "", text, flags=re.DOTALL)], one character at a
    time: [skip] characters of a fence delimiter are still to be dropped,
    [inside] tells whether the scan is between two delimiters.  A delimiter
    opens a fence only when a closing delimiter follows. *)
Fixpoint remove_fences_from (skip : nat) (inside : bool) (s : string) : string :=
  match s with
  | EmptyString => EmptyString
  | String c s' =>
      match skip with
      | S k => remove_fences_from k inside s'
      | O =>
          if inside then
            if String.prefix "```" s
            then remove_fences_from 2 false s'
            else remove_fences_from 0 true s'
          else
            if String.prefix "```" s && contains "```" (drop 3 s)
            then remove_fences_from 2 true s'
            else String c (remove_fences_from 0 false s')
      end
  end.

Definition remove_fences (text : string) : string :=
  remove_fences_from 0 false text.

(** [\s+\d+] at the head of [s]: the text matched. *)
Definition match_ws_digits (s : string) : option string :=
  let (ws, r) := span isspace s in
  let (ds, _) := span isdigit r in
  if is_empty ws || is_empty ds then None else Some (ws ++ ds).

(** [\sLIMIT\s+\d+] at the head of [s], letter case ignored. *)
Definition match_limit_clause (s : string) : option string :=
  match s with
  | EmptyString => None
  | String c r =>
      if isspace c && iprefix "LIMIT" r then
        match match_ws_digits (drop 5 r) with
        | Some m => Some (String c (take 5 r ++ m))
        | None => None
        end
      else None
  end.

(** [.+?\sLIMIT\s+\d+] at the head of [s]: the lazy [.+?] takes one
    character and then as few more as a following LIMIT clause allows. *)
Fixpoint match_body (s : string) : option string :=
  match s with
  | EmptyString => None
  | String c r =>
      match match_limit_clause r with
      | Some m => Some (String c m)
      | None =>
          match match_body r with
          | Some m => Some (String c m)
          | None => None
          end
      end
  end.

(** [SELECT\s.+?\sLIMIT\s+\d+] at the head of [s]. *)
Definition match_select (s : string) : option string :=
  if iprefix "SELECT" s then
    match drop 6 s with
    | EmptyString => None
    | String c r =>
        if isspace c then
          match match_body r with
          | Some m => Some (take 6 s ++ String c m)
          | None => None
          end
        else None
    end
  else None.

(** [re.search(r"(SELECT\s.+?\sLIMIT\s+\d+)", text, re.IGNORECASE | re.DOTALL)]:
    group 1 of the leftmost match. *)
Fixpoint search_select (text : string) : option string :=
  match match_select text with
  | Some m => Some m
  | None =>
      match text with
      | EmptyString => None
      | String _ r => search_select r
      end
  end.

(** [re.sub(r"\s+", " ", sql)]: of a run of white space the last character
    becomes one space, the others go. *)
Fixpoint collapse_ws (s : string) : string :=
  match s with
  | EmptyString => EmptyString
  | String c r =>
      if isspace c then
        match r with
        | EmptyString => String " " EmptyString
        | String d _ =>
            if isspace d then collapse_ws r else String " " (collapse_ws r)
        end
      else String c (collapse_ws r)
  end.

(** [_extract_sql]. *)
Definition _extract_sql (text : string) : option string :=
  let text := remove_fences text in
  match search_select text with
  | Some sql => Some (strip (collapse_ws sql))
  | None => None
  end.

(** [FROM\s+LIMIT] at the head of [s]. *)
Definition match_from_limit (s : string) : bool :=
  String.prefix "FROM" s &&
  match drop 4 s with
  | EmptyString => false
  | String c r => isspace c && String.prefix "LIMIT" (lstrip_by isspace r)
  end.

(** [re.search(r'FROM\s+LIMIT', s)]. *)
Fixpoint search_from_limit (s : string) : bool :=
  match_from_limit s ||
  match s with
  | EmptyString => false
  | String _ r => search_from_limit r
  end.

(** [s.replace(d, '')] for each digit [d] in turn. *)
Fixpoint remove_digits (s : string) : string :=
  match s with
  | EmptyString => EmptyString
  | String c r => if isdigit c then remove_digits r else String c (remove_digits r)
  end.

(** [_validate_sql_completeness]: the error message, [None] when the query
    is complete. *)
Definition _validate_sql_completeness (sql : string) : option string :=
  let sql_upper := strip (upper sql) in
  if negb (startswith "SELECT" sql_upper) then
    Some "Query must start with SELECT"
  else if negb (contains "FROM" sql_upper) then
    Some "Query missing FROM clause"
  else
    let from_index := find "FROM" sql_upper in
    let from_error :=
      if (0 <=? from_index)%Z then
        let after_from := strip (slice_from (from_index + 4) sql_upper) in
        if is_empty after_from || startswith "LIMIT" after_from then
          Some "Query missing table name after FROM clause"
        else if startswith "LIMIT" after_from then
          Some "Query has LIMIT directly after FROM - missing table name"
        else None
      else None in
    match from_error with
    | Some e => Some e
    | None =>
        (* the block on the text after LIMIT ends in [pass] *)
        let _ :=
          if contains "LIMIT" sql_upper then
            let limit_index := find "LIMIT" sql_upper in
            let after_limit := strip (slice_from (limit_index + 5) sql_upper) in
            negb (is_empty after_limit) &&
            is_empty (strip (remove_digits after_limit))
          else false in
        if search_from_limit sql_upper then
          Some "Query has LIMIT immediately after FROM - missing table name or JOIN clause"
        else None
    end.

(** The answer of the language model to the formatted prompt: a response
    with its [content], or an exception. *)
Inductive LLMOutcome :=
| Response (content : string)
| LLMRaised (message : string).

Section SQLGenerationChain.

(** [llm_client.client.invoke] on the prompt made of the schema context
    and the question. *)
Variable llm_invoke : string -> string -> LLMOutcome.

(** [generate]: [(success, sql_query, error_message)]. *)
Definition generate (question schema_context : string)
  : Traced (bool * option string * option string) :=
  match llm_invoke schema_context question with
  | LLMRaised error_msg =>
      emit (Log LError ("SQL generation failed: " ++ error_msg)) ;;;
      ret (false, None, Some error_msg)
  | Response content =>
      match _extract_sql content with
      | None => ret (false, None, Some "Failed to extract SQL from LLM response")
      | Some sql =>
          if is_empty sql then
            ret (false, None, Some "Failed to extract SQL from LLM response")
          else
            match _validate_sql_completeness sql with
            | Some validation_error =>
                if is_empty validation_error then
                  emit (Log LInfo "SQL generated successfully") ;;;
                  ret (true, Some sql, None)
                else
                  emit (Log LWarning ("SQL validation failed: " ++ validation_error)) ;;;
                  ret (false, None,
                       Some ("Generated SQL is incomplete: " ++ validation_error))
            | None =>
                emit (Log LInfo "SQL generated successfully") ;;;
                ret (true, Some sql, None)
            end
      end
  end.

End SQLGenerationChain.

End Chains.

(* ================================================================= *)
(** ** app/services/chat_service.py: the SQL stage of [handle_question] *)

Module ChatService.
Import PyStr Sqlparse Security Executor Chains.

(** The dictionary that [handle_question] returns. *)
Record Outcome := {
  success : bool;
  answer : option string;
  sql_query : option string;
  data : option (list Row);
  needs_visualization : bool;
  visualization_type : string;
  is_database_related : bool;
  error : option string;
  steps : list string
}.

(** The SQL stage either ends the request with an outcome or hands the
    executed query and its rows to the analysis steps. *)
Inductive StageResult :=
| Terminal (outcome : Outcome)
| Executed (sql_query : option string) (data : option (list Row))
           (steps : list string).

Section Orchestrator.

Variable settings : Settings.
Variable parse : string -> ParseOutcome.
Variable db_execute : string -> DbOutcome.
Variable db_name : string.
Variable llm_invoke : string -> string -> LLMOutcome.

(** [app/utils/error_messages.py]: question, error type, technical error. *)
Variable get_professional_error_message :
  string -> string -> option string -> string.

Definition failure (error_message : string) (sql : option string)
  (steps : list string) : Outcome :=
  {| success := false;
     answer := Some error_message;
     sql_query := sql;
     data := None;
     needs_visualization := false;
     visualization_type := "none";
     is_database_related := true;
     error := Some error_message;
     steps := steps |}.

(** Steps 5 and 6 of [handle_question]: generate the SQL, then execute it
    (the executor validates and sanitizes).  [steps] is
    [metadata["steps"]] on entry. *)
Definition sql_stage
  (question question_to_use enhanced_schema_context : string)
  (steps : list string) : Traced StageResult :=
  r <- generate llm_invoke question_to_use enhanced_schema_context ;;
  let '(sql_success, sql_query, sql_error) := r in
  if negb sql_success then
    let error_message :=
      get_professional_error_message question "sql_generation" sql_error in
    emit (Log LWarning "SQL generation failed") ;;;
    ret (Terminal (failure error_message None steps))
  else
    let steps := (steps ++ ["sql_generated"])%list in
    r <- execute settings parse db_execute db_name
           (match sql_query with Some q => q | None => "" end) ;;
    let '(exec_success, data, exec_error) := r in
    if negb exec_success then
      let error_type :=
        if contains "incomplete" (lower (str_of_option exec_error))
        then "incomplete_query" else "sql_execution" in
      let error_message :=
        get_professional_error_message question error_type exec_error in
      emit (Log LWarning "SQL execution failed") ;;;
      ret (Terminal (failure error_message sql_query steps))
    else
      ret (Executed sql_query data (steps ++ ["sql_executed"])%list).

End Orchestrator.

End ChatService.

(* ================================================================= *)
(** ** app/llm/query_intent.py *)

Module QueryIntent.
Import PyStr.

(** The regular expressions of the detector are alternations of literals;
    one alternative has the form [a.*b]. *)
Inductive Alt :=
| Lit (text : string)
| LitAnyLit (a b : string).

Definition Pattern := list Alt.

Definition LIST_PATTERNS : list Pattern :=
  [ [Lit "عرض"; Lit "أعرض"; Lit "اعرض"; Lit "عرض جميع";
     Lit "أظهر"; Lit "أظهر جميع"; Lit "show"; Lit "list";
     Lit "display"; Lit "get all"];
    [Lit "جميع"; Lit "كل"; Lit "all"; Lit "every"];
    [Lit "ما هي"; Lit "ما هم"; Lit "what are"; Lit "what is"] ].

Definition AGGREGATE_PATTERNS : list Pattern :=
  [ [Lit "كم"; Lit "عدد"; Lit "count"; Lit "how many";
     Lit "total"; Lit "sum"; Lit "average"; Lit "avg";
     Lit "متوسط"; Lit "إجمالي"];
    [Lit "أكثر"; Lit "أقل"; Lit "most"; Lit "least";
     Lit "highest"; Lit "lowest"; Lit "الأكثر"; Lit "الأقل"];
    [Lit "أعلى"; Lit "أقل"; Lit "top"; Lit "bottom";
     Lit "maximum"; Lit "minimum"] ].

Definition COMPARISON_PATTERNS : list Pattern :=
  [ [Lit "قارن"; Lit "مقارنة"; Lit "compare"; Lit "comparison";
     Lit "versus"; Lit "vs"; Lit "مقارنة بين"];
    [Lit "أفضل"; Lit "أسوأ"; Lit "better"; Lit "worse";
     Lit "best"; Lit "worst"];
    [Lit "أكثر من"; Lit "أقل من"; Lit "more than"; Lit "less than";
     Lit "greater"; Lit "smaller"] ].

Definition TREND_PATTERNS : list Pattern :=
  [ [Lit "اتجاه"; Lit "اتجاهات"; Lit "trend"; Lit "trends";
     Lit "تطور"; Lit "تطورات"];
    [Lit "بمرور الوقت"; Lit "over time"; Lit "over the years"; Lit "خلال";
     Lit "during"];
    [Lit "نمو"; Lit "انخفاض"; Lit "growth"; Lit "decline";
     Lit "increase"; Lit "decrease"] ].

Definition CORRELATION_PATTERNS : list Pattern :=
  [ [Lit "علاقة"; Lit "ارتباط"; Lit "relationship"; Lit "correlation";
     Lit "correlate"];
    [Lit "هل يؤثر"; LitAnyLit "does" "affect"; Lit "impact"; Lit "تأثير"];
    [Lit "يرتبط"; Lit "related"; Lit "linked"; Lit "connected"] ].

Definition metric_keywords : list (string * list Pattern) :=
  [ ("revenue", [[Lit "إيراد"; Lit "revenue"; Lit "income"; Lit "money"; Lit "مبلغ"]]);
    ("count", [[Lit "عدد"; Lit "count"; Lit "number"; Lit "quantity"]]);
    ("price", [[Lit "سعر"; Lit "price"; Lit "cost"; Lit "تكلفة"]]);
    ("rate", [[Lit "معدل"; Lit "rate"; Lit "rating"; Lit "تقييم"]]);
    ("amount", [[Lit "مبلغ"; Lit "amount"; Lit "value"; Lit "قيمة"]]) ].

(** The text up to the end of the line: [.] does not match a line feed. *)
Fixpoint line (s : string) : string :=
  match s with
  | EmptyString => EmptyString
  | String c r => if Ascii.eqb c "010" then EmptyString else String c (line r)
  end.

(** [a.*b] somewhere in [s]: an occurrence of [a] with [b] after it on the
    same line. *)
Fixpoint search_lit_any_lit (a b s : string) : bool :=
  (iprefix a s && icontains b (line (drop (String.length a) s))) ||
  match s with
  | EmptyString => false
  | String _ r => search_lit_any_lit a b r
  end.

Definition search_alt (alt : Alt) (s : string) : bool :=
  match alt with
  | Lit text => icontains text s
  | LitAnyLit a b => search_lit_any_lit a b s
  end.

(** [re.search(pattern, s, re.IGNORECASE)] as a truth value. *)
Definition re_search (pattern : Pattern) (s : string) : bool :=
  existsb (fun alt => search_alt alt s) pattern.

(** [any(re.search(p, question, re.IGNORECASE) for p in patterns)]. *)
Definition any_match (patterns : list Pattern) (question : string) : bool :=
  existsb (fun p => re_search p question) patterns.

(** [len([p for p in patterns if re.search(p, question, re.IGNORECASE)])]. *)
Definition count_matches (patterns : list Pattern) (question : string) : nat :=
  List.length (List.filter (fun p => re_search p question) patterns).

Inductive IntentType :=
| IList | IAggregate | IComparison | ITrend | ICorrelation | IUnknown.

(** The string that stands for the type in the dictionary. *)
Definition type_name (t : IntentType) : string :=
  match t with
  | IList => "list"
  | IAggregate => "aggregate"
  | IComparison => "comparison"
  | ITrend => "trend"
  | ICorrelation => "correlation"
  | IUnknown => "unknown"
  end.

(** The dictionary that [detect] returns. *)
Record Intent := {
  type : IntentType;
  entities : list string;
  metrics : list string;
  confidence : Q;
  analysis_required : bool;
  analysis_type : option string
}.

(** [_detect_intent_type]. *)
Definition _detect_intent_type (question : string) : IntentType :=
  if any_match CORRELATION_PATTERNS question then ICorrelation
  else if any_match TREND_PATTERNS question then ITrend
  else if any_match COMPARISON_PATTERNS question then IComparison
  else if any_match AGGREGATE_PATTERNS question then IAggregate
  else if any_match LIST_PATTERNS question then IList
  else IUnknown.

Definition known_tables : list string :=
  ["film"; "category"; "actor"; "customer"; "rental"; "payment";
   "store"; "staff"; "inventory"; "address"; "city"; "country";
   "language"; "film_actor"; "film_category"].

(** [_extract_entities]; the order of the list that Python builds from the
    set is not specified, the tables are kept in the order of
    [known_tables]. *)
Definition _extract_entities (question : string) : list string :=
  List.filter
    (fun table =>
       search_word false table question ||
       icontains (table ++ "s") question ||
       icontains (table ++ "es") question)
    known_tables.

(** [_extract_metrics]. *)
Definition _extract_metrics (question : string) : list string :=
  List.map fst
    (List.filter (fun kv => any_match (snd kv) question) metric_keywords).

(** [_calculate_confidence]. *)
Definition _calculate_confidence (intent_type : IntentType) (question : string) : Q :=
  match intent_type with
  | IUnknown => 0.3%Q
  | _ =>
      let matches :=
        match intent_type with
        | IList => count_matches LIST_PATTERNS question
        | IAggregate => count_matches AGGREGATE_PATTERNS question
        | IComparison => count_matches COMPARISON_PATTERNS question
        | ITrend => count_matches TREND_PATTERNS question
        | ICorrelation => count_matches CORRELATION_PATTERNS question
        | IUnknown => 0
        end in
      if 2 <=? matches then 0.9%Q
      else if matches =? 1 then 0.7%Q
      else 0.5%Q
  end.

(** [intent_type in ["correlation", "comparison", "trend", "aggregate"]]. *)
Definition requires_analysis (intent_type : IntentType) : bool :=
  mem (type_name intent_type) ["correlation"; "comparison"; "trend"; "aggregate"].

(** [detect]. *)
Definition detect (question : string) : Traced Intent :=
  let question_lower := lower question in
  let intent_type := _detect_intent_type question_lower in
  let entities := _extract_entities question_lower in
  let metrics := _extract_metrics question_lower in
  let confidence := _calculate_confidence intent_type question_lower in
  let analysis_required := requires_analysis intent_type in
  let analysis_type := if analysis_required then Some "statistical" else None in
  let result :=
    {| type := intent_type;
       entities := entities;
       metrics := metrics;
       confidence := confidence;
       analysis_required := analysis_required;
       analysis_type := analysis_type |} in
  emit (Log LInfo "Query intent detected") ;;;
  ret result.

End QueryIntent.

(* ================================================================= *)
(** ** app/services/statistical_analysis.py *)

Module StatisticalAnalysis.
Import PyStr QueryIntent.

(** A value of the dictionaries that the service returns. *)
Inductive PyValue :=
| PNone
| PBool (b : bool)
| PInt (n : Z)
| PFloat (x : R)
| PStr (s : string)
| PDict (items : list (string * PyValue)).

(** The dictionary that [analyze] returns. *)
Record Finding := {
  has_analysis : bool;
  analysis_type : option string;
  statistical_result : list (string * PyValue);
  interpretation : option string;
  visualization_type : string
}.

(** [d.get(key)] on a dictionary kept in insertion order. *)
Fixpoint get {A} (key : string) (d : list (string * A)) : option A :=
  match d with
  | [] => None
  | (k, v) :: rest => if String.eqb k key then Some v else get key rest
  end.

(** *** pandas: data frames built from the rows of a result set *)

(** The dtypes that pandas gives to the columns of a result set. *)
Inductive DType := int64 | float64 | bool_ | datetime64 | object_.

(** A data frame: its columns in order, each with the cells of the rows. *)
Definition DataFrame := list (string * list Cell).

Definition add_keys (columns : list string) (row : Row) : list string :=
  fold_left
    (fun acc kv => if mem (fst kv) acc then acc else (acc ++ [fst kv])%list)
    row columns.

(** The columns of [pd.DataFrame(data)]: the keys of the rows in the order
    in which they first appear. *)
Definition columns_of (data : list Row) : list string :=
  fold_left add_keys data [].

(** [pd.DataFrame(data)]; a key missing from a row gives a missing cell. *)
Definition make_DataFrame (data : list Row) : DataFrame :=
  List.map
    (fun c =>
       (c, List.map
             (fun row => match get c row with Some v => v | None => VNull end)
             data))
    (columns_of data).

Definition is_int (c : Cell) : bool :=
  match c with VInt _ => true | _ => false end.
Definition is_number (c : Cell) : bool :=
  match c with VInt _ | VFloat _ => true | _ => false end.
Definition is_null (c : Cell) : bool :=
  match c with VNull => true | _ => false end.
Definition is_bool (c : Cell) : bool :=
  match c with VBool _ => true | _ => false end.
Definition is_timestamp (c : Cell) : bool :=
  match c with VTimestamp _ => true | _ => false end.

(** The dtype pandas infers for a column: integers give [int64]; numbers
    with missing cells, or floats, give [float64]; booleans give [bool];
    timestamps give [datetime64]; anything else, a column of missing cells
    included, is kept as Python objects. *)
Definition infer_dtype (cells : list Cell) : DType :=
  if forallb is_int cells && existsb is_int cells then int64
  else if forallb (fun c => is_number c || is_null c) cells &&
          existsb is_number cells then float64
  else if forallb is_bool cells && existsb is_bool cells then bool_
  else if forallb (fun c => is_timestamp c || is_null c) cells &&
          existsb is_timestamp cells then datetime64
  else object_.

(** [df.select_dtypes(include=[np.number]).columns.tolist()]. *)
Definition numeric_columns (df : DataFrame) : list string :=
  List.map fst
    (List.filter
       (fun col => match infer_dtype (snd col) with
                   | int64 | float64 => true
                   | _ => false
                   end) df).

(** [df.select_dtypes(include=['object']).columns.tolist()]. *)
Definition object_columns (df : DataFrame) : list string :=
  List.map fst
    (List.filter
       (fun col => match infer_dtype (snd col) with
                   | object_ => true
                   | _ => false
                   end) df).

(** The number in a cell of a numeric column; a missing cell is NaN. *)
Definition number_of (c : Cell) : option R :=
  match c with
  | VInt n => Some (IZR n)
  | VFloat x => Some x
  | _ => None
  end.

(** [df[col]] as a series of numbers. *)
Definition series (df : DataFrame) (col : string) : list (option R) :=
  match get col df with
  | Some cells => List.map number_of cells
  | None => []
  end.

(** [s.dropna().tolist()]. *)
Fixpoint dropna (s : list (option R)) : list R :=
  match s with
  | [] => []
  | Some x :: rest => x :: dropna rest
  | None :: rest => dropna rest
  end.

(** [df[[x_col, y_col]].dropna()]: the rows where both cells hold a
    number. *)
Fixpoint dropna2 (xs ys : list (option R)) : list (R * R) :=
  match xs, ys with
  | Some x :: xs', Some y :: ys' => (x, y) :: dropna2 xs' ys'
  | _ :: xs', _ :: ys' => dropna2 xs' ys'
  | _, _ => []
  end.

(** *** numpy and pandas: the statistics used *)

Definition sum (l : list R) : R := fold_right Rplus 0%R l.

(** [np.mean]. *)
Definition mean (l : list R) : R := (sum l / INR (List.length l))%R.

(** [np.clip(r, -1, 1)]. *)
Definition clip (r : R) : R := Rmax (-1) (Rmin 1 r).

(** [Series.corr], Pearson's coefficient of two series without missing
    values, as [np.corrcoef] computes it; [None] is NaN, the result when
    one of the series has no variance. *)
Definition corr (points : list (R * R)) : option R :=
  let xs := List.map fst points in
  let ys := List.map snd points in
  let mx := mean xs in
  let my := mean ys in
  let sxx := sum (List.map (fun p => (fst p - mx) * (fst p - mx))%R points) in
  let syy := sum (List.map (fun p => (snd p - my) * (snd p - my))%R points) in
  let sxy := sum (List.map (fun p => (fst p - mx) * (snd p - my))%R points) in
  if Req_dec_T (sxx * syy)%R 0%R then None
  else Some (clip (sxy / (sqrt sxx * sqrt syy))%R).

(** The integer nearest to [x], a tie going to the even one. *)
Definition round_half_even (x : R) : Z :=
  let f := Int_part x in
  let d := (x - IZR f)%R in
  if Rlt_dec d (1 / 2)%R then f
  else if Rlt_dec (1 / 2)%R d then (f + 1)%Z
  else if Z.even f then f else (f + 1)%Z.

(** [round(x, ndigits)]. *)
Definition round (x : R) (ndigits : nat) : R :=
  (IZR (round_half_even (x * 10 ^ ndigits)) / 10 ^ ndigits)%R.

(** [not s] for an optional string: [None] and the empty string are
    falsy. *)
Definition falsy (s : option string) : bool :=
  match s with
  | None => true
  | Some s => is_empty s
  end.

Definition msg_no_numeric_columns : string :=
  "لا توجد أعمدة رقمية كافية لتحليل الارتباط".

Definition msg_insufficient_correlation : string :=
  "لا توجد بيانات كافية لتحليل الارتباط".

Definition msg_correlation_failed : string :=
  "فشل تحليل الارتباط: ".

Definition msg_no_numeric_trend : string :=
  "لا توجد بيانات رقمية لتحليل الاتجاه".

Definition msg_insufficient_trend : string :=
  "لا توجد بيانات كافية لتحليل الاتجاه".

Definition ar_very_weak : string :=
  "ضعيفة جداً".

Definition ar_weak : string :=
  "ضعيفة".

Definition ar_moderate : string :=
  "متوسطة".

Definition ar_strong : string :=
  "قوية".

Definition ar_very_strong : string :=
  "قوية جداً".

Definition ar_positive : string :=
  "موجبة".

Definition ar_negative : string :=
  "سالبة".

Definition txt_corr_1 : string :=
  "📊 التحليل الإحصائي يظهر أن معامل الارتباط بين ".

Definition txt_corr_2 : string :=
  " و ".

Definition txt_corr_3 : string :=
  " هو **".

Definition txt_corr_4 : string :=
  "🔍 هذا يشير إلى **علاقة ".

Definition txt_corr_5 : string :=
  "** (".

Definition txt_corr_6 : string :=
  ")، ".

Definition txt_means : string :=
  "مما يعني أن ".

Definition txt_no_effect : string :=
  " **ليس عاملًا مؤثرًا بشكل واضح** على ".

Definition txt_medium_effect : string :=
  " له **تأثير متوسط** على ".

Definition txt_strong_effect : string :=
  " له **تأثير قوي** على ".

Definition ar_increasing : string :=
  "تصاعدي".

Definition ar_decreasing : string :=
  "تنازلي".

Definition txt_trend_1 : string :=
  "📈 التحليل يظهر **اتجاه ".

Definition txt_trend_2 : string :=
  "** في ".

Definition txt_trend_3 : string :=
  "🔍 قوة الاتجاه: **".

Definition txt_trend_weak : string :=
  "(اتجاه ضعيف)".

Definition txt_trend_medium : string :=
  "(اتجاه متوسط)".

Definition txt_trend_strong : string :=
  "(اتجاه قوي)".

Definition nl : string := String "010" EmptyString.

(** [_interpret_correlation]: [(strength, direction)]. *)
Definition _interpret_correlation (value : R) : string * string :=
  let abs_value := Rabs value in
  let strength :=
    if Rlt_dec abs_value 0.2%R then "very_weak"
    else if Rlt_dec abs_value 0.4%R then "weak"
    else if Rlt_dec abs_value 0.6%R then "moderate"
    else if Rlt_dec abs_value 0.8%R then "strong"
    else "very_strong" in
  let direction := if Rge_dec value 0%R then "positive" else "negative" in
  (strength, direction).

(** The inner loop of [_identify_correlation_columns] for one metric; it
    stops at the column that fills [y_col]. *)
Fixpoint match_metric (metric : string) (cols : list string)
  (st : option string * option string) : option string * option string :=
  match cols with
  | [] => st
  | col :: rest =>
      if contains (lower metric) (lower col) || contains (lower col) (lower metric)
      then
        if falsy (fst st) then match_metric metric rest (Some col, snd st)
        else if falsy (snd st) then (fst st, Some col)
        else match_metric metric rest st
      else match_metric metric rest st
  end.

(** [_identify_correlation_columns]. *)
Definition _identify_correlation_columns (numeric_cols metrics : list string)
  : option string * option string :=
  if List.length numeric_cols <? 2 then (None, None)
  else
    let st :=
      fold_left (fun st metric => match_metric metric numeric_cols st)
        metrics (None, None) in
    if falsy (fst st) || falsy (snd st)
    then (Some (nth 0 numeric_cols ""), Some (nth 1 numeric_cols ""))
    else st.

Section Service.

(** [f"{x:.nf}"]: a number printed with [n] decimals. *)
Variable format_float : nat -> R -> string.

(** The text of the exception that pandas raises when one column is
    selected twice and correlated with itself. *)
Variable duplicate_column_error : string.

(** [_generate_correlation_interpretation]. *)
Definition _generate_correlation_interpretation
  (correlation : R) (strength direction x_col y_col : string) : string :=
  let strength_text :=
    match get strength
            [("very_weak", ar_very_weak); ("weak", ar_weak);
             ("moderate", ar_moderate); ("strong", ar_strong);
             ("very_strong", ar_very_strong)] with
    | Some t => t
    | None => strength
    end in
  let direction_text :=
    match get direction [("positive", ar_positive); ("negative", ar_negative)] with
    | Some t => t
    | None => direction
    end in
  let interpretation :=
    txt_corr_1 ++ x_col ++ txt_corr_2 ++ y_col ++ txt_corr_3 ++
    format_float 3 correlation ++ "**." ++ nl ++ nl ++
    txt_corr_4 ++ strength_text ++ txt_corr_5 ++ direction_text ++ txt_corr_6 in
  if Rlt_dec (Rabs correlation) 0.3%R then
    interpretation ++ txt_means ++ x_col ++ txt_no_effect ++ y_col ++ "."
  else if Rlt_dec (Rabs correlation) 0.6%R then
    interpretation ++ txt_means ++ x_col ++ txt_medium_effect ++ y_col ++ "."
  else
    interpretation ++ txt_means ++ x_col ++ txt_strong_effect ++ y_col ++ ".".

(** [_generate_trend_interpretation]. *)
Definition _generate_trend_interpretation
  (direction : string) (strength : R) (metric_col : string) : string :=
  let direction_text :=
    match get direction
            [("increasing", ar_increasing); ("decreasing", ar_decreasing)] with
    | Some t => t
    | None => direction
    end in
  let strength_pct := (strength * 100)%R in
  let interpretation :=
    txt_trend_1 ++ direction_text ++ txt_trend_2 ++ metric_col ++ "." ++ nl ++ nl ++
    txt_trend_3 ++ format_float 1 strength_pct ++ "%** " in
  if Rlt_dec strength 0.1%R then interpretation ++ txt_trend_weak
  else if Rlt_dec strength 0.3%R then interpretation ++ txt_trend_medium
  else interpretation ++ txt_trend_strong.

Definition no_analysis (kind : option string) (text : option string)
  (visualization : string) : Finding :=
  {| has_analysis := false;
     analysis_type := kind;
     statistical_result := [];
     interpretation := text;
     visualization_type := visualization |}.

(** [_analyze_correlation]. *)
Definition _analyze_correlation (df : DataFrame) (intent : Intent)
  (question : string) : Traced Finding :=
  let numeric_cols := numeric_columns df in
  if List.length numeric_cols <? 2 then
    ret (no_analysis (Some "correlation") (Some msg_no_numeric_columns) "scatter")
  else
    let metrics := metrics intent in
    let (x_col, y_col) := _identify_correlation_columns numeric_cols metrics in
    let (x_col, y_col) :=
      if falsy x_col || falsy y_col
      then (nth 0 numeric_cols "", nth 1 numeric_cols "")
      else (match x_col with Some c => c | None => "" end,
            match y_col with Some c => c | None => "" end) in
    (* the coefficient computed on [df] before the rows with missing cells
       are dropped is not used *)
    let clean_df := dropna2 (series df x_col) (series df y_col) in
    if List.length clean_df <? 3 then
      ret (no_analysis (Some "correlation")
             (Some msg_insufficient_correlation) "scatter")
    else if String.eqb x_col y_col then
      (* [clean_df[x_col]] is then a frame of two columns and [corr] raises *)
      emit (Log LError ("Correlation analysis failed: " ++ duplicate_column_error)) ;;;
      ret (no_analysis (Some "correlation")
             (Some (msg_correlation_failed ++ duplicate_column_error)) "scatter")
    else
      let correlation :=
        match corr clean_df with
        | Some r => r
        | None => 0%R
        end in
      let (strength, direction) := _interpret_correlation correlation in
      let interpretation :=
        _generate_correlation_interpretation
          correlation strength direction x_col y_col in
      ret {| has_analysis := true;
             analysis_type := Some "correlation";
             statistical_result :=
               [("correlation_coefficient", PFloat (round correlation 3));
                ("strength", PStr strength);
                ("direction", PStr direction);
                ("x_variable", PStr x_col);
                ("y_variable", PStr y_col);
                ("sample_size", PInt (Z.of_nat (List.length clean_df)))];
             interpretation := Some interpretation;
             visualization_type := "scatter" |}.

(** [_analyze_trend]. *)
Definition _analyze_trend (df : DataFrame) (intent : Intent)
  (question : string) : Traced Finding :=
  let numeric_cols := numeric_columns df in
  match numeric_cols with
  | [] => ret (no_analysis (Some "trend") (Some msg_no_numeric_trend) "line")
  | metric_col :: _ =>
      let values := dropna (series df metric_col) in
      if List.length values <? 2 then
        ret (no_analysis (Some "trend") (Some msg_insufficient_trend) "line")
      else
        let half := Nat.div (List.length values) 2 in
        let first_half := mean (firstn half values) in
        let second_half := mean (skipn half values) in
        let trend_direction :=
          if Rgt_dec second_half first_half then "increasing" else "decreasing" in
        let trend_strength :=
          if Req_dec_T first_half 0%R then 0%R
          else (Rabs (second_half - first_half) / first_half)%R in
        let interpretation :=
          _generate_trend_interpretation trend_direction trend_strength metric_col in
        ret {| has_analysis := true;
               analysis_type := Some "trend";
               statistical_result :=
                 [("direction", PStr trend_direction);
                  ("strength", PFloat (round trend_strength 3));
                  ("metric", PStr metric_col);
                  ("first_half_avg", PFloat (round first_half 2));
                  ("second_half_avg", PFloat (round second_half 2))];
               interpretation := Some interpretation;
               visualization_type := "line" |}
  end.

(** The comparison and the aggregate analyses. *)
Variable _analyze_comparison : DataFrame -> Intent -> string -> Traced Finding.
Variable _analyze_aggregate : DataFrame -> Intent -> string -> Traced Finding.

(** [_suggest_visualization]. *)
Definition _suggest_visualization (intent_type : IntentType) (df : DataFrame)
  : string :=
  let numeric_cols := numeric_columns df in
  let text_cols := object_columns df in
  match intent_type with
  | ICorrelation =>
      if 2 <=? List.length numeric_cols then "scatter" else "table"
  | IComparison =>
      match text_cols, numeric_cols with
      | _ :: _, _ :: _ => "bar"
      | _, _ :: _ => "bar"
      | _, _ => "table"
      end
  | ITrend => "line"
  | IAggregate => match numeric_cols with _ :: _ => "bar" | [] => "table" end
  | _ => "table"
  end.

(** [analyze]. *)
Definition analyze (data : list Row) (intent : Intent) (question : string)
  : Traced Finding :=
  match data with
  | [] => ret (no_analysis None None "none")
  | _ :: _ =>
      let intent_type := type intent in
      let df := make_DataFrame data in
      match intent_type with
      | ICorrelation => _analyze_correlation df intent question
      | IComparison => _analyze_comparison df intent question
      | ITrend => _analyze_trend df intent question
      | IAggregate => _analyze_aggregate df intent question
      | _ => ret (no_analysis None None (_suggest_visualization intent_type df))
      end
  end.

End Service.

End StatisticalAnalysis.

(* ================================================================= *)
(** ** Notions used by the specification *)

Module Spec.
Import PyStr.

(** The character sequence "limit" occurs in the text, in any letter
    case. *)
Definition HoldsLimitText (sql : string) : Prop :=
  exists pre w post, sql = pre ++ w ++ post /\ lower w = "limit".

(** The text ends with a numeric LIMIT clause: the word, white space, and
    digits up to the end. *)
Definition EndsWithNumericLimit (sql : string) : Prop :=
  exists pre w ws ds last,
    sql = pre ++ w ++ ws ++ ds ++ String last "" /\
    lower w = "limit" /\
    ws <> "" /\ all isspace ws = true /\
    all isdigit ds = true /\ isdigit last = true.

(** The statement has a LIMIT clause: LIMIT stands as a word of its own,
    not inside an identifier. *)
Definition has_limit_clause (sql : string) : bool :=
  search_word false "LIMIT" sql.

(** The token after FROM is LIMIT: the two words with only white space
    between them. *)
Definition FromThenLimit (sql : string) : Prop :=
  exists pre f ws l post,
    sql = pre ++ f ++ ws ++ l ++ post /\
    upper f = "FROM" /\ upper l = "LIMIT" /\
    ws <> "" /\ all isspace ws = true.

(** The reasons with which the completeness check reports a table name
    missing after FROM. *)
Definition missing_table_reasons : list string :=
  ["Query missing table name after FROM clause";
   "Query has LIMIT directly after FROM - missing table name";
   "Query has LIMIT immediately after FROM - missing table name or JOIN clause"].

(** A trace without a call to the validator or to the database. *)
Definition untouched (trace : list Event) : Prop :=
  forall q, ~ In (ValidatorCall q) trace /\ ~ In (DatabaseCall q) trace.

(** An optional column name is unset or names one of [cols]. *)
Definition among (cols : list string) (o : option string) : Prop :=
  match o with
  | None => True
  | Some c => In c cols
  end.

End Spec.

(* ================================================================= *)
(** ** The texts and the numbers the theorems range over *)

Module Domain.
Import PyStr.

(** A text of ASCII characters.  On such a text the white space, the
    digits and the letter case of Python, which follow Unicode, are those
    of [PyStr], and the patterns of [re] match what the matchers of
    [Chains] match. *)
Definition is_ascii (c : ascii) : bool := nat_of_ascii c <? 128.

Definition ascii_text (s : string) : bool := all is_ascii s.

(** An integer of at most seven digits, a million at most in size.  pandas
    holds a column of such cells as [int64]; on at most [max_rows] of them
    the sums that numpy computes in binary floating point are exact, two
    means compare as the real means do, and Pearson's coefficient is not a
    number exactly when a column is constant and rounds to 1 when the
    points lie on a rising line. *)
Definition small_int (c : Cell) : bool :=
  match c with
  | VInt n => (Z.abs n <=? 1000000)%Z
  | _ => false
  end.

Definition max_rows : nat := 100 * 100.


End Domain.

(* ================================================================= *)
(** ** Statements and result sets used as examples *)

Module Examples.
Import PyStr Sqlparse.

Definition sp : Token := Leaf Whitespace " ".

(** A parser that knows one text: [sqlparse.parse] restricted to it. *)
Definition parse_only (sql : string) (statement : Statement)
  : string -> ParseOutcome :=
  fun text => if String.eqb text sql then Parsed [statement] else Parsed [].

(** A SELECT whose common table expression deletes rows. *)
Definition cte_delete_sql : string :=
  "WITH deleted_rows AS (DELETE FROM film RETURNING *) SELECT * FROM deleted_rows LIMIT 5".

(** The statement sqlparse builds for [cte_delete_sql]: the parenthesis
    is a group, a member of the identifier [deleted_rows AS (...)]. *)
Definition cte_delete_statement : Statement :=
  [ Leaf CTE "WITH"; sp;
    Group Identifier
      [ Leaf Name "deleted_rows"; sp; Leaf Keyword "AS"; sp;
        Group Parenthesis
          [ Leaf Punctuation "("; Leaf DML "DELETE"; sp;
            Leaf Keyword "FROM"; sp; Group Identifier [Leaf Name "film"]; sp;
            Leaf Keyword "RETURNING"; sp; Leaf Wildcard "*";
            Leaf Punctuation ")" ] ];
    sp; Leaf DML "SELECT"; sp; Leaf Wildcard "*"; sp;
    Leaf Keyword "FROM"; sp; Group Identifier [Leaf Name "deleted_rows"]; sp;
    Leaf Keyword "LIMIT"; sp; Leaf Number "5" ].

(** A statement that creates a table from a SELECT. *)
Definition create_table_sql : string :=
  "CREATE TABLE film_copy AS SELECT * FROM film LIMIT 5".

Definition create_table_statement : Statement :=
  [ Leaf DDL "CREATE"; sp; Leaf Keyword "TABLE"; sp;
    Group Identifier [Leaf Name "film_copy"]; sp; Leaf Keyword "AS"; sp;
    Leaf DML "SELECT"; sp; Leaf Wildcard "*"; sp;
    Leaf Keyword "FROM"; sp; Group Identifier [Leaf Name "film"]; sp;
    Leaf Keyword "LIMIT"; sp; Leaf Number "5" ].

(** A DELETE, and a call of a stored procedure, as statements of their
    own; sqlparse gives EXEC the type [Keyword]. *)
Definition delete_sql : string := "DELETE FROM film".

Definition delete_statement : Statement :=
  [ Leaf DML "DELETE"; sp; Leaf Keyword "FROM"; sp;
    Group Identifier [Leaf Name "film"] ].

Definition exec_sql : string := "EXEC sp_who".

Definition exec_statement : Statement :=
  [ Leaf Keyword "EXEC"; sp; Group Identifier [Leaf Name "sp_who"] ].

(** A SELECT of a column whose name holds the letters of LIMIT. *)
Definition credit_limit_sql : string := "SELECT credit_limit FROM customers".

Definition credit_limit_statement : Statement :=
  [ Leaf DML "SELECT"; sp; Group Identifier [Leaf Name "credit_limit"]; sp;
    Leaf Keyword "FROM"; sp; Group Identifier [Leaf Name "customers"] ].

(** A query that ends with a numeric LIMIT clause. *)
Definition limited_sql : string := "SELECT title FROM film LIMIT 10".

(** The candidate without a table name. *)
Definition from_limit_sql : string := "SELECT * FROM LIMIT 10".

(** A question that matches two correlation patterns (relationship,
    impact) and two aggregate patterns (total, highest). *)
Definition correlation_question : string :=
  "What is the relationship and impact of the total count on the highest rated films?".

(** The result set of one column [col] holding [cells], in row order. *)
Definition column_rows (col : string) (cells : list Cell) : list Row :=
  List.map (fun c => [(col, c)]) cells.

(** The result set of two columns [cx] and [cy]. *)
Definition two_column_rows (cx cy : string) (cells : list (Cell * Cell))
  : list Row :=
  List.map (fun p => [(cx, fst p); (cy, snd p)]) cells.

(** The numbers held by cells. *)
Definition numbers_of (cells : list Cell) : list R :=
  StatisticalAnalysis.dropna (List.map StatisticalAnalysis.number_of cells).

Definition number_or_zero (c : Cell) : R :=
  match StatisticalAnalysis.number_of c with Some x => x | None => 0%R end.

(** The points held by pairs of cells. *)
Definition points_of (cells : list (Cell * Cell)) : list (R * R) :=
  List.map (fun p => (number_or_zero (fst p), number_or_zero (snd p))) cells.

(** An intent of a given type that names the given metrics. *)
Definition intent_of (t : QueryIntent.IntentType) (metrics : list string)
  : QueryIntent.Intent :=
  {| QueryIntent.type := t;
     QueryIntent.entities := [];
     QueryIntent.metrics := metrics;
     QueryIntent.confidence := 0.7%Q;
     QueryIntent.analysis_required := QueryIntent.requires_analysis t;
     QueryIntent.analysis_type :=
       if QueryIntent.requires_analysis t then Some "statistical" else None |}.

(** [statistical_result["direction"]], and the other entries read by the
    properties. *)
Definition result_of (key : string) (f : StatisticalAnalysis.Finding)
  : option StatisticalAnalysis.PyValue :=
  StatisticalAnalysis.get key (StatisticalAnalysis.statistical_result f).


(** Ten rows with [y = 2x]. *)
Definition doubled_cells : list (Cell * Cell) :=
  List.map (fun n => (VInt n, VInt (2 * n)))
    [1; 2; 3; 4; 5; 6; 7; 8; 9; 10]%Z.


(** Three rows with [y = 2x] and a constant [x]. *)
Definition constant_cells : list (Cell * Cell) :=
  [(VInt 1, VInt 2); (VInt 1, VInt 2); (VInt 1, VInt 2)].

(** Stand-ins for what the service takes from outside: the printing of
    numbers, and the two analyses the properties do not read. *)
Definition plain_format (ndigits : nat) (x : R) : string := "".

Definition plain_analysis (df : StatisticalAnalysis.DataFrame)
  (intent : QueryIntent.Intent) (question : string)
  : Traced StatisticalAnalysis.Finding :=
  ret (StatisticalAnalysis.no_analysis None None "table").

End Examples.

(* ================================================================= *)
(** ** Reading a trace *)

Module Traces.

(** The statements handed to the database, in program order. *)
Fixpoint database_calls (trace : list Event) : list string :=
  match trace with
  | [] => []
  | DatabaseCall q :: rest => q :: database_calls rest
  | _ :: rest => database_calls rest
  end.

(** The texts handed to the validator, in program order. *)
Fixpoint validator_calls (trace : list Event) : list string :=
  match trace with
  | [] => []
  | ValidatorCall q :: rest => q :: validator_calls rest
  | _ :: rest => validator_calls rest
  end.

End Traces.

(* ================================================================= *)
(** ** app/utils/error_messages.py *)

Module ErrorMessages.
Import PyStr.

(** The code points of a text, decoded from its UTF-8 bytes: [pending]
    bytes of the current character are still to come and [acc] holds the
    bits read so far. *)
Fixpoint code_points_from (pending : nat) (acc : N) (s : string) : list N :=
  match s with
  | EmptyString => []
  | String c r =>
      let b := N_of_ascii c in
      match pending with
      | O =>
          if (b <? 128)%N then b :: code_points_from 0 0 r
          else if (b <? 224)%N then code_points_from 1 (b mod 32) r
          else if (b <? 240)%N then code_points_from 2 (b mod 16) r
          else code_points_from 3 (b mod 8) r
      | S O => (acc * 64 + b mod 64)%N :: code_points_from 0 0 r
      | S k => code_points_from k (acc * 64 + b mod 64)%N r
      end
  end.

Definition code_points (text : string) : list N := code_points_from 0 0 text.

Definition between (lo hi cp : N) : bool := ((lo <=? cp) && (cp <=? hi))%N.

(** The class [[\u0600-\u06FF\u0750-\u077F\u08A0-\u08FF\uFB50-\uFDFF\uFE70-\uFEFF]]. *)
Definition arabic_class (cp : N) : bool :=
  between 1536 1791 cp || between 1872 1919 cp || between 2208 2303 cp ||
  between 64336 65023 cp || between 65136 65279 cp.

(** The class [[a-zA-Z\u0600-\u06FF]]. *)
Definition letter_class (cp : N) : bool :=
  between 97 122 cp || between 65 90 cp || between 1536 1791 cp.

(** [len(re.findall(cls, text))] for a class of single characters. *)
Definition count_class (cls : N -> bool) (text : string) : N :=
  N.of_nat (List.length (List.filter cls (code_points text))).

(** [_is_arabic].  The quotient of the two counts is compared with 0.3 as
    a fraction: the rounding of the division does not change the outcome
    of the comparison for a text of fewer than 2^50 characters. *)
Definition _is_arabic (text : string) : bool :=
  if is_empty text then false
  else
    let arabic_chars := count_class arabic_class text in
    let total_chars := count_class letter_class text in
    if (total_chars =? 0)%N then false
    else (3 * total_chars <? 10 * arabic_chars)%N.

Definition nl : string := String "010" EmptyString.

Definition msg_sql_generation_ar : string :=
  "عذراً، لا يمكنني الإجابة على هذا السؤال في الوقت الحالي." ++ nl ++ nl ++
  "السبب: السؤال غير واضح أو لا توجد بيانات كافية في قاعدة البيانات للإجابة عليه." ++ nl ++ nl ++
  "اقتراحات:" ++ nl ++
  "• حاول إعادة صياغة السؤال بشكل أكثر وضوحاً" ++ nl ++
  "• تأكد من أن السؤال يتعلق بالبيانات المتوفرة في قاعدة البيانات" ++ nl ++
  "• استخدم مصطلحات واضحة مثل: 'اعرض'، 'كم عدد'، 'ما هي'، إلخ".

Definition msg_sql_generation_en : string :=
  "I apologize, but I cannot answer this question at the moment." ++ nl ++ nl ++
  "Reason: The question is unclear or there is insufficient data in the database to answer it." ++ nl ++ nl ++
  "Suggestions:" ++ nl ++
  "• Try rephrasing your question more clearly" ++ nl ++
  "• Make sure your question relates to the data available in the database" ++ nl ++
  "• Use clear terms like: 'show', 'how many', 'what are', etc.".

Definition msg_sql_execution_ar : string :=
  "عذراً، لا يمكنني الإجابة على هذا السؤال." ++ nl ++ nl ++
  "السبب: السؤال غير واضح أو لا توجد بيانات كافية في قاعدة البيانات للإجابة عليه." ++ nl ++ nl ++
  "اقتراحات:" ++ nl ++
  "• حاول إعادة صياغة السؤال بشكل أكثر تحديداً" ++ nl ++
  "• تأكد من ذكر الجداول أو البيانات التي تريد الاستعلام عنها" ++ nl ++
  "• مثال: 'اعرض جميع الفئات' أو 'كم عدد الأفلام في كل فئة؟'".

Definition msg_sql_execution_en : string :=
  "I apologize, but I cannot answer this question." ++ nl ++ nl ++
  "Reason: The question is unclear or there is insufficient data in the database to answer it." ++ nl ++ nl ++
  "Suggestions:" ++ nl ++
  "• Try rephrasing your question more specifically" ++ nl ++
  "• Make sure to mention the tables or data you want to query" ++ nl ++
  "• Example: 'Show all categories' or 'How many films are in each category?'".

Definition msg_no_data_ar : string :=
  "تم تنفيذ الاستعلام بنجاح، لكن لم يتم العثور على أي بيانات." ++ nl ++ nl ++
  "هذا يعني أن قاعدة البيانات لا تحتوي على بيانات تطابق معايير البحث الخاصة بك.".

Definition msg_no_data_en : string :=
  "The query was executed successfully, but no data was found." ++ nl ++ nl ++
  "This means the database does not contain any data matching your search criteria.".

Definition msg_general_error_ar : string :=
  "عذراً، حدث خطأ أثناء معالجة سؤالك." ++ nl ++ nl ++
  "السبب: السؤال غير واضح أو لا توجد بيانات كافية للإجابة عليه." ++ nl ++ nl ++
  "يرجى المحاولة مرة أخرى أو إعادة صياغة السؤال.".

Definition msg_general_error_en : string :=
  "I apologize, an error occurred while processing your question." ++ nl ++ nl ++
  "Reason: The question is unclear or there is insufficient data to answer it." ++ nl ++ nl ++
  "Please try again or rephrase your question.".

Definition msg_default_ar : string :=
  "عذراً، لا يمكنني الإجابة على هذا السؤال." ++ nl ++ nl ++
  "السبب: السؤال غير واضح أو لا توجد بيانات كافية في قاعدة البيانات للإجابة عليه." ++ nl ++ nl ++
  "يرجى المحاولة مرة أخرى أو إعادة صياغة السؤال بشكل أكثر وضوحاً.".

Definition msg_default_en : string :=
  "I apologize, but I cannot answer this question." ++ nl ++ nl ++
  "Reason: The question is unclear or there is insufficient data in the database to answer it." ++ nl ++ nl ++
  "Please try again or rephrase your question more clearly.".

(** [get_professional_error_message]. *)
Definition get_professional_error_message
  (question error_type : string) (technical_error : option string) : string :=
  let is_arabic := _is_arabic question in
  if String.eqb error_type "sql_generation" then
    if is_arabic then msg_sql_generation_ar else msg_sql_generation_en
  else if String.eqb error_type "sql_execution" ||
          String.eqb error_type "incomplete_query" then
    if is_arabic then msg_sql_execution_ar else msg_sql_execution_en
  else if String.eqb error_type "no_data" then
    if is_arabic then msg_no_data_ar else msg_no_data_en
  else if String.eqb error_type "general_error" then
    if is_arabic then msg_general_error_ar else msg_general_error_en
  else
    if is_arabic then msg_default_ar else msg_default_en.

End ErrorMessages.

(* ================================================================= *)
(** ** app/llm/question_classifier.py *)

Module QuestionClassifier.
Import PyStr Chains.

(** [s.replace(old, "")] for a non-empty [old]: the occurrences are taken
    from left to right and do not overlap; [skip] characters of the
    occurrence being removed are still to be dropped. *)
Fixpoint remove_from (old : string) (skip : nat) (s : string) : string :=
  match s with
  | EmptyString => EmptyString
  | String c r =>
      match skip with
      | S k => remove_from old k r
      | O =>
          if String.prefix old s
          then remove_from old (String.length old - 1) r
          else String c (remove_from old 0 r)
      end
  end.

Definition remove (old s : string) : string := remove_from old 0 s.

Definition database_indicators : list string :=
  ["database"; "db"; "data query"; "query data"; "retrieve data";
   "requires database"].

Definition general_indicators : list string :=
  ["general"; "concept"; "explain"; "theory"; "definition"; "conceptual"].

(** [sum(1 for indicator in indicators if indicator in text)]. *)
Definition count_in (indicators : list string) (text : string) : nat :=
  List.length (List.filter (fun indicator => contains indicator text) indicators).

(** [classification_lower] after the prefixes are removed. *)
Definition cleaned (content : string) : string :=
  let classification := lower (strip content) in
  let classification_lower := strip (lower classification) in
  strip (remove "classification:" (remove "the answer is" classification_lower)).

(** [text.split()[0] if text.split() else ""]. *)
Definition first_word (text : string) : string :=
  fst (span nospace (lstrip_by isspace text)).

(** The decision taken on the answer of the model. *)
Definition decide (content : string) : bool :=
  let classification_lower := cleaned content in
  let db_matches := count_in database_indicators classification_lower in
  let gen_matches := count_in general_indicators classification_lower in
  if gen_matches <? db_matches then true
  else if db_matches <? gen_matches then false
  else
    let first_word := first_word classification_lower in
    if mem first_word ["database"; "db"] then true
    else if String.eqb first_word "general" then false
    else true.

Section Classifier.

(** [self._available]. *)
Variable available : bool.

(** [gemini_client.client.invoke] on the prompt made of the question. *)
Variable gemini_invoke : string -> LLMOutcome.

(** [classify]: [(success, is_database_related, error_message)]. *)
Definition classify (question : string)
  : Traced (bool * bool * option string) :=
  if negb available then ret (true, true, None)
  else
    match gemini_invoke question with
    | Response content =>
        let is_database_related := decide content in
        emit (Log LInfo "Question classified") ;;;
        ret (true, is_database_related, None)
    | LLMRaised error_msg =>
        emit (Log LError ("Question classification failed: " ++ error_msg)) ;;;
        ret (true, true,
             Some ("Classification failed, defaulting to database: " ++ error_msg))
    end.

End Classifier.

End QuestionClassifier.

(* ================================================================= *)
(** ** app/services/visualization_service.py *)

Module VisualizationService.
Import PyStr QueryIntent StatisticalAnalysis.

(** What the chart engine answers: the address and the path of the chart
    it drew, an error, or an exception raised while the frame, the prompt
    or the chart is built. *)
Inductive EngineOutcome :=
| EngineChart (chart_url chart_path : string)
| EngineFailed (error : string)
| EngineRaised (message : string).

(** The entry ["chart"] of the result. *)
Record Chart := {
  chart_type : string;
  url : string;
  path : string
}.

(** The dictionary that [generate_chart] returns. *)
Record ChartResult := {
  chart_success : bool;
  chart : option Chart;
  chart_error : option string
}.

Definition failed (error : string) : ChartResult :=
  {| chart_success := false; chart := None; chart_error := Some error |}.

Section Service.

(** [self._available]. *)
Variable available : bool.

(** [build_visualization_prompt] of [app/visualization/prompts.py]. *)
Variable build_visualization_prompt :
  string -> Intent -> list (string * PyValue) -> string.

(** [self.pandasai_engine.generate_chart]: frame, prompt, chart type. *)
Variable engine_generate_chart : DataFrame -> string -> string -> EngineOutcome.

(** [generate_chart]. *)
Definition generate_chart (data : list Row) (visualization_type : string)
  (intent : Intent) (statistical_insights : list (string * PyValue))
  : Traced ChartResult :=
  if negb available then
    emit (Log LWarning "Chart generation attempted but service not available") ;;;
    ret (failed "Visualization service not available")
  else
    match data with
    | [] => ret (failed "No data to visualize")
    | _ :: _ =>
        if String.eqb visualization_type "none" ||
           String.eqb visualization_type "table" then
          ret (failed "No visualization needed for table display")
        else
          let df := make_DataFrame data in
          let stats := statistical_insights in
          let prompt :=
            build_visualization_prompt visualization_type intent stats in
          match engine_generate_chart df prompt visualization_type with
          | EngineChart chart_url chart_path =>
              ret {| chart_success := true;
                     chart := Some {| chart_type := visualization_type;
                                      url := chart_url;
                                      path := chart_path |};
                     chart_error := None |}
          | EngineFailed error => ret (failed error)
          | EngineRaised error_msg =>
              emit (Log LError ("Visualization service error: " ++ error_msg)) ;;;
              ret (failed ("Visualization error: " ++ error_msg))
          end
    end.

End Service.

End VisualizationService.

(* ================================================================= *)
(** ** app/services/chat_service.py: the answer of [handle_question] *)

Module Presentation.
Import PyStr QueryIntent StatisticalAnalysis VisualizationService.

(** The formatted response, as [handle_question] reads it: the entries
    [response], [data], [needs_visualization] and [visualization_type],
    each with the type the formatter gives it. *)
Record Formatted := {
  response : string;
  formatted_data : list Row;
  llm_needs_visualization : bool;
  llm_visualization_type : string
}.

(** The dictionary returned for a question answered from the database. *)
Record Reply := {
  success : bool;
  answer : string;
  sql_query : option string;
  data : list Row;
  needs_visualization : bool;
  visualization_type : string;
  statistical_insights : list (string * PyValue);
  chart : option Chart;
  is_database_related : bool;
  error : option string;
  steps : list string
}.

Definition chart_keywords : list string :=
  ["رسم بياني"; "مخطط"; "chart"; "graph"; "visualize"; "plot"].

Definition analysis_keywords : list string :=
  ["تحليل"; "إحصائ"; "احصائ"; "مقارنة"; "اتجاه"; "ترند"; "ارتباط"; "علاقة";
   "رسم"; "مخطط"; "رسم بياني"; "بياني"; "visual";
   "analysis"; "statistics"; "statistical"; "compare"; "comparison";
   "trend"; "correlation";
   "chart"; "graph"; "plot"; "visualize"; "visualisation"; "visualization"].

(** [any(k in text for k in keywords)]. *)
Definition any_in (keywords : list string) (text : string) : bool :=
  existsb (fun k => contains k text) keywords.

(** [_user_requested_analysis]. *)
Definition _user_requested_analysis (question : string) : bool :=
  let q := lower question in
  any_in analysis_keywords q.

(** [_enhance_schema_with_intent]. *)
Definition _enhance_schema_with_intent (schema_context : string)
  (intent : Intent) : string :=
  let intent_hint := nl ++ nl ++ "Query Intent: " ++ type_name (type intent) in
  let intent_hint :=
    match entities intent with
    | [] => intent_hint
    | _ :: _ =>
        intent_hint ++ nl ++ "Relevant Entities: " ++
        String.concat ", " (entities intent)
    end in
  let intent_hint :=
    match metrics intent with
    | [] => intent_hint
    | _ :: _ =>
        intent_hint ++ nl ++ "Requested Metrics: " ++
        String.concat ", " (metrics intent)
    end in
  schema_context ++ intent_hint.

(** [isinstance(value, (int, float))]: a Boolean is an integer. *)
Definition is_int_or_float (value : Cell) : bool :=
  match value with
  | VBool _ | VInt _ | VFloat _ => true
  | _ => false
  end.

(** [_determine_visualization]: [(needs_visualization, visualization_type)]. *)
Definition _determine_visualization (data : list Row) (intent : Intent)
  (llm_suggestion : bool) : bool * string :=
  match data with
  | [] => (false, "none")
  | first :: _ =>
      let row_count := List.length data in
      let has_numeric := existsb (fun kv => is_int_or_float (snd kv)) first in
      if mem (type_name (type intent)) ["comparison"; "trend"; "correlation"] &&
         (1 <? row_count) && has_numeric
      then (true, "chart")
      else if String.eqb (type_name (type intent)) "aggregate" && (1 <? row_count)
      then (true, if has_numeric then "bar" else "table")
      else if llm_suggestion && (1 <? row_count)
      then (true, "chart")
      else (false, "none")
  end.

Section Handler.

(** [settings.SHOW_SQL_TO_USER]. *)
Variable show_sql_to_user : bool.

(** [visualization_service.generate_chart]. *)
Variable generate_chart :
  list Row -> string -> Intent -> list (string * PyValue) -> Traced ChartResult.

(** The visualization decided from the formatted response, the analysis,
    the intent and the question. *)
Definition decide_visualization (question : string) (intent : Intent)
  (statistical_analysis : Finding) (formatted : Formatted)
  : Traced (bool * string) :=
  let needs_visualization := llm_needs_visualization formatted in
  let visualization_type := llm_visualization_type formatted in
  if needs_visualization then
    let visualization_type :=
      if has_analysis statistical_analysis then
        let suggested_viz :=
          StatisticalAnalysis.visualization_type statistical_analysis in
        if negb (String.eqb suggested_viz "none") && negb (is_empty suggested_viz)
        then suggested_viz else visualization_type
      else visualization_type in
    let visualization_type :=
      if mem visualization_type ["chart"; "graph"; "none"] then
        if mem (type_name (type intent)) ["aggregate"; "comparison"] ||
           contains "top" (lower question) || contains "أعلى" (lower question)
        then "bar"
        else if String.eqb (type_name (type intent)) "trend" then "line"
        else "bar"
      else visualization_type in
    ret (true, visualization_type)
  else
    if any_in chart_keywords (lower question) then
      emit (Log LInfo "User explicitly requested chart, enabling visualization") ;;;
      ret (true, "bar")
    else ret (false, visualization_type).

(** Step 8 of [handle_question], for a formatted response: the reply. *)
Definition present (question : string) (sql_query : option string)
  (data : option (list Row)) (intent : Intent) (statistical_analysis : Finding)
  (formatted : Formatted) (steps : list string) : Traced Reply :=
  let rows := match data with Some d => d | None => [] end in
  let answer := response formatted in
  let steps := (steps ++ ["response_formatted"])%list in
  r <- decide_visualization question intent statistical_analysis formatted ;;
  let '(needs_visualization, visualization_type) := r in
  chart_result <-
    (if needs_visualization && negb (String.eqb visualization_type "none") &&
        negb (String.eqb visualization_type "table")
     then
       c <- generate_chart rows visualization_type intent
              (statistical_result statistical_analysis) ;;
       (if chart_success c then ret tt
        else emit (Log LWarning ("Chart generation failed: " ++
                                 Executor.str_of_option (chart_error c)))) ;;;
       ret (Some c)
     else ret None) ;;
  let answer :=
    if _user_requested_analysis question && has_analysis statistical_analysis &&
       negb (falsy (interpretation statistical_analysis))
    then
      match interpretation statistical_analysis with
      | Some insight => insight ++ nl ++ nl ++ answer
      | None => answer
      end
    else answer in
  ret {| success := true;
         answer := answer;
         sql_query := if show_sql_to_user then sql_query else None;
         data := formatted_data formatted;
         needs_visualization := needs_visualization;
         visualization_type := visualization_type;
         statistical_insights := statistical_result statistical_analysis;
         chart :=
           match chart_result with
           | Some c => if chart_success c then VisualizationService.chart c else None
           | None => None
           end;
         is_database_related := true;
         error := None;
         steps := steps |}.

End Handler.

End Presentation.

(* ================================================================= *)
(** ** app/utils/json_sanitizer.py *)

Module JsonSanitizer.
Import PyStr.

(** A Python [float]: a finite number, or one of the three values that
    JSON cannot hold. *)
Inductive PyFloat :=
| Finite (x : R)
| NaN
| PosInf
| NegInf.

(** A key of a dictionary. *)
Inductive Key :=
| KStr (s : string)
| KInt (n : Z)
| KBool (b : bool)
| KNone
| KOther (text : string).

(** [str(k)]; for a key of another type the text is part of the key. *)
Definition str_of_key (k : Key) : string :=
  match k with
  | KStr s => s
  | KInt n => str_of_int n
  | KBool true => "True"
  | KBool false => "False"
  | KNone => "None"
  | KOther text => text
  end.

(** The objects that reach [sanitize_for_json].  A date, a UUID and an
    object of another type carry the text that [isoformat] or [str] gives;
    a numpy floating number carries what [float] gives, an object of
    another type what [float] gives if it gives anything, the failure
    being caught; a decimal carries what [float] gives, or nothing when
    [float] raises, as it does on a signaling NaN, where nothing catches
    it; a set carries its members in the order of iteration. *)
Inductive Obj :=
| ONone
| OStr (s : string)
| OBool (b : bool)
| OInt (n : Z)
| OFloat (f : PyFloat)
| ODate (isoformat : string)
| OUUID (text : string)
| ODecimal (as_float : option PyFloat)
| ONpInteger (n : Z)
| ONpFloating (as_float : PyFloat)
| ONpBool (b : bool)
| ODict (items : list (Key * Obj))
| OList (members : list Obj)
| OTuple (members : list Obj)
| OSet (members : list Obj)
| OOther (as_float : option PyFloat) (text : string).

(** [_is_finite_float]. *)
Definition _is_finite_float (value : PyFloat) : bool :=
  match value with
  | Finite _ => true
  | _ => false
  end.

(** [f if _is_finite_float(f) else None]. *)
Definition finite_or_none (f : PyFloat) : Obj :=
  if _is_finite_float f then OFloat f else ONone.

(** [d[k] = v] on a dictionary kept in insertion order: a key already
    there keeps its place and takes the new value. *)
Fixpoint dict_set (k : string) (v : Obj) (d : list (string * Obj))
  : list (string * Obj) :=
  match d with
  | [] => [(k, v)]
  | (k', v') :: rest =>
      if String.eqb k' k then (k', v) :: rest
      else (k', v') :: dict_set k v rest
  end.

(** The dictionary built from pairs in order. *)
Definition dict_of (pairs : list (string * Obj)) : list (string * Obj) :=
  fold_left (fun d kv => dict_set (fst kv) (snd kv) d) pairs [].

(** The members of a comprehension, evaluated in order: the first one
    that raises ends it. *)
Fixpoint all_some {A : Type} (results : list (option A)) : option (list A) :=
  match results with
  | [] => Some []
  | None :: _ => None
  | Some x :: rest =>
      match all_some rest with
      | Some xs => Some (x :: xs)
      | None => None
      end
  end.

(** [sanitize_for_json]; the result is [None] when the call raises. *)
Fixpoint sanitize_for_json (obj : Obj) : option Obj :=
  match obj with
  | ONone => Some ONone
  | OStr _ | OBool _ | OInt _ => Some obj
  | OFloat f => Some (finite_or_none f)
  | ODate isoformat => Some (OStr isoformat)
  | OUUID text => Some (OStr text)
  | ODecimal (Some f) => Some (finite_or_none f)
  | ODecimal None => None
  | ONpInteger n => Some (OInt n)
  | ONpFloating f => Some (finite_or_none f)
  | ONpBool b => Some (OBool b)
  | ODict items =>
      match
        all_some
          (List.map
             (fun kv =>
                match sanitize_for_json (snd kv) with
                | Some v => Some (str_of_key (fst kv), v)
                | None => None
                end)
             items)
      with
      | Some pairs =>
          Some (ODict (List.map (fun kv => (KStr (fst kv), snd kv))
                         (dict_of pairs)))
      | None => None
      end
  | OList members | OTuple members | OSet members =>
      match all_some (List.map sanitize_for_json members) with
      | Some values => Some (OList values)
      | None => None
      end
  | OOther (Some f) _ => Some (finite_or_none f)
  | OOther None text => Some (OStr text)
  end.

Definition is_str_key (k : Key) : bool :=
  match k with KStr _ => true | _ => false end.

(** The values of JSON: [None], strings, Booleans, integers, finite
    floats, lists of such values and dictionaries from strings to such
    values. *)
Fixpoint json_safe (obj : Obj) : bool :=
  match obj with
  | ONone | OStr _ | OBool _ | OInt _ => true
  | OFloat f => _is_finite_float f
  | ODict items =>
      forallb (fun kv => is_str_key (fst kv) && json_safe (snd kv)) items
  | OList members => forallb json_safe members
  | _ => false
  end.

(** Every decimal of the object, at any depth, converts to a float. *)
Fixpoint converts (obj : Obj) : bool :=
  match obj with
  | ODecimal None => false
  | ODict items => forallb (fun kv => converts (snd kv)) items
  | OList members | OTuple members | OSet members => forallb converts members
  | _ => true
  end.

(** The number of containers around the innermost member. *)
Fixpoint depth (obj : Obj) : nat :=
  match obj with
  | ODict items =>
      S (fold_right (fun kv d => Nat.max (depth (snd kv)) d) 0 items)
  | OList members | OTuple members | OSet members =>
      S (fold_right (fun m d => Nat.max (depth m) d) 0 members)
  | _ => 0
  end.

(** [str] of an integer of more than 4300 digits raises in the versions
    of Python that limit the conversion; a key within the limit prints in
    every version. *)
Definition key_prints (k : Key) : bool :=
  match k with
  | KInt n => String.length (str_of_int (Z.abs n)) <=? 4300
  | _ => true
  end.

Fixpoint keys_print (obj : Obj) : bool :=
  match obj with
  | ODict items =>
      forallb (fun kv => key_prints (fst kv) && keys_print (snd kv)) items
  | OList members | OTuple members | OSet members => forallb keys_print members
  | _ => true
  end.

(** The objects on which the recursion stays far from the limit of the
    interpreter and every key prints. *)
Definition plain (obj : Obj) : bool :=
  (depth obj <=? 100) && keys_print obj.

End JsonSanitizer.

(* ================================================================= *)
(** ** More statements, answers and result sets used as examples *)

Module MoreExamples.
Import PyStr Sqlparse Examples.

(** A SELECT followed by a second statement. *)
Definition select_then_drop_sql : string := "SELECT 1; DROP TABLE film".

(** The statements sqlparse splits [select_then_drop_sql] into; the white
    space after the semicolon closes the first one. *)
Definition select_one_statement : Statement :=
  [ Leaf DML "SELECT"; sp; Leaf Number "1"; Leaf Punctuation ";"; sp ].

Definition drop_table_statement : Statement :=
  [ Leaf DDL "DROP"; sp; Leaf Keyword "TABLE"; sp;
    Group Identifier [Leaf Name "film"] ].

Definition parse_select_then_drop : string -> ParseOutcome :=
  fun text =>
    if String.eqb text select_then_drop_sql
    then Parsed [select_one_statement; drop_table_statement]
    else Parsed [].

Definition newline : string := String "010" EmptyString.

(** The text of an answer of the model: a query inside a code fence. *)
Definition fenced_body : string := "sql" ++ newline ++ limited_sql ++ newline.

(** An answer of the model that holds no query. *)
Definition refusal_text : string := "I cannot answer that from the schema.".

(** A payload with a statistic that is not a number, a decimal under a
    key that is a number, and a list under the text of that key; and what
    [sanitize_for_json] makes of it. *)
Definition leaky_payload : JsonSanitizer.Obj :=
  JsonSanitizer.ODict
    [ (JsonSanitizer.KStr "average", JsonSanitizer.OFloat JsonSanitizer.NaN);
      (JsonSanitizer.KInt 1,
       JsonSanitizer.ODecimal (Some (JsonSanitizer.Finite 2.5%R)));
      (JsonSanitizer.KStr "1",
       JsonSanitizer.OList
         [ JsonSanitizer.ONpInteger 3;
           JsonSanitizer.OTuple [JsonSanitizer.OBool true] ]) ].

Definition sanitized_payload : JsonSanitizer.Obj :=
  JsonSanitizer.ODict
    [ (JsonSanitizer.KStr "average", JsonSanitizer.ONone);
      (JsonSanitizer.KStr "1",
       JsonSanitizer.OList
         [ JsonSanitizer.OInt 3;
           JsonSanitizer.OList [JsonSanitizer.OBool true] ]) ].

(** A rise from -8 to -1: the mean of the first half is negative. *)
Definition warming_cells : list Cell := List.map VInt [-8; -6; -2; -1]%Z.

(** Two rows of a ranking, a formatted response that asks for a chart of
    a generic type, an engine that draws what it is asked, and the reply
    of [present] to them. *)
Definition category_rows : list Row :=
  [ [("name", VText "Action"); ("revenue", VInt 10)];
    [("name", VText "Drama"); ("revenue", VInt 7)] ].

Definition chart_request : Presentation.Formatted :=
  {| Presentation.response := "Action earns the most.";
     Presentation.formatted_data := category_rows;
     Presentation.llm_needs_visualization := true;
     Presentation.llm_visualization_type := "chart" |}.

Definition plain_prompt (visualization_type : string)
  (intent : QueryIntent.Intent)
  (stats : list (string * StatisticalAnalysis.PyValue)) : string :=
  visualization_type.

Definition drawing_engine (df : StatisticalAnalysis.DataFrame)
  (prompt chart_type : string) : VisualizationService.EngineOutcome :=
  VisualizationService.EngineChart
    ("/charts/generated/" ++ chart_type ++ ".png")
    ("charts/" ++ chart_type ++ ".png").

Definition sample_chart : VisualizationService.Chart :=
  {| VisualizationService.chart_type := "bar";
     VisualizationService.url := "/charts/generated/bar.png";
     VisualizationService.path := "charts/bar.png" |}.

Definition sample_reply : Presentation.Reply :=
  fst (Presentation.present true
         (VisualizationService.generate_chart true plain_prompt drawing_engine)
         "top categories by revenue" (Some limited_sql) (Some category_rows)
         (intent_of QueryIntent.IAggregate [])
         (StatisticalAnalysis.no_analysis (Some "aggregate") None "bar")
         chart_request []).

End MoreExamples.

(* ================================================================= *)
(** ** Facts on Python strings *)

Section StringFacts.
Import PyStr.

Lemma append_assoc (a b c : string) : (a ++ b) ++ c = a ++ (b ++ c).
Proof. induction a as [|x a IH]; simpl; [reflexivity | now rewrite IH]. Qed.

Lemma append_empty_r (a : string) : a ++ "" = a.
Proof. induction a as [|x a IH]; simpl; [reflexivity | now rewrite IH]. Qed.

Lemma map_append f (a b : string) : map f (a ++ b) = map f a ++ map f b.
Proof. induction a as [|x a IH]; simpl; [reflexivity | now rewrite IH]. Qed.

Lemma upper_append (a b : string) : upper (a ++ b) = upper a ++ upper b.
Proof. apply map_append. Qed.

Lemma prefix_append (p r : string) : String.prefix p (p ++ r) = true.
Proof.
  induction p as [|x p IH]; simpl.
  - now destruct r.
  - destruct (ascii_dec x x) as [_|N]; [exact IH | now elim N].
Qed.

Lemma prefix_split (p s : string) :
  String.prefix p s = true -> exists r, s = p ++ r.
Proof.
  revert s; induction p as [|x p IH]; intros s H.
  - now exists s.
  - destruct s as [|y s]; simpl in H; [discriminate|].
    destruct (ascii_dec x y) as [->|_]; [|discriminate].
    destruct (IH s H) as [r ->]. now exists r.
Qed.

Lemma contains_prefix (sub s : string) :
  String.prefix sub s = true -> contains sub s = true.
Proof. intros H. destruct s; cbn [contains]; now rewrite H. Qed.

Lemma contains_append (sub a b : string) : contains sub (a ++ sub ++ b) = true.
Proof.
  induction a as [|x a IH]; simpl.
  - apply contains_prefix, prefix_append.
  - rewrite IH. apply orb_true_r.
Qed.

Lemma contains_split (sub s : string) :
  contains sub s = true -> exists a b, s = a ++ sub ++ b.
Proof.
  induction s as [|x s IH]; cbn [contains]; intros H.
  - rewrite orb_false_r in H. destruct (prefix_split _ _ H) as [r E].
    now exists "", r.
  - apply orb_true_iff in H as [H|H].
    + destruct (prefix_split _ _ H) as [r E]. now exists "", r.
    + destruct (IH H) as (a & b & ->). now exists (String x a), b.
Qed.

(** Case mapping leaves white space, digits and the semicolon alone. *)
Lemma upper_lower_char (c : ascii) : upper_char (lower_char c) = upper_char c.
Proof. destruct c as [[] [] [] [] [] [] [] []]; reflexivity. Qed.

Lemma isspace_upper_char (c : ascii) : isspace (upper_char c) = isspace c.
Proof. destruct c as [[] [] [] [] [] [] [] []]; reflexivity. Qed.

Lemma semicolon_upper_char (c : ascii) :
  Ascii.eqb (upper_char c) ";" = Ascii.eqb c ";".
Proof. destruct c as [[] [] [] [] [] [] [] []]; reflexivity. Qed.

Lemma upper_lower (s : string) : upper (lower s) = upper s.
Proof.
  induction s as [|x s IH]; simpl; [reflexivity|].
  unfold upper, lower in *; simpl. now rewrite upper_lower_char, IH.
Qed.

(** Stripping keeps what lies between two characters that are not
    stripped. *)
Lemma lstrip_by_keep p (a : string) c t :
  p c = false -> lstrip_by p (a ++ String c t) = lstrip_by p a ++ String c t.
Proof.
  intros H; induction a as [|x a IH]; simpl.
  - now rewrite H.
  - destruct (p x); [exact IH | reflexivity].
Qed.

Lemma rstrip_by_keep p (a : string) c t :
  p c = false -> rstrip_by p (a ++ String c t) = a ++ String c (rstrip_by p t).
Proof.
  intros H; induction a as [|x a IH]; simpl.
  - rewrite H. now destruct (rstrip_by p t).
  - rewrite IH. now destruct a.
Qed.

Lemma lstrip_by_idem p (s : string) :
  lstrip_by p (lstrip_by p s) = lstrip_by p s.
Proof.
  induction s as [|x s IH]; simpl; [reflexivity|].
  destruct (p x) eqn:E; [exact IH | simpl; now rewrite E].
Qed.

Lemma strip_keep (a : string) c1 mid c2 b :
  isspace c1 = false -> isspace c2 = false ->
  strip (a ++ String c1 (mid ++ String c2 b)) =
  lstrip_by isspace a ++ String c1 (mid ++ String c2 (rstrip_by isspace b)).
Proof.
  intros H1 H2. unfold strip. rewrite lstrip_by_keep by exact H1.
  change (String c1 (mid ++ String c2 b)) with (String c1 mid ++ String c2 b).
  rewrite <- append_assoc, rstrip_by_keep by exact H2.
  now rewrite append_assoc.
Qed.

End StringFacts.

(* ================================================================= *)
(** ** The security validator *)

Section SecurityFacts.
Import PyStr Sqlparse Security Executor Spec Examples.

Lemma lstrip_by_suffix p (s : string) : exists a, s = a ++ lstrip_by p s.
Proof.
  induction s as [|x s [a IH]]; simpl.
  - now exists "".
  - destruct (p x).
    + exists (String x a). simpl. now rewrite <- IH.
    + now exists "".
Qed.

Lemma rstrip_by_prefix p (s : string) : exists b, s = rstrip_by p s ++ b.
Proof.
  induction s as [|x s [b IH]]; simpl.
  - now exists "".
  - destruct (rstrip_by p s) as [|y r] eqn:E.
    + destruct (p x).
      * now exists (String x s).
      * exists s. reflexivity.
    + exists b. simpl in *. now rewrite <- IH.
Qed.

Lemma map_split f (s a b : string) :
  map f s = a ++ b -> exists s1 s2, s = s1 ++ s2 /\ map f s1 = a /\ map f s2 = b.
Proof.
  revert s; induction a as [|x a IH]; intros s H.
  - now exists "", s.
  - destruct s as [|y s]; simpl in H; [discriminate|].
    injection H as Hx H. destruct (IH s H) as (s1 & s2 & -> & H1 & H2).
    exists (String y s1), s2. simpl. now rewrite Hx, H1.
Qed.

(** A word that reads LIMIT in upper case starts and ends with a
    character that no stripping removes. *)
Lemma limit_word_shape (w : string) :
  upper w = "LIMIT" ->
  exists c1 mid c2,
    w = String c1 (mid ++ String c2 "") /\
    isspace c1 = false /\ isspace c2 = false /\ Ascii.eqb c2 ";" = false.
Proof.
  intros H.
  destruct w as [|c1 [|m1 [|m2 [|m3 [|c2 [|? ?]]]]]]; try discriminate.
  injection H as H1 _ _ _ H5.
  exists c1, (String m1 (String m2 (String m3 ""))), c2.
  repeat split.
  - now rewrite <- isspace_upper_char, H1.
  - now rewrite <- isspace_upper_char, H5.
  - now rewrite <- semicolon_upper_char, H5.
Qed.

Lemma word_between (c1 c2 : ascii) (mid b : string) :
  String c1 (mid ++ String c2 b) = String c1 (mid ++ String c2 "") ++ b.
Proof. simpl. now rewrite append_assoc. Qed.

Lemma has_limit_around (a b : string) c1 mid c2 :
  upper (String c1 (mid ++ String c2 "")) = "LIMIT" ->
  _has_limit (a ++ String c1 (mid ++ String c2 b)) = true.
Proof.
  intros Hw. unfold _has_limit.
  rewrite word_between, !upper_append, Hw. apply contains_append.
Qed.

(** Stripping white space and semicolons from the ends keeps a LIMIT
    inside the text. *)
Lemma has_limit_stripped (sql : string) :
  _has_limit sql = true -> _has_limit (rstrip_semicolon (strip sql)) = true.
Proof.
  unfold _has_limit at 1. intros H.
  destruct (contains_split _ _ H) as (a & b & E).
  destruct (map_split _ _ _ _ E) as (pre & rest & -> & Ha & E2).
  destruct (map_split _ _ _ _ E2) as (w & post & -> & Hw & Hb).
  destruct (limit_word_shape w Hw) as (c1 & mid & c2 & -> & S1 & S2 & S3).
  simpl. rewrite append_assoc. simpl.
  rewrite strip_keep by assumption.
  unfold rstrip_semicolon.
  change (String c1 (mid ++ String c2 (rstrip_by isspace post)))
    with (String c1 mid ++ String c2 (rstrip_by isspace post)).
  rewrite <- append_assoc, rstrip_by_keep by exact S3.
  rewrite append_assoc. simpl.
  now apply has_limit_around.
Qed.

Lemma has_limit_unstripped (sql : string) :
  _has_limit (rstrip_semicolon (strip sql)) = true -> _has_limit sql = true.
Proof.
  unfold _has_limit, rstrip_semicolon, strip. intros H.
  destruct (contains_split _ _ H) as (a & b & E).
  destruct (lstrip_by_suffix isspace sql) as [l El].
  destruct (rstrip_by_prefix isspace (lstrip_by isspace sql)) as [r1 Er1].
  destruct (rstrip_by_prefix (fun c => Ascii.eqb c ";")
              (rstrip_by isspace (lstrip_by isspace sql))) as [r2 Er2].
  rewrite El, Er1, Er2, !upper_append, E, !append_assoc.
  rewrite <- (append_assoc (upper l)). apply contains_append.
Qed.

Lemma has_limit_strip (sql : string) :
  _has_limit (rstrip_semicolon (strip sql)) = _has_limit sql.
Proof.
  destruct (_has_limit sql) eqn:E.
  - now apply has_limit_stripped.
  - destruct (_has_limit (rstrip_semicolon (strip sql))) eqn:E2; [|reflexivity].
    apply has_limit_unstripped in E2. congruence.
Qed.

Lemma holds_limit_text_has_limit (sql : string) :
  HoldsLimitText sql -> _has_limit sql = true.
Proof.
  intros (pre & w & post & -> & Hw). unfold _has_limit.
  rewrite !upper_append, <- (upper_lower w), Hw. apply contains_append.
Qed.

End SecurityFacts.

Section SecurityClaims.
Import PyStr Sqlparse Security Executor Spec Examples.

Lemma digit_not_stripped (d : ascii) :
  isdigit d = true -> isspace d = false /\ Ascii.eqb d ";" = false.
Proof. destruct d as [[] [] [] [] [] [] [] []]; cbv; intuition discriminate. Qed.

(** [sanitize] on a text with a LIMIT in it. *)
Lemma sanitize_with_limit settings (sql : string) :
  _has_limit sql = true ->
  sanitize settings sql = rstrip_semicolon (strip sql).
Proof. intros H. unfold sanitize. now rewrite has_limit_strip, H. Qed.

(** The only warning [validate] logs is the one on a missing LIMIT. *)
Lemma validate_warns_only_without_limit settings parse (sql message : string) :
  In (Log LWarning message) (snd (validate settings parse sql)) ->
  _has_limit sql = false.
Proof.
  unfold validate.
  destruct (is_empty sql || is_empty (strip sql)); [intros []|].
  destruct (parse (strip sql)) as [[|statement rest]|e]; simpl.
  - intros [].
  - destruct (check_tokens settings statement); [intros []|].
    destruct (_is_select_only statement); simpl; [|intros []].
    destruct (_has_limit sql); simpl; [intros [] | reflexivity].
  - intros [H|[]]. discriminate.
Qed.

(** The loop of [validate] passes over a group, whatever it holds. *)
Lemma check_token_skips_group settings (cls : GroupClass) (tokens : list Token) :
  check_token settings (Group cls tokens) = None.
Proof. reflexivity. Qed.

(** C1 (code defect).  The validator is to refuse every statement that
    holds a block-listed keyword, in a common table expression or a
    subquery as well.  On the statement sqlparse builds for
    [cte_delete_sql], a SELECT over a common table expression that
    deletes rows, the keyword DELETE is a leaf of the statement, yet [validate] answers
    [(True, None)]: its loop visits the direct children of the statement
    only, and DELETE lies inside a group. *)
Theorem validate_accepts_delete_inside_cte :
  forall parse : string -> ParseOutcome,
    parse (strip cte_delete_sql) = Parsed [cte_delete_statement] ->
    existsb (fun t => mem (strip (upper (value t))) blocked_keywords)
      (flat_map flatten cte_delete_statement) = true /\
    fst (validate default_settings parse cte_delete_sql) = (true, None).
Proof.
  intros parse H. split; [reflexivity|].
  unfold validate.
  replace (is_empty cte_delete_sql || is_empty (strip cte_delete_sql))
    with false by reflexivity.
  rewrite H. reflexivity.
Qed.

Lemma validate_accepts_delete_inside_cte_witness :
  fst (validate default_settings
         (parse_only cte_delete_sql cte_delete_statement) cte_delete_sql)
  = (true, None).
Proof.
  apply (validate_accepts_delete_inside_cte
           (parse_only cte_delete_sql cte_delete_statement)).
  reflexivity.
Defined.

(** The test [ttype is Keyword] does not hold of a token of type
    [Keyword.DDL]: a CREATE TABLE ... AS SELECT passes as well. *)
Example validate_accepts_create_table_as_select :
  fst (validate default_settings
         (parse_only create_table_sql create_table_statement) create_table_sql)
  = (true, None).
Proof. reflexivity. Qed.

(** At the top level the loop does refuse: a direct child of type
    [Keyword] whose text is block-listed makes [validate] answer false. *)
Lemma check_tokens_refuses settings (statement : Statement) (token : Token) :
  In token statement ->
  ttype_is token Keyword = true ->
  mem (strip (upper (value token))) blocked_keywords = true ->
  exists e, check_tokens settings statement = Some e.
Proof.
  intros Hin Hk Hb. induction statement as [|t rest IH]; [destruct Hin|].
  simpl. destruct (check_token settings t) as [e|] eqn:E; [now exists e|].
  destruct Hin as [->|Hin]; [|now apply IH].
  unfold check_token in E. rewrite Hk, Hb in E.
  destruct (ttype_is token DML); [|discriminate].
  destruct (negb _); discriminate.
Qed.

Lemma check_tokens_refuses_operation settings (statement : Statement)
  (token : Token) :
  In token statement ->
  ttype_is token DML = true ->
  mem (strip (upper (value token))) (SQL_ALLOWED_OPERATIONS settings) = false ->
  exists e, check_tokens settings statement = Some e.
Proof.
  intros Hin Hd Ha. induction statement as [|t rest IH]; [destruct Hin|].
  simpl. destruct (check_token settings t) as [e|] eqn:E; [now exists e|].
  destruct Hin as [->|Hin]; [|now apply IH].
  unfold check_token, allowed_operations in E. rewrite Hd, Ha in E.
  discriminate.
Qed.

Lemma validate_refuses_when_loop_does settings parse (sql : string)
  (statement : Statement) (rest : list Statement) (e : string) :
  parse (strip sql) = Parsed (statement :: rest) ->
  check_tokens settings statement = Some e ->
  fst (fst (validate settings parse sql)) = false.
Proof.
  intros Hp Hc. unfold validate.
  destruct (is_empty sql || is_empty (strip sql)); [reflexivity|].
  now rewrite Hp, Hc.
Qed.

(** A data-manipulation operation outside the allow-list, standing as a
    direct child of the first statement, makes [validate] answer false. *)
Theorem validate_refuses_unlisted_operation :
  forall (settings : Settings) (parse : string -> ParseOutcome) (sql : string)
         (statement : Statement) (rest : list Statement) (token : Token),
    parse (strip sql) = Parsed (statement :: rest) ->
    In token statement ->
    ttype_is token DML = true ->
    mem (strip (upper (value token))) (SQL_ALLOWED_OPERATIONS settings) = false ->
    fst (fst (validate settings parse sql)) = false.
Proof.
  intros settings parse sql statement rest token Hp Hin Hd Ha.
  destruct (check_tokens_refuses_operation settings statement token Hin Hd Ha)
    as [e He].
  exact (validate_refuses_when_loop_does settings parse sql statement rest e Hp He).
Qed.

Lemma validate_refuses_unlisted_operation_witness :
  fst (fst (validate default_settings
              (parse_only delete_sql delete_statement) delete_sql)) = false.
Proof.
  apply (validate_refuses_unlisted_operation default_settings
           (parse_only delete_sql delete_statement) delete_sql
           delete_statement [] (Leaf DML "DELETE") eq_refl).
  - now left.
  - reflexivity.
  - reflexivity.
Defined.

(** A block-listed keyword of type [Keyword], standing as a direct child
    of the first statement, makes [validate] answer false. *)
Theorem validate_refuses_top_level_keyword :
  forall (settings : Settings) (parse : string -> ParseOutcome) (sql : string)
         (statement : Statement) (rest : list Statement) (token : Token),
    parse (strip sql) = Parsed (statement :: rest) ->
    In token statement ->
    ttype_is token Keyword = true ->
    mem (strip (upper (value token))) blocked_keywords = true ->
    fst (fst (validate settings parse sql)) = false.
Proof.
  intros settings parse sql statement rest token Hp Hin Hk Hb.
  destruct (check_tokens_refuses settings statement token Hin Hk Hb) as [e He].
  exact (validate_refuses_when_loop_does settings parse sql statement rest e Hp He).
Qed.

Lemma validate_refuses_top_level_keyword_witness :
  fst (fst (validate default_settings
              (parse_only exec_sql exec_statement) exec_sql)) = false.
Proof.
  apply (validate_refuses_top_level_keyword default_settings
           (parse_only exec_sql exec_statement) exec_sql
           exec_statement [] (Leaf Keyword "EXEC") eq_refl).
  - now left.
  - reflexivity.
  - reflexivity.
Defined.

(** C2 (code defect).  [sanitize] is to add a LIMIT to a query that has
    none.  This query is not empty, passes [validate] and has no LIMIT
    clause, yet [sanitize] returns it as it is, without a LIMIT: the test
    [_has_limit] looks for the letters LIMIT anywhere in the text and
    finds them in the name of the column. *)
Theorem sanitize_leaves_credit_limit_unbounded :
  credit_limit_sql <> "" /\
  fst (validate default_settings
         (parse_only credit_limit_sql credit_limit_statement) credit_limit_sql)
    = (true, None) /\
  has_limit_clause credit_limit_sql = false /\
  sanitize default_settings credit_limit_sql = credit_limit_sql /\
  sanitize default_settings credit_limit_sql <>
    rstrip_semicolon (strip credit_limit_sql) ++ " LIMIT 1000".
Proof.
  repeat split; try reflexivity; discriminate.
Qed.

(** C9.  On a text that ends with a numeric LIMIT clause [sanitize] is
    idempotent. *)
Theorem sanitize_idempotent_on_numeric_limit :
  forall (settings : Settings) (sql : string),
    EndsWithNumericLimit sql ->
    sanitize settings (sanitize settings sql) = sanitize settings sql.
Proof.
  intros settings sql (pre & w & ws & ds & last & E & Hw & _ & _ & _ & Hd).
  assert (HL : _has_limit sql = true).
  { apply holds_limit_text_has_limit. exists pre, w, (ws ++ ds ++ String last "").
    now split. }
  destruct (digit_not_stripped last Hd) as [Hs Hsemi].
  assert (Ex : rstrip_semicolon (strip sql) = lstrip_by isspace sql).
  { rewrite E. rewrite <- !append_assoc.
    unfold strip. rewrite lstrip_by_keep by exact Hs.
    rewrite rstrip_by_keep by exact Hs. simpl (rstrip_by isspace "").
    unfold rstrip_semicolon. now rewrite rstrip_by_keep by exact Hsemi. }
  assert (Ey : rstrip_semicolon (strip (lstrip_by isspace sql)) = lstrip_by isspace sql).
  { unfold strip. rewrite lstrip_by_idem. fold (strip sql). exact Ex. }
  rewrite (sanitize_with_limit settings sql HL), Ex.
  rewrite sanitize_with_limit; [exact Ey|].
  rewrite <- Ex, has_limit_strip. exact HL.
Qed.

Lemma sanitize_idempotent_on_numeric_limit_witness :
  sanitize default_settings (sanitize default_settings limited_sql)
  = sanitize default_settings limited_sql.
Proof.
  apply (sanitize_idempotent_on_numeric_limit default_settings limited_sql).
  exists "SELECT title FROM film ", "LIMIT", " ", "1", "0"%char.
  repeat split; try reflexivity. discriminate.
Defined.

(** C10.  When the letters "limit" occur anywhere in the text, in an
    identifier or a literal as well, [validate] logs no warning,
    [sanitize] only strips the ends of the text, and the executor hands
    that text, with no LIMIT appended, to the database. *)
Theorem limit_text_leaves_query_unbounded :
  forall (settings : Settings) (parse : string -> ParseOutcome)
         (db_execute : string -> DbOutcome) (db_name sql : string),
    HoldsLimitText sql ->
    (forall message,
        ~ In (Log LWarning message) (snd (validate settings parse sql))) /\
    sanitize settings sql = rstrip_semicolon (strip sql) /\
    (fst (validate settings parse sql) = (true, None) ->
     forall q,
       In (DatabaseCall q) (snd (execute settings parse db_execute db_name sql))
       <-> q = rstrip_semicolon (strip sql)).
Proof.
  intros settings parse db_execute db_name sql H.
  pose proof (holds_limit_text_has_limit sql H) as HL.
  split; [|split].
  - intros message Hin.
    apply validate_warns_only_without_limit in Hin. congruence.
  - now apply sanitize_with_limit.
  - intros Hv q. unfold execute.
    rewrite (sanitize_with_limit settings sql HL).
    pose proof (validate_warns_only_without_limit settings parse sql) as Hw.
    destruct (validate settings parse sql) as [[v e] t] eqn:Ev.
    simpl in Hv. injection Hv as -> ->.
    assert (Ht : t = []).
    { revert Ev. unfold validate.
      destruct (is_empty sql || is_empty (strip sql)); [discriminate|].
      destruct (parse (strip sql)) as [[|statement rest]|m]; simpl; try discriminate.
      destruct (check_tokens settings statement); [discriminate|].
      destruct (_is_select_only statement); simpl; [|discriminate].
      rewrite HL. simpl. now intros [= <-]. }
    subst t. simpl.
    destruct (db_execute (rstrip_semicolon (strip sql))); simpl;
      split; intros Hq;
      try (subst q; intuition);
      repeat (destruct Hq as [Hq|Hq]; try discriminate; try (now injection Hq));
      try destruct Hq.
Qed.

Lemma limit_text_leaves_query_unbounded_witness :
  HoldsLimitText credit_limit_sql /\
  sanitize default_settings credit_limit_sql = credit_limit_sql.
Proof.
  assert (H : HoldsLimitText credit_limit_sql).
  { exists "SELECT credit_", "limit", " FROM customers". now split. }
  split; [exact H|].
  exact (proj1 (proj2 (limit_text_leaves_query_unbounded default_settings
           (parse_only credit_limit_sql credit_limit_statement)
           (fun _ => DbRows []) "dvdrental" credit_limit_sql H))).
Defined.

End SecurityClaims.

(* ================================================================= *)
(** ** The SQL generation chain *)

Section ChainsFacts.
Import PyStr Chains Spec.

Lemma all_upper_nospace (s : string) : all nospace (upper s) = all nospace s.
Proof.
  induction s as [|x s IH]; simpl; [reflexivity|].
  unfold nospace at 1 3. rewrite isspace_upper_char.
  unfold upper in IH. now rewrite IH.
Qed.

Lemma all_upper_isspace (s : string) : all isspace (upper s) = all isspace s.
Proof.
  induction s as [|x s IH]; simpl; [reflexivity|].
  rewrite isspace_upper_char. unfold upper in IH. now rewrite IH.
Qed.

Lemma lstrip_by_all p (ws r : string) :
  all p ws = true -> lstrip_by p (ws ++ r) = lstrip_by p r.
Proof.
  induction ws as [|x ws IH]; simpl; intros H; [reflexivity|].
  apply andb_true_iff in H as [Hx H]. rewrite Hx. now apply IH.
Qed.

Lemma rstrip_by_nospace (k r : string) :
  all nospace k = true -> rstrip_by isspace (k ++ r) = k ++ rstrip_by isspace r.
Proof.
  induction k as [|x k IH]; simpl; intros H; [reflexivity|].
  apply andb_true_iff in H as [Hx H].
  apply negb_true_iff in Hx.
  rewrite <- (IH H).
  exact (rstrip_by_keep isspace "" x (k ++ r) Hx).
Qed.

Lemma strip_nospace (k r : string) :
  k <> "" -> all nospace k = true -> strip (k ++ r) = k ++ rstrip_by isspace r.
Proof.
  intros Hne H. unfold strip.
  destruct k as [|x k]; [now elim Hne|].
  pose proof H as H'. simpl in H'. apply andb_true_iff in H' as [Hx _].
  apply negb_true_iff in Hx.
  simpl. rewrite Hx. now apply (rstrip_by_nospace (String x k)).
Qed.

Lemma match_from_limit_here (ws post : string) :
  ws <> "" -> all isspace ws = true ->
  match_from_limit ("FROM" ++ ws ++ "LIMIT" ++ post) = true.
Proof.
  intros Hne Hws.
  destruct ws as [|c ws]; [now elim Hne|].
  simpl in Hws. apply andb_true_iff in Hws as [Hc Hws].
  unfold match_from_limit. simpl. rewrite Hc. simpl.
  rewrite lstrip_by_all by exact Hws.
  simpl. destruct post; reflexivity.
Qed.

(** [FROM\s+LIMIT] is found wherever the two words stand with white space
    between them. *)
Lemma search_from_limit_found (a ws post : string) :
  ws <> "" -> all isspace ws = true ->
  search_from_limit (a ++ "FROM" ++ ws ++ "LIMIT" ++ post) = true.
Proof.
  intros Hne Hws.
  pose proof (match_from_limit_here ws post Hne Hws) as H.
  set (t := "FROM" ++ ws ++ "LIMIT" ++ post) in *.
  induction a as [|x a IH].
  - change ("" ++ t) with t.
    destruct t; cbn [search_from_limit]; now rewrite H.
  - change (String x a ++ t) with (String x (a ++ t)).
    cbn [search_from_limit]. rewrite IH. apply orb_true_r.
Qed.

(** The upper-case text of a candidate in which LIMIT follows FROM. *)
Lemma from_then_limit_upper (sql : string) :
  FromThenLimit sql ->
  exists a ws b,
    strip (upper sql) = a ++ "FROM" ++ ws ++ "LIMIT" ++ b /\
    ws <> "" /\ all isspace ws = true.
Proof.
  intros (pre & f & ws & l & post & -> & Hf & Hl & Hne & Hws).
  rewrite !upper_append, Hf, Hl.
  exists (lstrip_by isspace (upper pre)), (upper ws), (rstrip_by isspace (upper post)).
  split; [|split].
  - change ("FROM" ++ upper ws ++ "LIMIT" ++ upper post)
      with (String "F" ("ROM" ++ upper ws ++ "LIMIT" ++ upper post)).
    replace ("ROM" ++ upper ws ++ "LIMIT" ++ upper post)
      with (("ROM" ++ upper ws ++ "LIMI") ++ String "T" (upper post))
      by (now rewrite !append_assoc).
    rewrite strip_keep by reflexivity.
    simpl. now rewrite !append_assoc.
  - destruct ws; [now elim Hne | discriminate].
  - now rewrite all_upper_isspace.
Qed.

(** The completeness check refuses a candidate that starts with SELECT and
    in which LIMIT follows FROM, and the reason is a missing table name. *)
Lemma completeness_refuses_from_limit (sql : string) :
  startswith "SELECT" (strip (upper sql)) = true ->
  FromThenLimit sql ->
  exists reason,
    In reason missing_table_reasons /\
    _validate_sql_completeness sql = Some reason.
Proof.
  intros Hsel Hform.
  destruct (from_then_limit_upper sql Hform) as (a & ws & b & E & Hne & Hws).
  unfold _validate_sql_completeness. rewrite Hsel. simpl negb. cbv iota.
  assert (Hc : contains "FROM" (strip (upper sql)) = true).
  { rewrite E. apply contains_append. }
  rewrite Hc. simpl negb. cbv iota.
  assert (Hs : search_from_limit (strip (upper sql)) = true).
  { rewrite E. now apply search_from_limit_found. }
  rewrite Hs.
  unfold missing_table_reasons.
  destruct (0 <=? find "FROM" (strip (upper sql)))%Z.
  - destruct (is_empty _ || startswith "LIMIT" _).
    + eexists; split; [|reflexivity]. simpl; tauto.
    + destruct (startswith "LIMIT" _).
      * eexists; split; [|reflexivity]. simpl; tauto.
      * eexists; split; [|reflexivity]. simpl; tauto.
  - eexists; split; [|reflexivity]. simpl; tauto.
Qed.

Lemma iprefix_take (p s : string) :
  iprefix p s = true -> upper (take (String.length p) s) = upper p.
Proof.
  revert s; induction p as [|a p IH]; intros s H; [reflexivity|].
  destruct s as [|b s]; simpl in H; [discriminate|].
  apply andb_true_iff in H as [Hab H].
  apply Ascii.eqb_eq in Hab.
  simpl. unfold upper in *. simpl. rewrite (IH s H).
  f_equal. now rewrite <- (upper_lower_char b), <- Hab, upper_lower_char.
Qed.

Lemma match_select_shape (s m : string) :
  match_select s = Some m -> exists k r, m = k ++ r /\ upper k = "SELECT".
Proof.
  unfold match_select. destruct (iprefix "SELECT" s) eqn:E; [|discriminate].
  destruct (drop 6 s) as [|c r]; [discriminate|].
  destruct (isspace c); [|discriminate].
  destruct (match_body r) as [b|]; [|discriminate].
  intros [= <-]. exists (take 6 s), (String c b). split; [reflexivity|].
  exact (iprefix_take "SELECT" s E).
Qed.

Lemma search_select_shape (text m : string) :
  search_select text = Some m -> exists k r, m = k ++ r /\ upper k = "SELECT".
Proof.
  induction text as [|x text IH]; cbn [search_select].
  - destruct (match_select "") eqn:E; [|discriminate].
    intros [= <-]. eapply match_select_shape, E.
  - destruct (match_select (String x text)) eqn:E.
    + intros [= <-]. eapply match_select_shape, E.
    + exact IH.
Qed.

Lemma collapse_ws_nospace (k r : string) :
  all nospace k = true -> collapse_ws (k ++ r) = k ++ collapse_ws r.
Proof.
  induction k as [|x k IH]; intros H; [reflexivity|].
  simpl in H. apply andb_true_iff in H as [Hx H].
  apply negb_true_iff in Hx.
  change (String x k ++ r) with (String x (k ++ r)).
  cbn [collapse_ws]. rewrite Hx, (IH H). reflexivity.
Qed.

(** What [_extract_sql] returns starts with SELECT. *)
Lemma extract_sql_starts_with_select (content sql : string) :
  _extract_sql content = Some sql ->
  startswith "SELECT" (strip (upper sql)) = true /\ is_empty sql = false.
Proof.
  unfold _extract_sql.
  destruct (search_select (remove_fences content)) as [m|] eqn:E; [|discriminate].
  intros [= <-].
  destruct (search_select_shape _ _ E) as (k & r & -> & Hk).
  assert (Hns : all nospace k = true).
  { rewrite <- all_upper_nospace, Hk. reflexivity. }
  assert (Hne : k <> "").
  { intros ->. discriminate. }
  rewrite collapse_ws_nospace, strip_nospace by assumption.
  split.
  - rewrite upper_append, Hk, strip_nospace by (reflexivity || discriminate).
    apply prefix_append.
  - destruct k; [now elim Hne | reflexivity].
Qed.

End ChainsFacts.

Section GenerationClaims.
Import PyStr Sqlparse Security Executor Chains ChatService Spec Examples.

(** C3.  A candidate extracted from the answer of the model in which
    LIMIT is the token after FROM fails the completeness check with a
    missing-table-name reason; [generate] returns [success = False] with
    that reason, the SQL stage ends the request with a failed outcome, and
    neither the validator nor the database is called. *)
Theorem from_limit_candidate_is_never_executed :
  forall (llm_invoke : string -> string -> LLMOutcome)
         (question schema_context content sql : string),
    llm_invoke schema_context question = Response content ->
    _extract_sql content = Some sql ->
    FromThenLimit sql ->
    exists reason,
      In reason missing_table_reasons /\
      _validate_sql_completeness sql = Some reason /\
      fst (generate llm_invoke question schema_context) =
        (false, None, Some ("Generated SQL is incomplete: " ++ reason)) /\
      forall settings parse db_execute db_name get_message user_question steps,
        let stage :=
          sql_stage settings parse db_execute db_name llm_invoke get_message
            user_question question schema_context steps in
        exists outcome,
          fst stage = Terminal outcome /\
          success outcome = false /\
          data outcome = None /\
          untouched (snd stage).
Proof.
  intros llm_invoke question schema_context content sql Hllm Hex Hform.
  destruct (extract_sql_starts_with_select content sql Hex) as [Hsel Hne].
  destruct (completeness_refuses_from_limit sql Hsel Hform) as (reason & Hin & Hval).
  assert (Hr : is_empty reason = false).
  { destruct Hin as [<-|[<-|[<-|[]]]]; reflexivity. }
  assert (Hgen : generate llm_invoke question schema_context =
                 ((false, None, Some ("Generated SQL is incomplete: " ++ reason)),
                  [Log LWarning ("SQL validation failed: " ++ reason)])).
  { unfold generate. rewrite Hllm, Hex, Hne, Hval, Hr. reflexivity. }
  exists reason. repeat split; try assumption.
  - now rewrite Hgen.
  - intros settings parse db_execute db_name get_message user_question steps.
    unfold sql_stage. rewrite Hgen. simpl.
    eexists. repeat split.
    + intros [H|[H|[]]]; discriminate.
    + intros [H|[H|[]]]; discriminate.
Qed.

Lemma from_limit_candidate_is_never_executed_witness :
  exists reason,
    In reason missing_table_reasons /\
    _validate_sql_completeness from_limit_sql = Some reason /\
    fst (generate (fun _ _ => Response from_limit_sql) "list films" "") =
      (false, None, Some ("Generated SQL is incomplete: " ++ reason)).
Proof.
  destruct (from_limit_candidate_is_never_executed
              (fun _ _ => Response from_limit_sql) "list films" ""
              from_limit_sql from_limit_sql eq_refl eq_refl) as (reason & H1 & H2 & H3 & _).
  - exists "SELECT * ", "FROM", " ", "LIMIT", " 10". repeat split. discriminate.
  - exists reason. auto.
Defined.

(** On the candidate of the specification the reason is the first one. *)
Example from_limit_sql_reason :
  _extract_sql from_limit_sql = Some from_limit_sql /\
  _validate_sql_completeness from_limit_sql =
    Some "Query missing table name after FROM clause".
Proof. split; reflexivity. Qed.

End GenerationClaims.

(* ================================================================= *)
(** ** The query intent detector *)

Section IntentClaims.
Import PyStr QueryIntent Examples.

Lemma count_matches_any (patterns : list Pattern) (question : string) :
  1 <= count_matches patterns question -> any_match patterns question = true.
Proof.
  unfold count_matches, any_match.
  induction patterns as [|p ps IH]; simpl; intros H; [lia|].
  destruct (re_search p question); [reflexivity|]. now apply IH.
Qed.

(** The intent that [detect] returns, field by field. *)
Lemma detect_intent (question : string) :
  fst (detect question) =
  let q := lower question in
  let t := _detect_intent_type q in
  {| type := t;
     entities := _extract_entities q;
     metrics := _extract_metrics q;
     confidence := _calculate_confidence t q;
     analysis_required := requires_analysis t;
     analysis_type := if requires_analysis t then Some "statistical" else None |}.
Proof. reflexivity. Qed.

(** C4.  A question whose lower-case text matches at least two
    correlation patterns and at least two aggregate patterns is given the
    type correlation, with confidence 0.9.  The correlation patterns are
    tested first: one match of them decides the type, whatever else
    matches. *)
Theorem correlation_wins_over_aggregate :
  forall question : string,
    2 <= count_matches CORRELATION_PATTERNS (lower question) ->
    2 <= count_matches AGGREGATE_PATTERNS (lower question) ->
    type (fst (detect question)) = ICorrelation /\
    confidence (fst (detect question)) = 0.9%Q /\
    (forall other : string,
        any_match CORRELATION_PATTERNS (lower other) = true ->
        type (fst (detect other)) = ICorrelation).
Proof.
  intros question Hc _. rewrite detect_intent. cbv zeta. cbn [type confidence].
  assert (Ht : _detect_intent_type (lower question) = ICorrelation).
  { unfold _detect_intent_type. rewrite count_matches_any by lia. reflexivity. }
  rewrite Ht. split; [reflexivity|]. split.
  - unfold _calculate_confidence.
    apply Nat.leb_le in Hc. now rewrite Hc.
  - intros other H. rewrite detect_intent. cbv zeta. cbn [type].
    unfold _detect_intent_type. now rewrite H.
Qed.

Lemma correlation_wins_over_aggregate_witness :
  type (fst (detect correlation_question)) = ICorrelation /\
  confidence (fst (detect correlation_question)) = 0.9%Q.
Proof.
  assert (H1 : 2 <= count_matches CORRELATION_PATTERNS (lower correlation_question))
    by (apply Nat.leb_le; vm_compute; reflexivity).
  assert (H2 : 2 <= count_matches AGGREGATE_PATTERNS (lower correlation_question))
    by (apply Nat.leb_le; vm_compute; reflexivity).
  destruct (correlation_wins_over_aggregate correlation_question H1 H2)
    as (Ht & Hc & _).
  now split.
Defined.

(** The order of the tests: each category is chosen only when the
    categories before it match nothing. *)
Lemma detect_intent_type_order (question : string) :
  match _detect_intent_type question with
  | ICorrelation => any_match CORRELATION_PATTERNS question = true
  | ITrend =>
      any_match CORRELATION_PATTERNS question = false /\
      any_match TREND_PATTERNS question = true
  | IComparison =>
      any_match CORRELATION_PATTERNS question = false /\
      any_match TREND_PATTERNS question = false /\
      any_match COMPARISON_PATTERNS question = true
  | IAggregate =>
      any_match CORRELATION_PATTERNS question = false /\
      any_match TREND_PATTERNS question = false /\
      any_match COMPARISON_PATTERNS question = false /\
      any_match AGGREGATE_PATTERNS question = true
  | IList =>
      any_match CORRELATION_PATTERNS question = false /\
      any_match TREND_PATTERNS question = false /\
      any_match COMPARISON_PATTERNS question = false /\
      any_match AGGREGATE_PATTERNS question = false /\
      any_match LIST_PATTERNS question = true
  | IUnknown =>
      any_match CORRELATION_PATTERNS question = false /\
      any_match TREND_PATTERNS question = false /\
      any_match COMPARISON_PATTERNS question = false /\
      any_match AGGREGATE_PATTERNS question = false /\
      any_match LIST_PATTERNS question = false
  end.
Proof.
  unfold _detect_intent_type.
  destruct (any_match CORRELATION_PATTERNS question); [reflexivity|].
  destruct (any_match TREND_PATTERNS question); [now split|].
  destruct (any_match COMPARISON_PATTERNS question); [now repeat split|].
  destruct (any_match AGGREGATE_PATTERNS question); [now repeat split|].
  destruct (any_match LIST_PATTERNS question); now repeat split.
Qed.

(** C8.  In the intent that [detect] returns, [analysis_required] holds
    exactly when the type is correlation, comparison, trend or aggregate;
    it is false exactly when the type is list or unknown. *)
Theorem analysis_required_iff_analytic_type :
  forall question : string,
    let intent := fst (detect question) in
    analysis_required intent =
      match type intent with
      | ICorrelation | IComparison | ITrend | IAggregate => true
      | IList | IUnknown => false
      end /\
    (analysis_required intent = false <->
     type intent = IList \/ type intent = IUnknown) /\
    (analysis_type intent =
       if analysis_required intent then Some "statistical" else None).
Proof.
  intros question intent. subst intent. rewrite detect_intent. cbv zeta.
  cbn [type analysis_required analysis_type].
  destruct (_detect_intent_type (lower question)); cbn;
    (split; [reflexivity|split; [|reflexivity]]);
    split; intros H; try discriminate; try tauto;
    destruct H as [H|H]; discriminate.
Qed.

End IntentClaims.

(* ================================================================= *)
(** ** The statistical analysis service *)

Section FrameFacts.
Import PyStr QueryIntent StatisticalAnalysis Domain Examples.

Lemma small_int_number (c : Cell) : small_int c = true -> is_number c = true.
Proof. now destruct c. Qed.

Lemma small_ints_numbers (cells : list Cell) :
  forallb small_int cells = true -> forallb is_number cells = true.
Proof.
  induction cells as [|c cells IH]; [reflexivity|].
  cbn [forallb]. intros H. apply andb_true_iff in H as [Hc H].
  now rewrite (small_int_number c Hc), IH.
Qed.

Lemma small_pairs_numbers (cells : list (Cell * Cell)) :
  forallb (fun p => small_int (fst p) && small_int (snd p)) cells = true ->
  forallb (fun p => is_number (fst p) && is_number (snd p)) cells = true.
Proof.
  induction cells as [|p cells IH]; [reflexivity|].
  cbn [forallb]. intros H. apply andb_true_iff in H as [Hp H].
  apply andb_true_iff in Hp as [Hx Hy].
  now rewrite (small_int_number _ Hx), (small_int_number _ Hy), IH.
Qed.

Lemma mem_head (x : string) (xs : list string) : mem x (x :: xs) = true.
Proof. unfold mem. simpl. now rewrite String.eqb_refl. Qed.

Lemma columns_of_column_rows (col : string) (cells : list Cell) :
  fold_left add_keys (column_rows col cells) [col] = [col].
Proof.
  induction cells as [|c cells IH]; [reflexivity|].
  change (column_rows col (c :: cells)) with ([(col, c)] :: column_rows col cells).
  cbn [fold_left].
  replace (add_keys [col] [(col, c)]) with [col]; [exact IH|].
  unfold add_keys. cbn [fold_left fst]. now rewrite mem_head.
Qed.

Lemma cells_of_column_rows (col : string) (cells : list Cell) :
  List.map (fun row => match get col row with Some v => v | None => VNull end)
    (column_rows col cells) = cells.
Proof.
  induction cells as [|c cells IH]; [reflexivity|].
  simpl. rewrite String.eqb_refl. now f_equal.
Qed.

(** The data frame of a result set of one column. *)
Lemma make_DataFrame_column_rows (col : string) (cells : list Cell) :
  cells <> [] -> make_DataFrame (column_rows col cells) = [(col, cells)].
Proof.
  intros Hne. destruct cells as [|c cells]; [now elim Hne|].
  unfold make_DataFrame, columns_of.
  change (column_rows col (c :: cells)) with ([(col, c)] :: column_rows col cells).
  cbn [fold_left]. change (add_keys [] [(col, c)]) with [col].
  rewrite columns_of_column_rows. cbn [List.map].
  cbn [get]. now rewrite String.eqb_refl, cells_of_column_rows.
Qed.

Lemma columns_of_two_column_rows (cx cy : string) (cells : list (Cell * Cell)) :
  cx <> cy ->
  fold_left add_keys (two_column_rows cx cy cells) [cx; cy] = [cx; cy].
Proof.
  intros Hne. induction cells as [|c cells IH]; [reflexivity|].
  change (two_column_rows cx cy (c :: cells))
    with ([(cx, fst c); (cy, snd c)] :: two_column_rows cx cy cells).
  cbn [fold_left].
  replace (add_keys [cx; cy] [(cx, fst c); (cy, snd c)]) with [cx; cy]; [exact IH|].
  unfold add_keys. cbn [fold_left fst]. rewrite mem_head.
  unfold mem. cbn [existsb]. now rewrite String.eqb_refl, orb_true_r.
Qed.

Lemma cells_of_two_column_rows (cx cy : string) (cells : list (Cell * Cell)) :
  cx <> cy ->
  List.map (fun row => match get cx row with Some v => v | None => VNull end)
    (two_column_rows cx cy cells) = List.map fst cells /\
  List.map (fun row => match get cy row with Some v => v | None => VNull end)
    (two_column_rows cx cy cells) = List.map snd cells.
Proof.
  intros Hne. apply String.eqb_neq in Hne.
  induction cells as [|c cells [IH1 IH2]]; [now split|].
  simpl. rewrite !String.eqb_refl, Hne. split; now f_equal.
Qed.

(** The data frame of a result set of two columns. *)
Lemma make_DataFrame_two_column_rows (cx cy : string) (cells : list (Cell * Cell)) :
  cx <> cy -> cells <> [] ->
  make_DataFrame (two_column_rows cx cy cells) =
  [(cx, List.map fst cells); (cy, List.map snd cells)].
Proof.
  intros Hxy Hne. destruct cells as [|c cells]; [now elim Hne|].
  unfold make_DataFrame, columns_of.
  change (two_column_rows cx cy (c :: cells))
    with ([(cx, fst c); (cy, snd c)] :: two_column_rows cx cy cells).
  cbn [fold_left].
  assert (E : add_keys [] [(cx, fst c); (cy, snd c)] = [cx; cy]).
  { unfold add_keys, mem. simpl.
    assert (H : String.eqb cy cx = false) by (apply String.eqb_neq; congruence).
    now rewrite H. }
  rewrite E, (columns_of_two_column_rows cx cy cells Hxy). cbn [List.map].
  destruct (cells_of_two_column_rows cx cy cells Hxy) as [-> ->].
  cbn [get]. apply String.eqb_neq in Hxy.
  now rewrite !String.eqb_refl, Hxy.
Qed.

(** A column of numbers is a numeric column. *)
Lemma numeric_dtype (cells : list Cell) :
  cells <> [] -> forallb is_number cells = true ->
  match infer_dtype cells with int64 | float64 => true | _ => false end = true.
Proof.
  intros Hne Hnum. unfold infer_dtype.
  destruct (forallb is_int cells && existsb is_int cells); [reflexivity|].
  assert (H1 : forallb (fun c => is_number c || is_null c) cells = true).
  { apply forallb_forall. intros c Hc.
    rewrite forallb_forall in Hnum. now rewrite (Hnum c Hc). }
  assert (H2 : existsb is_number cells = true).
  { destruct cells as [|c cells]; [now elim Hne|].
    simpl in *. apply andb_true_iff in Hnum as [-> _]. reflexivity. }
  now rewrite H1, H2.
Qed.

Lemma dropna_numbers (cells : list Cell) :
  forallb is_number cells = true ->
  List.length (numbers_of cells) = List.length cells.
Proof.
  unfold numbers_of. induction cells as [|c cells IH]; [reflexivity|].
  simpl. intros H. apply andb_true_iff in H as [Hc H].
  destruct c; try discriminate; simpl; now rewrite IH.
Qed.

End FrameFacts.

Section TrendClaims.
Import PyStr QueryIntent StatisticalAnalysis Domain Examples.

Variable format_float : nat -> R -> string.
Variable duplicate_column_error : string.
Variables compare aggregate : DataFrame -> Intent -> string -> Traced Finding.

(** C7.  On an empty result set [analyze] returns no analysis and the
    visualization type none, whatever the intent and the question. *)
Theorem empty_result_set_gives_no_analysis :
  forall (intent : Intent) (question : string),
    let finding :=
      fst (analyze format_float duplicate_column_error compare aggregate
             [] intent question) in
    has_analysis finding = false /\
    visualization_type finding = "none" /\
    statistical_result finding = [] /\
    forall t : IntentType,
      fst (analyze format_float duplicate_column_error compare aggregate
             [] (intent_of t (metrics intent)) question) = finding.
Proof. intros intent question. repeat split. Qed.



End TrendClaims.


Section PearsonFacts.
Import StatisticalAnalysis.
Local Open Scope R_scope.

Variables (a b : R) (points : list (R * R)).
Hypothesis slope : 0 < a.
Hypothesis on_line : forall p, In p points -> snd p = a * fst p + b.
Hypothesis spread : exists p q, In p points /\ In q points /\ fst p <> fst q.










End PearsonFacts.

Section CorrelationFacts.
Import PyStr QueryIntent StatisticalAnalysis Spec Examples.


Lemma round_half_even_integer (z : Z) : round_half_even (IZR z) = z.
Proof.
  unfold round_half_even.
  assert (E : Int_part (IZR z) = z).
  { symmetry. apply Int_part_spec. lra. }
  rewrite E.
  destruct (Rlt_dec _ _) as [_|H]; [reflexivity | exfalso; lra].
Qed.


(** The columns chosen from the metrics are columns of the frame. *)
Lemma match_metric_among (all_cols : list string) (metric : string)
  (cols : list string) (st : option string * option string) :
  incl cols all_cols ->
  among all_cols (fst st) -> among all_cols (snd st) ->
  among all_cols (fst (match_metric metric cols st)) /\
  among all_cols (snd (match_metric metric cols st)).
Proof.
  revert st. induction cols as [|col rest IH]; intros st Hincl Hx Hy; [now split|].
  assert (Hrest : incl rest all_cols) by (intros c Hc; apply Hincl; now right).
  assert (Hcol : In col all_cols) by (apply Hincl; now left).
  cbn [match_metric].
  destruct (contains _ _ || contains _ _); [|now apply IH].
  destruct (falsy (fst st)).
  - apply IH; assumption.
  - destruct (falsy (snd st)); [now split|]. now apply IH.
Qed.

Lemma identify_among (cols metrics : list string) :
  let st := _identify_correlation_columns cols metrics in
  2 <= List.length cols ->
  among cols (fst st) /\ among cols (snd st).
Proof.
  intros st Hlen. subst st. unfold _identify_correlation_columns.
  assert (Hl : (List.length cols <? 2) = false) by now apply Nat.ltb_ge.
  rewrite Hl.
  assert (Hfold : forall ms st,
             among cols (fst st) -> among cols (snd st) ->
             among cols (fst (fold_left (fun st m => match_metric m cols st) ms st)) /\
             among cols (snd (fold_left (fun st m => match_metric m cols st) ms st))).
  { induction ms as [|m ms IH]; intros st Hx Hy; [now split|].
    cbn [fold_left].
    destruct (match_metric_among cols m cols st (incl_refl _) Hx Hy).
    now apply IH. }
  destruct (Hfold metrics (None, None) I I) as [Hx Hy].
  destruct (falsy _ || falsy _); [|now split].
  destruct cols as [|c1 [|c2 cols]]; simpl in Hlen; try lia.
  simpl. tauto.
Qed.

Lemma dropna2_numbers (cells : list (Cell * Cell)) :
  forallb (fun p => is_number (fst p) && is_number (snd p)) cells = true ->
  dropna2 (List.map number_of (List.map fst cells))
          (List.map number_of (List.map snd cells)) = points_of cells /\
  dropna2 (List.map number_of (List.map snd cells))
          (List.map number_of (List.map fst cells)) =
    List.map (fun p => (snd p, fst p)) (points_of cells).
Proof.
  unfold points_of.
  induction cells as [|[x y] cells IH]; [now split|].
  cbn [forallb fst snd]. intros H.
  apply andb_true_iff in H as [Hxy H].
  apply andb_true_iff in Hxy as [Hx Hy].
  destruct (IH H) as [IH1 IH2].
  cbn [List.map fst snd]. unfold number_or_zero.
  destruct x; try discriminate; destruct y; try discriminate;
    cbn [number_of dropna2 fst snd]; now rewrite IH1, IH2.
Qed.

Lemma numbers_columns (cells : list (Cell * Cell)) :
  forallb (fun p => is_number (fst p) && is_number (snd p)) cells = true ->
  forallb is_number (List.map fst cells) = true /\
  forallb is_number (List.map snd cells) = true.
Proof.
  induction cells as [|p cells IH]; [now split|].
  cbn [forallb List.map]. intros H.
  apply andb_true_iff in H as [Hxy H].
  apply andb_true_iff in Hxy as [Hx Hy].
  destruct (IH H) as [-> ->]. now rewrite Hx, Hy.
Qed.






End CorrelationFacts.

Section CorrelationTheorem.
Import PyStr QueryIntent StatisticalAnalysis Spec Domain Examples.

Variable format_float : nat -> R -> string.
Variable duplicate_column_error : string.
Variables compare aggregate : DataFrame -> Intent -> string -> Traced Finding.


Lemma select_two_columns (cx cy : string) (ox oy : option string) :
  among [cx; cy] ox -> among [cx; cy] oy ->
  (forall c, (ox, oy) <> (Some c, Some c)) ->
  let sel :=
    if falsy ox || falsy oy
    then (nth 0 [cx; cy] "", nth 1 [cx; cy] "")
    else (match ox with Some c => c | None => "" end,
          match oy with Some c => c | None => "" end) in
  sel = (cx, cy) \/ sel = (cy, cx).
Proof.
  intros Hx Hy Hd sel. subst sel.
  destruct (falsy ox || falsy oy) eqn:F; [now left|].
  apply orb_false_iff in F as [Fx Fy].
  destruct ox as [x|]; [|discriminate]. destruct oy as [y|]; [|discriminate].
  simpl in Hx, Hy.
  destruct Hx as [<-|[<-|[]]]; destruct Hy as [<-|[<-|[]]]; auto;
    now elim (Hd _ eq_refl).
Qed.


End CorrelationTheorem.

Section CorrelationExamples.
Import PyStr QueryIntent StatisticalAnalysis Spec Domain Examples.



(** Without variance there is no coefficient: three equal rows give the
    coefficient 0 and the strength very weak. *)
Example constant_rows_give_very_weak :
  result_of "strength"
    (fst (analyze plain_format "error" plain_analysis plain_analysis
            (two_column_rows "x" "y" constant_cells)
            (intent_of ICorrelation []) "is x related to y"))
  = Some (PStr "very_weak").
Proof.
  unfold analyze. cbn [intent_of type].
  change (two_column_rows "x" "y" constant_cells)
    with ([("x", VInt 1); ("y", VInt 2)]
          :: two_column_rows "x" "y" (List.tl constant_cells)).
  cbv iota.
  change ([("x", VInt 1); ("y", VInt 2)]
          :: two_column_rows "x" "y" (List.tl constant_cells))
    with (two_column_rows "x" "y" constant_cells).
  rewrite make_DataFrame_two_column_rows by discriminate.
  unfold _analyze_correlation.
  change (numeric_columns _) with ["x"; "y"].
  change (List.length ["x"; "y"] <? 2) with false. cbv iota.
  change (_identify_correlation_columns ["x"; "y"] (metrics _))
    with (Some "x", Some "y").
  cbv iota beta. cbn [falsy is_empty orb nth].
  unfold series. cbn [get String.eqb Ascii.eqb Bool.eqb List.map fst snd constant_cells].
  cbn [number_of dropna2 List.length Nat.ltb Nat.leb].
  assert (E : corr [(IZR 1, IZR 2); (IZR 1, IZR 2); (IZR 1, IZR 2)] = None).
  { unfold corr. destruct (Req_dec_T _ _) as [_|N]; [reflexivity|].
    exfalso. apply N. unfold mean, sum. cbn. field. }
  rewrite E. cbv zeta.
  assert (I0 : _interpret_correlation 0 = ("very_weak", "positive")).
  { unfold _interpret_correlation. rewrite Rabs_R0.
    destruct (Rlt_dec 0 0.2) as [_|N]; [|exfalso; lra].
    destruct (Rge_dec 0 0) as [_|N]; [reflexivity | exfalso; lra]. }
  rewrite I0. reflexivity.
Qed.

(** Metrics that select one column for both variables end the analysis
    in the exception branch. *)
Example one_column_selected_twice_gives_no_analysis :
  _identify_correlation_columns ["amount_count"; "x"] ["count"; "amount"]
    = (Some "amount_count", Some "amount_count") /\
  has_analysis
    (fst (analyze plain_format "error" plain_analysis plain_analysis
            (two_column_rows "amount_count" "x" doubled_cells)
            (intent_of ICorrelation ["count"; "amount"])
            "is the amount related to x")) = false.
Proof. split; reflexivity. Qed.

End CorrelationExamples.

(* ================================================================= *)
(** ** The validator and the executor: edges and calls *)

Section SecurityEdges.
Import PyStr Sqlparse Security Executor Spec Examples Traces MoreExamples.

Lemma lstrip_by_blank p (s : string) : all p s = true -> lstrip_by p s = "".
Proof.
  induction s as [|x s IH]; simpl; intros H; [reflexivity|].
  apply andb_true_iff in H as [Hx H]. rewrite Hx. now apply IH.
Qed.

Lemma strip_blank (s : string) : all isspace s = true -> strip s = "".
Proof. intros H. unfold strip. now rewrite lstrip_by_blank. Qed.

(** A text that is empty or holds white space only is refused with
    the message "Empty SQL query"; the parser is not consulted and nothing
    is logged. *)
Theorem validate_refuses_blank_text :
  forall (settings : Settings) (parse : string -> ParseOutcome) (sql : string),
    all isspace sql = true ->
    validate settings parse sql = ((false, Some "Empty SQL query"), []).
Proof.
  intros settings parse sql H. unfold validate.
  rewrite (strip_blank sql H). simpl. now rewrite orb_true_r.
Qed.

Lemma validate_refuses_blank_text_witness :
  validate default_settings (fun _ => Raised "unused") (String "009" (String "010" "  "))
  = ((false, Some "Empty SQL query"), []).
Proof.
  apply (validate_refuses_blank_text default_settings (fun _ => Raised "unused")).
  reflexivity.
Defined.

(** The trace of [validate] holds log records only. *)
Lemma validate_trace_logs settings parse (sql : string) :
  database_calls (snd (validate settings parse sql)) = [] /\
  validator_calls (snd (validate settings parse sql)) = [].
Proof.
  unfold validate.
  destruct (is_empty sql || is_empty (strip sql)); [now split|].
  destruct (parse (strip sql)) as [[|statement rest]|e]; simpl; try now split.
  destruct (check_tokens settings statement); [now split|].
  destruct (_is_select_only statement); simpl; [|now split].
  destruct (_has_limit sql); now split.
Qed.

(** What [validate] returns: no message with an acceptance, a message with
    a refusal. *)
Lemma validate_message settings parse (sql : string) :
  match fst (validate settings parse sql) with
  | (true, e) => e = None
  | (false, e) => exists m, e = Some m
  end.
Proof.
  unfold validate.
  destruct (is_empty sql || is_empty (strip sql)); [now eexists|].
  destruct (parse (strip sql)) as [[|statement rest]|e]; simpl; try now eexists.
  destruct (check_tokens settings statement); [now eexists|].
  destruct (_is_select_only statement); simpl; [|now eexists].
  destruct (_has_limit sql); reflexivity.
Qed.

Lemma database_calls_app (t1 t2 : list Event) :
  database_calls (t1 ++ t2)%list = (database_calls t1 ++ database_calls t2)%list.
Proof.
  induction t1 as [|e t1 IH]; simpl; [reflexivity|].
  destruct e; simpl; now rewrite IH.
Qed.

Lemma validator_calls_app (t1 t2 : list Event) :
  validator_calls (t1 ++ t2)%list = (validator_calls t1 ++ validator_calls t2)%list.
Proof.
  induction t1 as [|e t1 IH]; simpl; [reflexivity|].
  destruct e; simpl; now rewrite IH.
Qed.

(** The calls of [execute], read off its trace. *)
Lemma execute_calls settings parse db_execute (db_name sql : string) :
  validator_calls (snd (execute settings parse db_execute db_name sql)) = [sql] /\
  database_calls (snd (execute settings parse db_execute db_name sql)) =
    if fst (fst (validate settings parse sql))
    then [sanitize settings sql] else [].
Proof.
  unfold execute.
  destruct (validate_trace_logs settings parse sql) as [Hd Hv].
  destruct (validate settings parse sql) as [[v e] t]. simpl in Hd, Hv |- *.
  destruct v; simpl.
  - destruct (db_execute (sanitize settings sql)); simpl;
      rewrite ?database_calls_app, ?validator_calls_app, ?Hd, ?Hv; simpl;
      now rewrite ?app_nil_r.
  - rewrite ?database_calls_app, ?validator_calls_app, ?Hd, ?Hv; simpl.
    now rewrite ?app_nil_r.
Qed.

(** The result of [execute], case by case. *)
Lemma execute_result settings parse db_execute (db_name sql : string) :
  match fst (execute settings parse db_execute db_name sql) with
  | (true, data, error) =>
      exists rows,
        data = Some rows /\ error = None /\
        fst (validate settings parse sql) = (true, None) /\
        db_execute (sanitize settings sql) = DbRows rows
  | (false, data, error) => data = None /\ exists m, error = Some m
  end.
Proof.
  unfold execute.
  pose proof (validate_message settings parse sql) as Hm.
  destruct (validate settings parse sql) as [[v e] t]. simpl in Hm |- *.
  destruct v; simpl.
  - subst e. destruct (db_execute (sanitize settings sql)) as [rows|m]; simpl.
    + now exists rows.
    + split; [reflexivity | now exists m].
  - now split.
Qed.

(** The executor validates the text it is given, once, and reaches the
    database exactly when the validator accepts: then once, with the
    sanitized text.  A refused text is never handed to the database. *)
Theorem execute_reaches_database_only_after_acceptance :
  forall (settings : Settings) (parse : string -> ParseOutcome)
         (db_execute : string -> DbOutcome) (db_name sql : string),
    let trace := snd (execute settings parse db_execute db_name sql) in
    validator_calls trace = [sql] /\
    database_calls trace =
      if fst (fst (validate settings parse sql))
      then [sanitize settings sql] else [].
Proof. intros. apply execute_calls. Qed.

(** The executor reports success exactly when the validator accepted the
    text and the database returned rows for the sanitized text, and then
    hands those rows on without a message; every failure comes with a
    message and without rows. *)
Theorem execute_result_shape :
  forall (settings : Settings) (parse : string -> ParseOutcome)
         (db_execute : string -> DbOutcome) (db_name sql : string),
    match fst (execute settings parse db_execute db_name sql) with
    | (true, data, error) =>
        exists rows,
          data = Some rows /\ error = None /\
          fst (validate settings parse sql) = (true, None) /\
          db_execute (sanitize settings sql) = DbRows rows
    | (false, data, error) => data = None /\ exists m, error = Some m
    end.
Proof. intros. apply execute_result. Qed.

(** What [sanitize] returns always holds the letters LIMIT: a second
    pass appends nothing, and [validate] logs no warning on it. *)
Theorem sanitize_result_holds_limit :
  forall (settings : Settings) (sql : string),
    _has_limit (sanitize settings sql) = true /\
    sanitize settings (sanitize settings sql) =
      rstrip_semicolon (strip (sanitize settings sql)) /\
    forall parse message,
      ~ In (Log LWarning message)
          (snd (validate settings parse (sanitize settings sql))).
Proof.
  intros settings sql.
  assert (H : _has_limit (sanitize settings sql) = true).
  { unfold sanitize.
    destruct (_has_limit (rstrip_semicolon (strip sql))) eqn:E; cbn [negb].
    - exact E.
    - unfold _has_limit.
      change (" LIMIT " ++ str_of_int (SQL_MAX_ROWS settings))
        with (" " ++ "LIMIT" ++ " " ++ str_of_int (SQL_MAX_ROWS settings)).
      rewrite <- append_assoc, !upper_append.
      change (upper "LIMIT") with "LIMIT". apply contains_append. }
  split; [exact H|]. split.
  - now apply sanitize_with_limit.
  - intros parse message Hin.
    apply validate_warns_only_without_limit in Hin. congruence.
Qed.

(** Only the first statement of the text is examined: when it passes,
    the text is accepted whatever statements follow it, and the executor
    hands the whole text, sanitized, to the database. *)
Theorem validate_reads_first_statement_only :
  forall (settings : Settings) (parse : string -> ParseOutcome)
         (db_execute : string -> DbOutcome) (db_name sql : string)
         (statement : Statement) (rest : list Statement),
    parse (strip sql) = Parsed (statement :: rest) ->
    fst (validate settings (fun _ => Parsed [statement]) sql) = (true, None) ->
    fst (validate settings parse sql) = (true, None) /\
    database_calls (snd (execute settings parse db_execute db_name sql)) =
      [sanitize settings sql].
Proof.
  intros settings parse db_execute db_name sql statement rest Hp Hv.
  assert (H : fst (validate settings parse sql) = (true, None)).
  { revert Hv. unfold validate.
    destruct (is_empty sql || is_empty (strip sql)); [trivial|].
    now rewrite Hp. }
  split; [exact H|].
  destruct (execute_calls settings parse db_execute db_name sql) as [_ Hd].
  rewrite Hd, H. reflexivity.
Qed.

Lemma validate_reads_first_statement_only_witness :
  fst (validate default_settings parse_select_then_drop select_then_drop_sql)
    = (true, None) /\
  database_calls
    (snd (execute default_settings parse_select_then_drop
            (fun _ => DbRows []) "dvdrental" select_then_drop_sql)) =
    ["SELECT 1; DROP TABLE film LIMIT 1000"].
Proof.
  apply (validate_reads_first_statement_only default_settings
           parse_select_then_drop (fun _ => DbRows []) "dvdrental"
           select_then_drop_sql select_one_statement [drop_table_statement]).
  - reflexivity.
  - reflexivity.
Defined.

End SecurityEdges.

(* ================================================================= *)
(** ** The extraction of the query *)

Section ExtractionFacts.
Import PyStr Security Chains Spec.

Lemma span_shape p (s a b : string) :
  span p s = (a, b) -> s = a ++ b /\ all p a = true.
Proof.
  revert a b; induction s as [|x s IH]; simpl; intros a b H.
  - injection H as <- <-. now split.
  - destruct (p x) eqn:E.
    + destruct (span p s) as [a' b'] eqn:Es. injection H as <- <-.
      destruct (IH a' b' eq_refl) as [-> Ha]. simpl. now rewrite E.
    + injection H as <- <-. now split.
Qed.

Lemma match_ws_digits_shape (s m : string) :
  match_ws_digits s = Some m ->
  exists ws ds,
    m = ws ++ ds /\ ws <> "" /\ all isspace ws = true /\
    ds <> "" /\ all isdigit ds = true.
Proof.
  unfold match_ws_digits.
  destruct (span isspace s) as [ws r] eqn:E1.
  destruct (span isdigit r) as [ds r'] eqn:E2.
  destruct (span_shape _ _ _ _ E1) as [_ Hws].
  destruct (span_shape _ _ _ _ E2) as [_ Hds].
  destruct ws as [|w ws]; [discriminate|].
  destruct ds as [|d ds]; [discriminate|].
  intros [= <-]. exists (String w ws), (String d ds).
  repeat split; try assumption; discriminate.
Qed.

Lemma match_limit_clause_shape (s m : string) :
  match_limit_clause s = Some m ->
  exists c l ws ds,
    m = String c (l ++ ws ++ ds) /\ upper l = "LIMIT" /\
    ws <> "" /\ all isspace ws = true /\ ds <> "" /\ all isdigit ds = true.
Proof.
  unfold match_limit_clause. destruct s as [|c r]; [discriminate|].
  destruct (isspace c && iprefix "LIMIT" r) eqn:E; [|discriminate].
  apply andb_true_iff in E as [_ E].
  destruct (match_ws_digits (drop 5 r)) as [m'|] eqn:Em; [|discriminate].
  intros [= <-].
  destruct (match_ws_digits_shape _ _ Em) as (ws & ds & -> & H).
  exists c, (take 5 r), ws, ds. split; [reflexivity|].
  split; [exact (iprefix_take "LIMIT" r E) | exact H].
Qed.

Lemma match_body_shape (s m : string) :
  match_body s = Some m ->
  exists b l ws ds,
    m = b ++ l ++ ws ++ ds /\ upper l = "LIMIT" /\
    ws <> "" /\ all isspace ws = true /\ ds <> "" /\ all isdigit ds = true.
Proof.
  revert m; induction s as [|x s IH]; intros m; cbn [match_body]; [discriminate|].
  destruct (match_limit_clause s) as [m1|] eqn:E1.
  - intros [= <-].
    destruct (match_limit_clause_shape _ _ E1) as (c & l & ws & ds & -> & H).
    exists (String x (String c "")), l, ws, ds. now split.
  - destruct (match_body s) as [m2|] eqn:E2; [|discriminate].
    intros [= <-].
    destruct (IH m2 eq_refl) as (b & l & ws & ds & -> & H).
    exists (String x b), l, ws, ds. now split.
Qed.

Lemma match_select_limit_shape (s m : string) :
  match_select s = Some m ->
  exists k b l ws ds,
    m = k ++ b ++ l ++ ws ++ ds /\ upper k = "SELECT" /\ upper l = "LIMIT" /\
    ws <> "" /\ all isspace ws = true /\ ds <> "" /\ all isdigit ds = true.
Proof.
  unfold match_select. destruct (iprefix "SELECT" s) eqn:E; [|discriminate].
  destruct (drop 6 s) as [|c r]; [discriminate|].
  destruct (isspace c); [|discriminate].
  destruct (match_body r) as [mb|] eqn:Eb; [|discriminate].
  intros [= <-].
  destruct (match_body_shape _ _ Eb) as (b & l & ws & ds & -> & H).
  exists (take 6 s), (String c b), l, ws, ds. split; [reflexivity|].
  split; [exact (iprefix_take "SELECT" s E) | exact H].
Qed.

Lemma search_select_limit_shape (text m : string) :
  search_select text = Some m ->
  exists k b l ws ds,
    m = k ++ b ++ l ++ ws ++ ds /\ upper k = "SELECT" /\ upper l = "LIMIT" /\
    ws <> "" /\ all isspace ws = true /\ ds <> "" /\ all isdigit ds = true.
Proof.
  induction text as [|x text IH]; cbn [search_select].
  - destruct (match_select "") eqn:E; [|discriminate].
    intros [= <-]. eapply match_select_limit_shape, E.
  - destruct (match_select (String x text)) eqn:E.
    + intros [= <-]. eapply match_select_limit_shape, E.
    + exact IH.
Qed.

(** [collapse_ws] works on the two sides of a character that is not white
    space. *)
Lemma collapse_ws_split (a : string) (x : ascii) (b : string) :
  isspace x = false ->
  collapse_ws (a ++ String x b) = collapse_ws a ++ collapse_ws (String x b).
Proof.
  intros Hx. induction a as [|c a IH]; [reflexivity|].
  change (String c a ++ String x b) with (String c (a ++ String x b)).
  cbn [collapse_ws] in *. destruct (isspace c).
  - destruct a as [|d a].
    + simpl. now rewrite Hx.
    + change (String d a ++ String x b) with (String d (a ++ String x b)) in *.
      cbv iota. destruct (isspace d).
      * exact IH.
      * simpl. f_equal. exact IH.
  - simpl. f_equal. exact IH.
Qed.

Lemma isdigit_nospace (d : ascii) : isdigit d = true -> nospace d = true.
Proof.
  intros H. unfold nospace. now rewrite (proj1 (digit_not_stripped d H)).
Qed.

Lemma all_digits_nospace (ds : string) :
  all isdigit ds = true -> all nospace ds = true.
Proof.
  induction ds as [|d ds IH]; simpl; intros H; [reflexivity|].
  apply andb_true_iff in H as [Hd H]. now rewrite (isdigit_nospace d Hd), IH.
Qed.

Lemma collapse_ws_nospace_id (r : string) :
  all nospace r = true -> collapse_ws r = r.
Proof.
  intros H. pose proof (collapse_ws_nospace r "" H) as E.
  rewrite append_empty_r in E. rewrite E. cbn [collapse_ws]. apply append_empty_r.
Qed.

Lemma collapse_ws_blank_then (ws r : string) :
  ws <> "" -> all isspace ws = true -> r <> "" -> all nospace r = true ->
  collapse_ws (ws ++ r) = " " ++ r.
Proof.
  intros Hne Hws Hr Hns.
  induction ws as [|c ws IH]; [now elim Hne|].
  simpl in Hws. apply andb_true_iff in Hws as [Hc Hws].
  change (String c ws ++ r) with (String c (ws ++ r)).
  cbn [collapse_ws]. rewrite Hc.
  destruct ws as [|d ws].
  - destruct r as [|y r]; [now elim Hr|].
    change ("" ++ String y r) with (String y r). cbv iota.
    pose proof Hns as Hy. simpl in Hy. apply andb_true_iff in Hy as [Hy _].
    apply negb_true_iff in Hy. rewrite Hy.
    now rewrite (collapse_ws_nospace_id (String y r) Hns).
  - change (String d ws ++ r) with (String d (ws ++ r)) in *.
    pose proof Hws as Hws'. simpl in Hws'. apply andb_true_iff in Hws' as [Hd _].
    cbv iota. rewrite Hd. apply IH; [discriminate | exact Hws].
Qed.

Lemma rstrip_by_end p (a d : string) :
  d <> "" -> all (fun c => negb (p c)) d = true -> rstrip_by p (a ++ d) = a ++ d.
Proof.
  intros Hne Hd.
  assert (Hbase : rstrip_by p d = d).
  { clear Hne. induction d as [|x d IH]; [reflexivity|].
    simpl in Hd. apply andb_true_iff in Hd as [Hx Hd].
    apply negb_true_iff in Hx.
    simpl. rewrite (IH Hd), Hx. now destruct d. }
  induction a as [|c a IH]; [exact Hbase|].
  simpl. rewrite IH. destruct (a ++ d) eqn:E; [|reflexivity].
  destruct a; [|discriminate]. simpl in E. now elim Hne.
Qed.

Lemma all_digits_nosemicolon (ds : string) :
  all isdigit ds = true ->
  all (fun c => negb (Ascii.eqb c ";")) ds = true.
Proof.
  induction ds as [|d ds IH]; simpl; intros H; [reflexivity|].
  apply andb_true_iff in H as [Hd H].
  now rewrite (proj2 (digit_not_stripped d Hd)), IH.
Qed.

(** What [_extract_sql] returns: the word SELECT, a body, the word LIMIT,
    one space and digits, with no white space around. *)
Lemma extract_sql_shape (content sql : string) :
  _extract_sql content = Some sql ->
  exists k b l ds,
    sql = k ++ b ++ l ++ " " ++ ds /\
    upper k = "SELECT" /\ upper l = "LIMIT" /\
    ds <> "" /\ all isdigit ds = true.
Proof.
  unfold _extract_sql.
  destruct (search_select (remove_fences content)) as [m|] eqn:E; [|discriminate].
  intros [= <-].
  destruct (search_select_limit_shape _ _ E)
    as (k & b & l & ws & ds & -> & Hk & Hl & Hne & Hws & Hd & Hds).
  assert (Hk1 : all nospace k = true)
    by (rewrite <- all_upper_nospace, Hk; reflexivity).
  assert (Hl1 : all nospace l = true)
    by (rewrite <- all_upper_nospace, Hl; reflexivity).
  assert (Hk0 : k <> "") by (intros ->; discriminate).
  pose proof (all_digits_nospace ds Hds) as Hn.
  exists k, (collapse_ws b), l, ds.
  split; [|now repeat split].
  rewrite collapse_ws_nospace by exact Hk1.
  destruct l as [|x l]; [discriminate|].
  pose proof Hl1 as Hx. simpl in Hx. apply andb_true_iff in Hx as [Hx _].
  apply negb_true_iff in Hx.
  change (String x l ++ ws ++ ds) with (String x (l ++ ws ++ ds)).
  rewrite collapse_ws_split by exact Hx.
  change (String x (l ++ ws ++ ds)) with (String x l ++ ws ++ ds).
  rewrite collapse_ws_nospace by exact Hl1.
  rewrite collapse_ws_blank_then by assumption.
  rewrite strip_nospace by assumption.
  f_equal.
  replace (collapse_ws b ++ String x l ++ " " ++ ds)
    with ((collapse_ws b ++ String x l ++ " ") ++ ds)
    by (now rewrite !append_assoc).
  rewrite rstrip_by_end; [reflexivity | exact Hd |].
  exact Hn.
Qed.

(** A text of that shape is left as it is by [sanitize]. *)
Lemma sanitize_leaves_extracted settings (k b l ds : string) :
  upper k = "SELECT" -> upper l = "LIMIT" ->
  ds <> "" -> all isdigit ds = true ->
  sanitize settings (k ++ b ++ l ++ " " ++ ds) = k ++ b ++ l ++ " " ++ ds.
Proof.
  intros Hk Hl Hd Hds.
  assert (Hk1 : all nospace k = true)
    by (rewrite <- all_upper_nospace, Hk; reflexivity).
  assert (Hk0 : k <> "") by (intros ->; discriminate).
  assert (HL : _has_limit (k ++ b ++ l ++ " " ++ ds) = true).
  { unfold _has_limit. rewrite <- append_assoc, !upper_append, Hl.
    apply contains_append. }
  rewrite sanitize_with_limit by exact HL.
  rewrite strip_nospace by assumption.
  replace (b ++ l ++ " " ++ ds) with ((b ++ l ++ " ") ++ ds)
    by (now rewrite !append_assoc).
  rewrite rstrip_by_end by (exact Hd || exact (all_digits_nospace ds Hds)).
  unfold rstrip_semicolon. rewrite <- append_assoc.
  now rewrite rstrip_by_end by (exact Hd || exact (all_digits_nosemicolon ds Hds)).
Qed.

End ExtractionFacts.

(** What the extraction returns is made of characters of the answer, and
    of spaces. *)
Section KeptCharacters.
Import PyStr Security Chains Spec Domain.

Variable p : ascii -> bool.

Lemma all_append (a b : string) : all p (a ++ b) = all p a && all p b.
Proof.
  induction a as [|x a IH]; simpl; [reflexivity|].
  now rewrite IH, andb_assoc.
Qed.

Lemma all_take (n : nat) (s : string) : all p s = true -> all p (take n s) = true.
Proof.
  revert s; induction n as [|n IH]; intros [|x s]; simpl; try reflexivity.
  intros H. apply andb_true_iff in H as [Hx H]. now rewrite Hx, IH.
Qed.

Lemma all_drop (n : nat) (s : string) : all p s = true -> all p (drop n s) = true.
Proof.
  revert s; induction n as [|n IH]; intros [|x s]; simpl; try easy.
  intros H. apply andb_true_iff in H as [_ H]. now apply IH.
Qed.

Lemma all_lstrip_by q (s : string) : all p s = true -> all p (lstrip_by q s) = true.
Proof.
  intros H. destruct (lstrip_by_suffix q s) as [a E].
  rewrite E, all_append in H. now apply andb_true_iff in H as [_ H].
Qed.

Lemma all_rstrip_by q (s : string) : all p s = true -> all p (rstrip_by q s) = true.
Proof.
  intros H. destruct (rstrip_by_prefix q s) as [b E].
  rewrite E, all_append in H. now apply andb_true_iff in H as [H _].
Qed.

Lemma all_strip (s : string) : all p s = true -> all p (strip s) = true.
Proof. intros H. unfold strip. now apply all_rstrip_by, all_lstrip_by. Qed.

Lemma all_span q (s a b : string) :
  span q s = (a, b) -> all p s = true -> all p a = true /\ all p b = true.
Proof.
  intros E H. destruct (span_shape q s a b E) as [-> _].
  rewrite all_append in H. now apply andb_true_iff in H.
Qed.

Lemma all_match_ws_digits (s m : string) :
  match_ws_digits s = Some m -> all p s = true -> all p m = true.
Proof.
  unfold match_ws_digits.
  destruct (span isspace s) as [ws r] eqn:E1.
  destruct (span isdigit r) as [ds r'] eqn:E2.
  destruct (is_empty ws || is_empty ds); [discriminate|].
  intros [= <-] H.
  destruct (all_span _ _ _ _ E1 H) as [Hws Hr].
  destruct (all_span _ _ _ _ E2 Hr) as [Hds _].
  now rewrite all_append, Hws, Hds.
Qed.

Lemma all_match_limit_clause (s m : string) :
  match_limit_clause s = Some m -> all p s = true -> all p m = true.
Proof.
  unfold match_limit_clause. destruct s as [|c r]; [discriminate|].
  destruct (isspace c && iprefix "LIMIT" r); [|discriminate].
  destruct (match_ws_digits (drop 5 r)) as [m'|] eqn:Em; [|discriminate].
  intros E H. simpl in H. apply andb_true_iff in H as [Hc Hr].
  assert (A : all p (take 5 r ++ m') = true).
  { rewrite all_append, (all_take 5 r Hr).
    now rewrite (all_match_ws_digits _ _ Em (all_drop 5 r Hr)). }
  injection E as <-. cbn [all]. rewrite Hc. exact A.
Qed.

Lemma all_match_body (s m : string) :
  match_body s = Some m -> all p s = true -> all p m = true.
Proof.
  revert m; induction s as [|x s IH]; intros m; cbn [match_body]; [discriminate|].
  intros E H. simpl in H. apply andb_true_iff in H as [Hx Hs].
  destruct (match_limit_clause s) as [m1|] eqn:E1.
  - injection E as <-. simpl. now rewrite Hx, (all_match_limit_clause _ _ E1 Hs).
  - destruct (match_body s) as [m2|] eqn:E2; [|discriminate].
    injection E as <-. simpl. now rewrite Hx, (IH m2 eq_refl Hs).
Qed.

Lemma all_match_select (s m : string) :
  match_select s = Some m -> all p s = true -> all p m = true.
Proof.
  unfold match_select. destruct (iprefix "SELECT" s); [|discriminate].
  destruct (drop 6 s) as [|c r] eqn:Ed; [discriminate|].
  destruct (isspace c); [|discriminate].
  destruct (match_body r) as [mb|] eqn:Eb; [|discriminate].
  intros E H.
  pose proof (all_drop 6 s H) as Hd. rewrite Ed in Hd.
  simpl in Hd. apply andb_true_iff in Hd as [Hc Hr].
  assert (A : all p (take 6 s ++ String c mb) = true).
  { rewrite all_append, (all_take 6 s H). cbn [all andb].
    now rewrite Hc, (all_match_body _ _ Eb Hr). }
  injection E as <-. exact A.
Qed.

Lemma all_search_select (text m : string) :
  search_select text = Some m -> all p text = true -> all p m = true.
Proof.
  induction text as [|x text IH]; cbn [search_select].
  - destruct (match_select "") eqn:E; [|discriminate].
    intros [= <-]. now apply all_match_select.
  - destruct (match_select (String x text)) eqn:E.
    + intros [= <-]. now apply all_match_select.
    + intros Hm H. simpl in H. apply andb_true_iff in H as [_ H]. now apply IH.
Qed.

Lemma all_remove_fences_from (skip : nat) (inside : bool) (s : string) :
  all p s = true -> all p (remove_fences_from skip inside s) = true.
Proof.
  revert skip inside; induction s as [|x s IH]; intros skip inside H;
    [reflexivity|].
  simpl in H. apply andb_true_iff in H as [Hx Hs].
  cbn [remove_fences_from].
  destruct skip; [|now apply IH].
  destruct inside.
  - destruct (String.prefix _ _); now apply IH.
  - destruct (_ && _); [now apply IH|].
    simpl. now rewrite Hx, IH.
Qed.

Lemma all_collapse_ws (s : string) :
  p " " = true -> all p s = true -> all p (collapse_ws s) = true.
Proof.
  intros Hsp. induction s as [|x s IH]; intros H; [reflexivity|].
  simpl in H. apply andb_true_iff in H as [Hx Hs].
  cbn [collapse_ws]. destruct (isspace x).
  - destruct s as [|d s]; [simpl; now rewrite Hsp|].
    destruct (isspace d); [now apply IH|].
    change (all p (String " " (collapse_ws (String d s))))
      with (p " " && all p (collapse_ws (String d s))).
    now rewrite Hsp, IH.
  - change (all p (String x (collapse_ws s))) with (p x && all p (collapse_ws s)).
    now rewrite Hx, IH.
Qed.

Lemma all_extract_sql (text q : string) :
  p " " = true -> _extract_sql text = Some q -> all p text = true ->
  all p q = true.
Proof.
  intros Hsp E H. unfold _extract_sql in E.
  destruct (search_select (remove_fences text)) as [sql|] eqn:Es; [|discriminate].
  injection E as <-.
  apply all_strip, all_collapse_ws; [exact Hsp|].
  apply (all_search_select _ _ Es).
  now apply all_remove_fences_from.
Qed.

End KeptCharacters.

Section GenerationEdges.
Import PyStr Sqlparse Security Executor Chains ChatService Spec Domain Examples Traces.

(** What [generate] returns: a query without a message, or a message
    without a query; the query is what [_extract_sql] found in the answer
    of the model. *)
Lemma generate_result llm_invoke (question schema_context : string) :
  match fst (generate llm_invoke question schema_context) with
  | (true, sql, error) =>
      exists content q,
        llm_invoke schema_context question = Response content /\
        _extract_sql content = Some q /\ sql = Some q /\ error = None
  | (false, sql, error) => sql = None /\ exists m, error = Some m
  end.
Proof.
  unfold generate.
  destruct (llm_invoke schema_context question) as [content|m] eqn:El; simpl.
  - destruct (_extract_sql content) as [q|] eqn:Ex; simpl; [|now eauto].
    destruct (is_empty q); simpl; [now eauto|].
    destruct (_validate_sql_completeness q) as [v|]; simpl.
    + destruct (is_empty v); simpl; [|now eauto].
      exists content, q. now rewrite Ex.
    + exists content, q. now rewrite Ex.
  - now eauto.
Qed.

Lemma generate_trace_logs llm_invoke (question schema_context : string) :
  database_calls (snd (generate llm_invoke question schema_context)) = [] /\
  validator_calls (snd (generate llm_invoke question schema_context)) = [].
Proof.
  unfold generate.
  destruct (llm_invoke schema_context question) as [content|m]; simpl; [|now split].
  destruct (_extract_sql content) as [q|]; simpl; [|now split].
  destruct (is_empty q); simpl; [now split|].
  destruct (_validate_sql_completeness q) as [v|]; simpl; [|now split].
  destruct (is_empty v); now split.
Qed.

Lemma lower_upper_char (c : ascii) : lower_char (upper_char c) = lower_char c.
Proof. destruct c as [[] [] [] [] [] [] [] []]; reflexivity. Qed.

Lemma lower_upper (s : string) : lower (upper s) = lower s.
Proof.
  induction s as [|x s IH]; simpl; [reflexivity|].
  unfold upper, lower in *; simpl. now rewrite lower_upper_char, IH.
Qed.

Lemma lower_of_upper (l u : string) : upper l = u -> lower l = lower u.
Proof. intros <-. now rewrite lower_upper. Qed.

Lemma digits_last (ds : string) :
  ds <> "" -> all isdigit ds = true ->
  exists ds' last,
    ds = ds' ++ String last "" /\ all isdigit ds' = true /\ isdigit last = true.
Proof.
  induction ds as [|d ds IH]; intros Hne H; [now elim Hne|].
  simpl in H. apply andb_true_iff in H as [Hd H].
  destruct ds as [|e ds].
  - now exists "", d.
  - destruct (IH ltac:(discriminate) H) as (ds' & last & E & H1 & H2).
    exists (String d ds'), last. rewrite E. simpl. now rewrite Hd, H1.
Qed.

(** A query that [generate] takes from an answer of ASCII characters is
    made of ASCII characters, and is left as it is by [sanitize]. *)
Lemma generated_query_keeps_its_own_limit_aux settings llm_invoke
  (question schema_context : string) :
  (forall content,
      llm_invoke schema_context question = Response content ->
      ascii_text content = true) ->
  match fst (generate llm_invoke question schema_context) with
  | (true, sql, error) =>
      exists q,
        sql = Some q /\ error = None /\ ascii_text q = true /\
        sanitize settings q = q
  | (false, sql, error) => sql = None /\ exists m, error = Some m
  end.
Proof.
  intros Hascii.
  pose proof (generate_result llm_invoke question schema_context) as H.
  destruct (fst (generate llm_invoke question schema_context)) as [[ok sql] error].
  destruct ok; [|exact H].
  destruct H as (content & q & Hllm & Hex & -> & ->).
  pose proof (all_extract_sql is_ascii content q eq_refl Hex (Hascii content Hllm))
    as Hq.
  destruct (extract_sql_shape content q Hex) as (k & b & l & ds & -> & Hk & Hl & Hd & Hds).
  exists (k ++ b ++ l ++ " " ++ ds). repeat split.
  - exact Hq.
  - now apply sanitize_leaves_extracted.
Qed.

(** When the answer of the model is ASCII text, a query that [generate]
    returns is ASCII text, starts with SELECT, ends with a numeric LIMIT
    clause, and is left as it is by [sanitize]: the row limit of the
    settings is never added to such a query. *)
Theorem generated_query_keeps_its_own_limit :
  forall (settings : Settings) (llm_invoke : string -> string -> LLMOutcome)
         (question schema_context : string),
    (forall content,
        llm_invoke schema_context question = Response content ->
        ascii_text content = true) ->
    match fst (generate llm_invoke question schema_context) with
    | (true, sql, error) =>
        exists q,
          sql = Some q /\ error = None /\
          ascii_text q = true /\
          startswith "SELECT" (upper q) = true /\
          EndsWithNumericLimit q /\
          sanitize settings q = q
    | (false, sql, error) => sql = None /\ exists m, error = Some m
    end.
Proof.
  intros settings llm_invoke question schema_context Hascii.
  pose proof (generate_result llm_invoke question schema_context) as H.
  destruct (fst (generate llm_invoke question schema_context)) as [[ok sql] error].
  destruct ok; [|exact H].
  destruct H as (content & q & Hllm & Hex & -> & ->).
  pose proof (all_extract_sql is_ascii content q eq_refl Hex (Hascii content Hllm))
    as Hq.
  destruct (extract_sql_shape content q Hex) as (k & b & l & ds & -> & Hk & Hl & Hd & Hds).
  exists (k ++ b ++ l ++ " " ++ ds). repeat split.
  - exact Hq.
  - unfold startswith. rewrite upper_append, Hk. apply prefix_append.
  - destruct (digits_last ds Hd Hds) as (ds' & last & -> & H1 & H2).
    exists (k ++ b), l, " ", ds', last. repeat split; try assumption.
    + now rewrite !append_assoc.
    + exact (lower_of_upper l "LIMIT" Hl).
    + discriminate.
  - now apply sanitize_leaves_extracted.
Qed.

End GenerationEdges.

Section StageEdges.
Import PyStr Sqlparse Security Executor Chains ChatService Spec Domain Examples Traces.

(** When the answer of the model is ASCII text, the SQL stage calls the
    validator and the database on the query that [generate] returned, as
    the model wrote it, and on nothing else: when generation fails neither
    is called; when it succeeds the validator is called once, and the
    database once if the validator accepts and not at all if it
    refuses. *)
Theorem sql_stage_executes_the_generated_query_only :
  forall (settings : Settings) (parse : string -> ParseOutcome)
         (db_execute : string -> DbOutcome) (db_name : string)
         (llm_invoke : string -> string -> LLMOutcome)
         (get_message : string -> string -> option string -> string)
         (question question_to_use schema_context : string) (steps : list string),
    (forall content,
        llm_invoke schema_context question_to_use = Response content ->
        ascii_text content = true) ->
    let stage :=
      sql_stage settings parse db_execute db_name llm_invoke get_message
        question question_to_use schema_context steps in
    match fst (generate llm_invoke question_to_use schema_context) with
    | (true, Some q, _) =>
        validator_calls (snd stage) = [q] /\
        database_calls (snd stage) =
          if fst (fst (validate settings parse q)) then [q] else []
    | _ => validator_calls (snd stage) = [] /\ database_calls (snd stage) = []
    end.
Proof.
  intros settings parse db_execute db_name llm_invoke get_message
    question question_to_use schema_context steps Hascii. cbv zeta.
  unfold sql_stage.
  pose proof (generated_query_keeps_its_own_limit_aux settings llm_invoke
                question_to_use schema_context Hascii) as H.
  destruct (generate_trace_logs llm_invoke question_to_use schema_context)
    as [Hd Hv].
  destruct (generate llm_invoke question_to_use schema_context)
    as [[[ok sql] error] t].
  simpl in H, Hd, Hv |- *.
  destruct ok.
  - destruct H as (q & -> & -> & _ & Hs). simpl.
    destruct (execute_calls settings parse db_execute db_name q) as [Ev Ed].
    rewrite Hs in Ed.
    destruct (execute settings parse db_execute db_name q) as [[[ok data] err] t2].
    simpl in Ev, Ed |- *.
    destruct ok; simpl;
      rewrite ?database_calls_app, ?validator_calls_app, ?Hd, ?Hv, ?Ev, ?Ed;
      simpl; rewrite ?app_nil_r; now split.
  - destruct H as [-> _]. simpl.
    rewrite ?database_calls_app, ?validator_calls_app, ?Hd, ?Hv. now split.
Qed.

(** When the answer of the model is ASCII text, the SQL stage hands rows
    on only when the validator accepted the generated query and the
    database answered the text [sanitize] made of it, which is the query
    itself; every other request ends there, with a failed outcome that
    carries the same text as answer and as error, and no rows. *)
Theorem sql_stage_result_shape :
  forall (settings : Settings) (parse : string -> ParseOutcome)
         (db_execute : string -> DbOutcome) (db_name : string)
         (llm_invoke : string -> string -> LLMOutcome)
         (get_message : string -> string -> option string -> string)
         (question question_to_use schema_context : string) (steps : list string),
    (forall content,
        llm_invoke schema_context question_to_use = Response content ->
        ascii_text content = true) ->
    match fst (sql_stage settings parse db_execute db_name llm_invoke get_message
                 question question_to_use schema_context steps) with
    | Executed sql data steps' =>
        exists q rows,
          sql = Some q /\ data = Some rows /\
          fst (generate llm_invoke question_to_use schema_context) =
            (true, Some q, None) /\
          ascii_text q = true /\
          fst (validate settings parse q) = (true, None) /\
          db_execute (sanitize settings q) = DbRows rows /\
          sanitize settings q = q /\
          steps' = (steps ++ ["sql_generated"; "sql_executed"])%list
    | Terminal outcome =>
        success outcome = false /\ data outcome = None /\
        needs_visualization outcome = false /\
        error outcome = answer outcome /\
        (exists error_type technical,
            answer outcome = Some (get_message question error_type technical) /\
            In error_type ["sql_generation"; "sql_execution"; "incomplete_query"]) /\
        ((sql_query outcome = None /\ ChatService.steps outcome = steps) \/
         (exists q,
             sql_query outcome = Some q /\
             fst (generate llm_invoke question_to_use schema_context) =
               (true, Some q, None) /\
             ChatService.steps outcome = (steps ++ ["sql_generated"])%list))
    end.
Proof.
  intros settings parse db_execute db_name llm_invoke get_message
    question question_to_use schema_context steps Hascii.
  unfold sql_stage.
  pose proof (generated_query_keeps_its_own_limit_aux settings llm_invoke
                question_to_use schema_context Hascii) as H.
  destruct (generate llm_invoke question_to_use schema_context)
    as [[[ok sql] error] t].
  simpl in H |- *.
  destruct ok.
  - destruct H as (q & -> & -> & Hq & Hs). simpl.
    pose proof (execute_result settings parse db_execute db_name q) as He.
    destruct (execute settings parse db_execute db_name q) as [[[ok data] err] t2].
    simpl in He |- *. destruct ok; simpl.
    + destruct He as (rows & -> & -> & Hv & Hdb).
      exists q, rows. repeat split; try assumption.
      now rewrite <- app_assoc.
    + destruct He as [-> _]. repeat split.
      * destruct (contains "incomplete" (lower (str_of_option err)));
          eexists _, _; (split; [reflexivity|]); simpl; tauto.
      * right. now exists q.
  - repeat split.
    + eexists _, _. split; [reflexivity|]. simpl; tauto.
    + now left.
Qed.

End StageEdges.

Section StageExamples.
Import PyStr Sqlparse Security Executor Chains ChatService Spec Domain Examples
  MoreExamples Traces.

Lemma generated_query_keeps_its_own_limit_witness :
  ascii_text limited_sql = true /\
  exists q,
    fst (generate (fun _ _ => Response limited_sql) "list ten films" "") =
      (true, Some q, None) /\
    sanitize default_settings q = q.
Proof.
  split; [reflexivity|].
  assert (E : fst (generate (fun _ _ => Response limited_sql) "list ten films" "")
              = (true, Some limited_sql, None)) by (vm_compute; reflexivity).
  pose proof (generated_query_keeps_its_own_limit default_settings
                (fun _ _ => Response limited_sql) "list ten films" "") as H.
  rewrite E in H.
  destruct H as (q & Hq & _ & _ & _ & _ & Hs).
  - intros content Hc. injection Hc as <-. reflexivity.
  - exists q. split; [rewrite E; now rewrite Hq | exact Hs].
Defined.

Lemma sql_stage_executes_the_generated_query_only_witness :
  ascii_text refusal_text = true /\
  database_calls
    (snd (sql_stage default_settings (parse_only exec_sql exec_statement)
            (fun _ => DbRows []) "films" (fun _ _ => Response refusal_text)
            (fun _ _ _ => "sorry") "what is love" "what is love" "" []))
  = [].
Proof.
  split; [reflexivity|].
  assert (E : fst (generate (fun _ _ => Response refusal_text) "what is love" "")
              = (false, None, Some "Failed to extract SQL from LLM response"))
    by (vm_compute; reflexivity).
  pose proof (sql_stage_executes_the_generated_query_only default_settings
                (parse_only exec_sql exec_statement) (fun _ => DbRows []) "films"
                (fun _ _ => Response refusal_text) (fun _ _ _ => "sorry")
                "what is love" "what is love" "" []) as H.
  cbv zeta in H. rewrite E in H.
  apply H. intros content Hc. injection Hc as <-. reflexivity.
Defined.

Lemma sql_stage_result_shape_witness :
  ascii_text refusal_text = true /\
  exists outcome,
    fst (sql_stage default_settings (parse_only exec_sql exec_statement)
           (fun _ => DbRows []) "films" (fun _ _ => Response refusal_text)
           (fun _ _ _ => "sorry") "what is love" "what is love" "" [])
    = Terminal outcome /\
    success outcome = false /\ data outcome = None.
Proof.
  split; [reflexivity|].
  pose proof (sql_stage_result_shape default_settings
                (parse_only exec_sql exec_statement) (fun _ => DbRows []) "films"
                (fun _ _ => Response refusal_text) (fun _ _ _ => "sorry")
                "what is love" "what is love" "" []) as H.
  destruct (fst (sql_stage default_settings (parse_only exec_sql exec_statement)
                   (fun _ => DbRows []) "films" (fun _ _ => Response refusal_text)
                   (fun _ _ _ => "sorry") "what is love" "what is love" "" []))
    as [outcome|sql rows steps'] eqn:E.
  - exists outcome. split; [reflexivity|].
    destruct H as (Hs & Hd & _).
    + intros content Hc. injection Hc as <-. reflexivity.
    + now split.
  - vm_compute in E. discriminate.
Defined.

End StageExamples.

Section FenceFacts.
Import PyStr Chains.

Lemma prefix_fence_false (c : ascii) (s : string) :
  Ascii.eqb c "`" = false -> String.prefix "```" (String c s) = false.
Proof.
  intros H.
  change (String.prefix "```" (String c s))
    with (if ascii_dec "`" c then String.prefix "``" s else false).
  destruct (ascii_dec "`" c) as [E|_]; [|reflexivity].
  subst c. discriminate.
Qed.

(** Inside a fence the scan drops everything up to the closing delimiter. *)
Lemma remove_fences_inside (body rest : string) :
  all (fun c => negb (Ascii.eqb c "`")) body = true ->
  remove_fences_from 0 true (body ++ "```" ++ rest) =
  remove_fences_from 0 false rest.
Proof.
  intros H. induction body as [|c body IH].
  - change ("" ++ "```" ++ rest) with (String "`" (String "`" (String "`" rest))).
    cbn [remove_fences_from].
    replace (String.prefix "```" (String "`" (String "`" (String "`" rest))))
      with true by (symmetry; apply (prefix_append "```")).
    reflexivity.
  - simpl in H. apply andb_true_iff in H as [Hc H]. apply negb_true_iff in Hc.
    change (String c body ++ "```" ++ rest)
      with (String c (body ++ "```" ++ rest)).
    cbn [remove_fences_from]. rewrite (prefix_fence_false c _ Hc).
    exact (IH H).
Qed.

(** Outside a fence a text without a backquote is kept. *)
Lemma remove_fences_outside (pre rest : string) :
  all (fun c => negb (Ascii.eqb c "`")) pre = true ->
  remove_fences_from 0 false (pre ++ rest) =
  pre ++ remove_fences_from 0 false rest.
Proof.
  intros H. induction pre as [|c pre IH]; [reflexivity|].
  simpl in H. apply andb_true_iff in H as [Hc H]. apply negb_true_iff in Hc.
  change (String c pre ++ rest) with (String c (pre ++ rest)).
  cbn [remove_fences_from]. rewrite (prefix_fence_false c _ Hc).
  cbn [andb]. simpl. f_equal. exact (IH H).
Qed.

Lemma remove_fences_fenced (pre body post : string) :
  all (fun c => negb (Ascii.eqb c "`")) pre = true ->
  all (fun c => negb (Ascii.eqb c "`")) body = true ->
  all (fun c => negb (Ascii.eqb c "`")) post = true ->
  remove_fences (pre ++ "```" ++ body ++ "```" ++ post) = pre ++ post.
Proof.
  intros Hpre Hbody Hpost. unfold remove_fences.
  rewrite remove_fences_outside by exact Hpre. f_equal.
  change ("```" ++ body ++ "```" ++ post)
    with (String "`" (String "`" (String "`" (body ++ "```" ++ post)))).
  cbn [remove_fences_from].
  replace (String.prefix "```" (String "`" (String "`" (String "`" (body ++ "```" ++ post)))))
    with true by (symmetry; apply (prefix_append "```")).
  cbn [drop]. rewrite contains_append. cbn [andb].
  rewrite remove_fences_inside by exact Hbody.
  pose proof (remove_fences_outside post "" Hpost) as E.
  rewrite !append_empty_r in E. exact E.
Qed.

End FenceFacts.

Section FenceTheorems.
Import PyStr Chains Examples MoreExamples.

(** Text between two code-fence delimiters is dropped before the
    query is looked for: on an answer with one fenced block,
    [_extract_sql] returns what it returns on the answer without the
    block.  A query that the model writes inside a fence is not found. *)
Theorem fenced_text_is_not_extracted :
  forall pre body post : string,
    all (fun c => negb (Ascii.eqb c "`")) pre = true ->
    all (fun c => negb (Ascii.eqb c "`")) body = true ->
    all (fun c => negb (Ascii.eqb c "`")) post = true ->
    _extract_sql (pre ++ "```" ++ body ++ "```" ++ post) =
    _extract_sql (pre ++ post).
Proof.
  intros pre body post Hpre Hbody Hpost. unfold _extract_sql.
  rewrite remove_fences_fenced by assumption.
  pose proof (remove_fences_outside (pre ++ post) "") as E.
  rewrite !append_empty_r in E. unfold remove_fences. rewrite E; [reflexivity|].
  clear E. induction pre as [|c pre IH]; [exact Hpost|].
  simpl in Hpre |- *. apply andb_true_iff in Hpre as [Hc Hpre].
  now rewrite Hc, IH.
Qed.

Lemma fenced_text_is_not_extracted_witness :
  _extract_sql ("```" ++ fenced_body ++ "```") = None /\
  _extract_sql fenced_body = Some limited_sql.
Proof.
  split; [|reflexivity].
  exact (fenced_text_is_not_extracted "" fenced_body "" eq_refl eq_refl eq_refl).
Defined.

End FenceTheorems.

(* ================================================================= *)
(** ** The intent detector: confidence and names *)

Section IntentEdges.
Import PyStr QueryIntent Examples.

Lemma any_match_count (patterns : list Pattern) (question : string) :
  any_match patterns question = true -> 1 <= count_matches patterns question.
Proof.
  unfold count_matches, any_match.
  induction patterns as [|p ps IH]; simpl; intros H; [discriminate|].
  destruct (re_search p question); simpl; [lia | now apply IH].
Qed.

Lemma confidence_of_matches (n : nat) :
  1 <= n ->
  (if 2 <=? n then 0.9%Q else if n =? 1 then 0.7%Q else 0.5%Q) = 0.7%Q \/
  (if 2 <=? n then 0.9%Q else if n =? 1 then 0.7%Q else 0.5%Q) = 0.9%Q.
Proof.
  intros H. destruct n as [|[|n]]; [lia | now left | now right].
Qed.

(** The confidence of a detected intent is 0.3 when the type is unknown
    and 0.7 or 0.9 otherwise: the type is chosen because one of its
    patterns matches, so the value 0.5 of [_calculate_confidence] is never
    returned by [detect]. *)
Theorem detect_confidence_levels :
  forall question : string,
    let intent := fst (detect question) in
    (type intent = IUnknown /\ confidence intent = 0.3%Q) \/
    (type intent <> IUnknown /\
     (confidence intent = 0.7%Q \/ confidence intent = 0.9%Q)).
Proof.
  intros question intent. subst intent. rewrite detect_intent. cbv zeta.
  cbn [type confidence].
  pose proof (detect_intent_type_order (lower question)) as H.
  destruct (_detect_intent_type (lower question)); cbn [_calculate_confidence].
  - right. split; [discriminate|].
    apply confidence_of_matches, any_match_count. tauto.
  - right. split; [discriminate|].
    apply confidence_of_matches, any_match_count. tauto.
  - right. split; [discriminate|].
    apply confidence_of_matches, any_match_count. tauto.
  - right. split; [discriminate|].
    apply confidence_of_matches, any_match_count. tauto.
  - right. split; [discriminate|].
    apply confidence_of_matches, any_match_count. tauto.
  - now left.
Qed.

Lemma NoDup_map_filter {A B} (f : A -> B) (p : A -> bool) (l : list A) :
  NoDup (List.map f l) -> NoDup (List.map f (List.filter p l)).
Proof.
  induction l as [|x l IH]; simpl; intros H; [constructor|].
  inversion H as [|? ? Hn Hl]; subst.
  destruct (p x); simpl; [|now apply IH].
  constructor; [|now apply IH].
  intros Hin. apply Hn.
  apply in_map_iff in Hin as (y & E & Hy). apply filter_In in Hy as [Hy _].
  apply in_map_iff. now exists y.
Qed.

(** The entities of a detected intent are table names of the detector's
    list, each at most once; the metrics are among the five metric names,
    each at most once. *)
Theorem detect_names_known_tables_and_metrics :
  forall question : string,
    let intent := fst (detect question) in
    incl (entities intent) known_tables /\ NoDup (entities intent) /\
    incl (metrics intent) ["revenue"; "count"; "price"; "rate"; "amount"] /\
    NoDup (metrics intent).
Proof.
  intros question intent. subst intent. rewrite detect_intent. cbv zeta.
  cbn [entities metrics].
  assert (Hk : NoDup known_tables).
  { unfold known_tables.
    repeat (constructor; [simpl; intuition discriminate|]). constructor. }
  assert (Hm : NoDup (List.map fst metric_keywords)).
  { unfold metric_keywords. cbn [List.map fst].
    repeat (constructor; [simpl; intuition discriminate|]). constructor. }
  repeat split.
  - intros e He. unfold _extract_entities in He. now apply filter_In in He.
  - unfold _extract_entities. now apply NoDup_filter.
  - intros m Hin. unfold _extract_metrics in Hin.
    apply in_map_iff in Hin as (kv & <- & Hkv). apply filter_In in Hkv as [Hkv _].
    change ["revenue"; "count"; "price"; "rate"; "amount"]
      with (List.map fst metric_keywords).
    apply in_map_iff. now exists kv.
  - unfold _extract_metrics. now apply NoDup_map_filter.
Qed.

End IntentEdges.

(* ================================================================= *)
(** ** The analyses: invariants and edges *)

Section AnalysisEdges.
Import PyStr QueryIntent StatisticalAnalysis Spec Examples.

Variable format_float : nat -> R -> string.
Variable duplicate_column_error : string.
Variables compare aggregate : DataFrame -> Intent -> string -> Traced Finding.

(** With an intent of type list or unknown, [analyze] runs no analysis on
    a result set that is not empty: it reports no analysis and the
    visualization type table, and logs nothing. *)
Theorem analyze_without_analytic_intent :
  forall (data : list Row) (intent : Intent) (question : string),
    data <> [] ->
    type intent = IList \/ type intent = IUnknown ->
    analyze format_float duplicate_column_error compare aggregate
      data intent question = (no_analysis None None "table", []).
Proof.
  intros data intent question Hne Ht. unfold analyze.
  destruct data as [|row rest]; [now elim Hne|].
  destruct Ht as [-> | ->]; reflexivity.
Qed.

Lemma among_some (cols : list string) (o : option string) :
  among cols o -> falsy o = false -> exists c, o = Some c /\ In c cols.
Proof.
  destruct o as [c|]; simpl; intros H F; [|discriminate]. now exists c.
Qed.

(** What [_analyze_correlation] returns is marked correlation and scatter
    in every case.  It reports an analysis only on two numeric columns of
    the frame and at least three rows in which both hold a number; the
    sample size it reports is the number of those rows.  When it reports
    no analysis the statistical result is empty and the interpretation
    tells why. *)
Theorem correlation_finding_invariants :
  forall (df : DataFrame) (intent : Intent) (question : string),
    let finding :=
      fst (_analyze_correlation format_float duplicate_column_error
             df intent question) in
    analysis_type finding = Some "correlation" /\
    visualization_type finding = "scatter" /\
    (has_analysis finding = false ->
     statistical_result finding = [] /\
     exists text, interpretation finding = Some text) /\
    (has_analysis finding = true ->
     exists x y,
       In x (numeric_columns df) /\ In y (numeric_columns df) /\
       result_of "x_variable" finding = Some (PStr x) /\
       result_of "y_variable" finding = Some (PStr y) /\
       result_of "sample_size" finding =
         Some (PInt (Z.of_nat (List.length (dropna2 (series df x) (series df y))))) /\
       3 <= List.length (dropna2 (series df x) (series df y))).
Proof.
  intros df intent question finding. subst finding.
  unfold _analyze_correlation.
  destruct (List.length (numeric_columns df) <? 2) eqn:El.
  { cbn. repeat split; try discriminate. now eexists. }
  apply Nat.ltb_ge in El.
  destruct (identify_among (numeric_columns df) (metrics intent) El) as [Ax Ay].
  destruct (_identify_correlation_columns (numeric_columns df) (metrics intent))
    as [ox oy].
  cbn [fst snd] in Ax, Ay.
  assert (Hsel : exists x y,
             (if falsy ox || falsy oy
              then (nth 0 (numeric_columns df) "", nth 1 (numeric_columns df) "")
              else (match ox with Some c => c | None => "" end,
                    match oy with Some c => c | None => "" end)) = (x, y) /\
             In x (numeric_columns df) /\ In y (numeric_columns df)).
  { destruct (falsy ox || falsy oy) eqn:F.
    - exists (nth 0 (numeric_columns df) ""), (nth 1 (numeric_columns df) "").
      split; [reflexivity|]. split; apply nth_In; lia.
    - apply orb_false_iff in F as [Fx Fy].
      destruct (among_some _ _ Ax Fx) as (x & -> & Hx).
      destruct (among_some _ _ Ay Fy) as (y & -> & Hy).
      now exists x, y. }
  destruct Hsel as (x & y & -> & Hx & Hy).
  destruct (List.length (dropna2 (series df x) (series df y)) <? 3) eqn:E3.
  { cbn. repeat split; try discriminate. now eexists. }
  apply Nat.ltb_ge in E3.
  destruct (String.eqb x y).
  { cbn. repeat split; try discriminate. now eexists. }
  destruct (_interpret_correlation _) as [strength direction].
  cbn [fst ret has_analysis analysis_type visualization_type].
  repeat split; try discriminate.
  intros _. exists x, y. repeat split; assumption.
Qed.

End AnalysisEdges.

Lemma analyze_without_analytic_intent_witness :
  StatisticalAnalysis.analyze Examples.plain_format "error"
    Examples.plain_analysis Examples.plain_analysis
    (Examples.column_rows "title" [VText "Alien"; VText "Brazil"])
    (Examples.intent_of QueryIntent.IList []) "list the films"
  = (StatisticalAnalysis.no_analysis None None "table", []).
Proof.
  apply (analyze_without_analytic_intent Examples.plain_format "error"
           Examples.plain_analysis Examples.plain_analysis).
  - discriminate.
  - now left.
Defined.

Section VarianceFacts.
Import StatisticalAnalysis.
Open Scope R_scope.

Lemma sum_constant (f : R * R -> R) (points : list (R * R)) (c : R) :
  (forall p, In p points -> f p = c) ->
  sum (List.map f points) = INR (List.length points) * c.
Proof.
  induction points as [|p ps IH]; intros H.
  - simpl. lra.
  - change (sum (List.map f (p :: ps))) with (f p + sum (List.map f ps)).
    rewrite IH by (intros q Hq; apply H; now right).
    rewrite (H p) by now left.
    change (List.length (p :: ps)) with (S (List.length ps)).
    rewrite S_INR. lra.
Qed.

Lemma mean_constant (f : R * R -> R) (points : list (R * R)) (c : R) :
  points <> [] ->
  (forall p, In p points -> f p = c) ->
  mean (List.map f points) = c.
Proof.
  intros Hne H. unfold mean. rewrite (sum_constant f points c H), length_map.
  assert (0 < INR (List.length points)).
  { destruct points; [now elim Hne|]. apply lt_0_INR. simpl. lia. }
  field. lra.
Qed.

Lemma deviations_constant (f : R * R -> R) (points : list (R * R)) (c m : R) :
  (forall p, In p points -> f p = c) ->
  m = c ->
  sum (List.map (fun p => (f p - m) * (f p - m)) points) = 0.
Proof.
  intros H ->. rewrite (sum_constant _ points 0); [lra|].
  intros p Hp. rewrite (H p Hp). lra.
Qed.

(** Pearson's coefficient is not a number when one of the two series is
    constant. *)
Lemma corr_constant (points : list (R * R)) (c : R) :
  points <> [] ->
  (forall p, In p points -> fst p = c) \/ (forall p, In p points -> snd p = c) ->
  corr points = None.
Proof.
  intros Hne H. unfold corr.
  destruct (Req_dec_T _ _) as [_|N]; [reflexivity|].
  exfalso. apply N. destruct H as [H|H].
  - rewrite (deviations_constant fst points c _ H (mean_constant fst points c Hne H)).
    lra.
  - rewrite (deviations_constant snd points c _ H (mean_constant snd points c Hne H)).
    lra.
Qed.

Lemma interpret_correlation_zero :
  _interpret_correlation 0 = ("very_weak", "positive")%string.
Proof.
  unfold _interpret_correlation. rewrite Rabs_R0.
  destruct (Rlt_dec 0 0.2) as [_|N]; [|exfalso; lra].
  destruct (Rge_dec 0 0) as [_|N]; [reflexivity | exfalso; lra].
Qed.

Lemma round_zero (n : nat) : round 0 n = 0.
Proof.
  unfold round. replace (0 * 10 ^ n) with (IZR 0) by lra.
  rewrite round_half_even_integer. lra.
Qed.

(** Rounding does not move a number across zero. *)
Lemma round_half_even_nonpos (x : R) : x <= 0 -> (round_half_even x <= 0)%Z.
Proof.
  intros Hx. unfold round_half_even.
  destruct (base_Int_part x) as [Hl Hu].
  assert (Hf : (Int_part x <= 0)%Z).
  { apply le_IZR. lra. }
  assert (Hz : Int_part x = 0%Z -> x - IZR (Int_part x) < 1 / 2).
  { intros ->. lra. }
  destruct (Rlt_dec _ _) as [_|N]; [exact Hf|].
  assert (Int_part x <> 0%Z) by (intros E; apply N, Hz, E).
  destruct (Rlt_dec _ _); [lia|].
  destruct (Z.even _); lia.
Qed.

Lemma round_nonpos (x : R) (n : nat) : x <= 0 -> round x n <= 0.
Proof.
  intros Hx. unfold round.
  assert (Hp : 0 < 10 ^ n) by (apply pow_lt; lra).
  assert (Hr : (round_half_even (x * 10 ^ n) <= 0)%Z).
  { apply round_half_even_nonpos. nra. }
  apply IZR_le in Hr.
  apply Rmult_le_reg_r with (10 ^ n); [exact Hp|].
  unfold Rdiv. rewrite Rmult_assoc, Rinv_l by lra. lra.
Qed.

End VarianceFacts.

Section VarianceTheorem.
Import PyStr QueryIntent StatisticalAnalysis Spec Domain Examples.

Variable format_float : nat -> R -> string.
Variable duplicate_column_error : string.
Variables compare aggregate : DataFrame -> Intent -> string -> Traced Finding.

(** When one of two columns of integers, of at most a million in size and
    on at most ten thousand rows, is constant, the coefficient is not a
    number; the analysis does not stop there: it reports an analysis with
    the coefficient 0, the strength very weak and the direction
    positive. *)
Theorem correlation_with_a_constant_column :
  forall (cx cy : string) (cells : list (Cell * Cell))
         (intent : Intent) (question : string) (c : R),
    type intent = ICorrelation ->
    cx <> cy ->
    forallb (fun p => small_int (fst p) && small_int (snd p)) cells = true ->
    3 <= List.length cells <= max_rows ->
    (forall p, In p (points_of cells) -> fst p = c) \/
    (forall p, In p (points_of cells) -> snd p = c) ->
    (forall col,
        _identify_correlation_columns [cx; cy] (metrics intent)
        <> (Some col, Some col)) ->
    let finding :=
      fst (analyze format_float duplicate_column_error compare aggregate
             (two_column_rows cx cy cells) intent question) in
    has_analysis finding = true /\
    result_of "correlation_coefficient" finding = Some (PFloat 0%R) /\
    result_of "strength" finding = Some (PStr "very_weak") /\
    result_of "direction" finding = Some (PStr "positive").
Proof.
  intros cx cy cells intent question c Ht Hxy Hsmall [Hlen _] Hconst Hsel finding.
  pose proof (small_pairs_numbers cells Hsmall) as Hnum.
  subst finding.
  assert (Hne : cells <> []) by (destruct cells; [simpl in Hlen; lia | discriminate]).
  destruct (numbers_columns cells Hnum) as [Hnx Hny].
  destruct (dropna2_numbers cells Hnum) as [Dxy Dyx].
  assert (Hnex : List.map fst cells <> []) by (destruct cells; [now elim Hne | discriminate]).
  assert (Hney : List.map snd cells <> []) by (destruct cells; [now elim Hne | discriminate]).
  assert (Lp : List.length (points_of cells) = List.length cells)
    by (unfold points_of; apply length_map).
  assert (Pne : points_of cells <> [])
    by (destruct cells; [now elim Hne | discriminate]).
  assert (C1 : corr (points_of cells) = None)
    by (exact (corr_constant (points_of cells) c Pne Hconst)).
  assert (C2 : corr (List.map (fun p => (snd p, fst p)) (points_of cells)) = None).
  { apply (corr_constant _ c).
    - destruct (points_of cells); [now elim Pne | discriminate].
    - destruct Hconst as [H|H]; [right | left];
        intros p Hp; apply in_map_iff in Hp as (q & <- & Hq); exact (H q Hq). }
  unfold analyze. rewrite Ht.
  destruct (two_column_rows cx cy cells) eqn:E.
  { destruct cells; [now elim Hne | discriminate]. }
  rewrite <- E, (make_DataFrame_two_column_rows cx cy cells Hxy Hne).
  unfold _analyze_correlation, numeric_columns.
  cbn [List.filter snd].
  rewrite (numeric_dtype _ Hnex Hnx), (numeric_dtype _ Hney Hny).
  cbn [List.map fst].
  change (List.length [cx; cy] <? 2) with false. cbv iota.
  destruct (identify_among [cx; cy] (metrics intent)) as [Ax Ay]; [simpl; lia|].
  destruct (_identify_correlation_columns [cx; cy] (metrics intent)) as [ox oy] eqn:Ei.
  cbn [fst snd] in Ax, Ay.
  destruct (select_two_columns cx cy ox oy Ax Ay Hsel) as [S|S]; rewrite S.
  + unfold series. cbn [get]. apply String.eqb_neq in Hxy.
    rewrite !String.eqb_refl, Hxy, Dxy.
    assert (Hl : (List.length (points_of cells) <? 3) = false)
      by (apply Nat.ltb_ge; lia).
    rewrite Hl, C1.
    cbv zeta. cbv iota. rewrite interpret_correlation_zero. cbv iota beta.
    unfold result_of.
    cbn [fst ret has_analysis visualization_type statistical_result get
         String.eqb Ascii.eqb Bool.eqb].
    rewrite round_zero. repeat split.
  + unfold series. cbn [get].
    assert (Hyx : String.eqb cy cx = false) by (apply String.eqb_neq; congruence).
    apply String.eqb_neq in Hxy.
    rewrite !String.eqb_refl, Hxy, Dyx.
    assert (Hl : (List.length (List.map (fun p => (snd p, fst p)) (points_of cells)) <? 3) = false)
      by (apply Nat.ltb_ge; rewrite length_map; lia).
    rewrite Hl, Hyx, C2.
    cbv zeta. cbv iota. rewrite interpret_correlation_zero. cbv iota beta.
    unfold result_of.
    cbn [fst ret has_analysis visualization_type statistical_result get
         String.eqb Ascii.eqb Bool.eqb].
    rewrite round_zero. repeat split.
Qed.

End VarianceTheorem.

Section VarianceExamples.
Import PyStr QueryIntent StatisticalAnalysis Spec Domain Examples.

Lemma correlation_with_a_constant_column_witness :
  has_analysis
    (fst (analyze plain_format "error" plain_analysis plain_analysis
            (two_column_rows "x" "y" constant_cells)
            (intent_of ICorrelation []) "is x related to y")) = true /\
  result_of "correlation_coefficient"
    (fst (analyze plain_format "error" plain_analysis plain_analysis
            (two_column_rows "x" "y" constant_cells)
            (intent_of ICorrelation []) "is x related to y"))
    = Some (PFloat 0%R).
Proof.
  destruct (correlation_with_a_constant_column
              plain_format "error" plain_analysis plain_analysis
              "x" "y" constant_cells (intent_of ICorrelation [])
              "is x related to y" 1%R eq_refl) as (H1 & H2 & _).
  - discriminate.
  - reflexivity.
  - unfold max_rows. simpl List.length. lia.
  - left. intros p Hp. unfold number_or_zero in Hp. cbn in Hp.
    repeat (destruct Hp as [<-|Hp]; [reflexivity|]). destruct Hp.
  - intros col. cbv. intros E. injection E as E1 E2. subst col. discriminate.
  - now split.
Defined.

End VarianceExamples.

Section TrendEdges.
Import PyStr QueryIntent StatisticalAnalysis Domain Examples.

Variable format_float : nat -> R -> string.
Variable duplicate_column_error : string.
Variables compare aggregate : DataFrame -> Intent -> string -> Traced Finding.

(** The strength of a trend is the distance of the two half means divided
    by the first half mean, sign included: on a column of at most ten
    thousand integers of at most a million in size, when the first half
    mean is negative the reported strength is not positive, whatever the
    distance, and the interpretation calls the trend weak. *)
Theorem trend_strength_is_not_positive_below_zero :
  forall (col : string) (cells : list Cell) (intent : Intent) (question : string),
    type intent = ITrend ->
    forallb small_int cells = true ->
    2 <= List.length cells <= max_rows ->
    let values := numbers_of cells in
    let half := Nat.div (List.length values) 2 in
    let first_half := mean (firstn half values) in
    (first_half < 0)%R ->
    let finding :=
      fst (analyze format_float duplicate_column_error compare aggregate
             (column_rows col cells) intent question) in
    has_analysis finding = true /\
    (exists strength,
        result_of "strength" finding = Some (PFloat strength) /\
        (strength <= 0)%R) /\
    exists text, interpretation finding = Some (text ++ txt_trend_weak).
Proof.
  intros col cells intent question Ht Hsmall [Hlen _] values half first_half
    Hneg finding.
  pose proof (small_ints_numbers cells Hsmall) as Hnum.
  set (second_half := mean (skipn half values)).
  assert (Hne : cells <> []) by (destruct cells; [simpl in Hlen; lia | discriminate]).
  assert (Hs : (Rabs (second_half - first_half) / first_half <= 0)%R).
  { pose proof (Rabs_pos (second_half - first_half)) as Hp.
    unfold Rdiv. 
    replace 0%R with (Rabs (second_half - first_half) * 0)%R by lra.
    apply Rmult_le_compat_l; [exact Hp|].
    left. now apply Rinv_lt_0_compat. }
  subst finding. unfold analyze. rewrite Ht.
  destruct (column_rows col cells) eqn:E.
  { destruct cells; [now elim Hne | discriminate]. }
  rewrite <- E, (make_DataFrame_column_rows col cells Hne).
  unfold _analyze_trend, numeric_columns.
  cbn [List.filter snd].
  rewrite (numeric_dtype cells Hne Hnum). cbn [List.map fst].
  unfold series. cbn [get]. rewrite String.eqb_refl.
  fold (numbers_of cells). fold values.
  assert (Hl : (List.length values <? 2) = false).
  { apply Nat.ltb_ge. unfold values. now rewrite dropna_numbers. }
  rewrite Hl. fold half. fold first_half. fold second_half.
  destruct (Req_dec_T first_half 0) as [Z|_]; [exfalso; lra|].
  cbn [fst ret has_analysis interpretation]. unfold result_of.
  cbn [statistical_result get String.eqb Ascii.eqb Bool.eqb].
  split; [reflexivity|]. split.
  - eexists. split; [reflexivity|]. now apply round_nonpos.
  - unfold _generate_trend_interpretation.
    destruct (Rlt_dec _ 0.1) as [_|N]; [|exfalso; lra].
    eexists. reflexivity.
Qed.

End TrendEdges.

Section TrendExamples.
Import PyStr QueryIntent StatisticalAnalysis Domain Examples MoreExamples.

Lemma trend_strength_is_not_positive_below_zero_witness :
  has_analysis
    (fst (analyze plain_format "error" plain_analysis plain_analysis
            (column_rows "balance" warming_cells)
            (intent_of ITrend []) "balance trend")) = true /\
  exists text,
    interpretation
      (fst (analyze plain_format "error" plain_analysis plain_analysis
              (column_rows "balance" warming_cells)
              (intent_of ITrend []) "balance trend"))
    = Some (text ++ txt_trend_weak).
Proof.
  destruct (trend_strength_is_not_positive_below_zero
              plain_format "error" plain_analysis plain_analysis
              "balance" warming_cells (intent_of ITrend []) "balance trend"
              eq_refl eq_refl) as (H1 & _ & H4).
  - unfold max_rows. simpl List.length. lia.
  - unfold mean. cbn. lra.
  - now split.
Defined.

End TrendExamples.

(* ================================================================= *)
(** ** The error messages *)

Section ErrorMessageFacts.
Import PyStr Sqlparse Security Executor Chains ChatService ErrorMessages.

Lemma count_class_zero (cls : N -> bool) (text : string) :
  forallb (fun cp => negb (cls cp)) (code_points text) = true ->
  count_class cls text = 0%N.
Proof.
  unfold count_class. generalize (code_points text) as l.
  induction l as [|cp l IH]; simpl; intros H; [reflexivity|].
  apply andb_true_iff in H as [Hc H]. apply negb_true_iff in Hc.
  rewrite Hc. now apply IH.
Qed.

(** A question without a character of the Arabic blocks is answered in
    English, whatever the error type and the technical error. *)
Theorem question_without_arabic_gets_the_english_text :
  forall (question error_type : string) (technical_error : option string),
    forallb (fun cp => negb (arabic_class cp)) (code_points question) = true ->
    _is_arabic question = false /\
    In (get_professional_error_message question error_type technical_error)
       [msg_sql_generation_en; msg_sql_execution_en; msg_no_data_en;
        msg_general_error_en; msg_default_en].
Proof.
  intros question error_type technical_error H.
  assert (E : _is_arabic question = false).
  { unfold _is_arabic. destruct (is_empty question); [reflexivity|].
    rewrite (count_class_zero arabic_class question H).
    destruct (_ =? 0)%N; [reflexivity|]. apply N.ltb_ge. lia. }
  split; [exact E|].
  unfold get_professional_error_message. rewrite E.
  destruct (String.eqb error_type "sql_generation"); [simpl; tauto|].
  destruct (String.eqb error_type "sql_execution" ||
            String.eqb error_type "incomplete_query"); [simpl; tauto|].
  destruct (String.eqb error_type "no_data"); [simpl; tauto|].
  destruct (String.eqb error_type "general_error"); simpl; tauto.
Qed.

Lemma question_without_arabic_gets_the_english_text_witness :
  _is_arabic "how many films?" = false /\
  In (get_professional_error_message "how many films?" "no_data" (Some "0 rows"))
     [msg_sql_generation_en; msg_sql_execution_en; msg_no_data_en;
      msg_general_error_en; msg_default_en].
Proof.
  exact (question_without_arabic_gets_the_english_text
           "how many films?" "no_data" (Some "0 rows") eq_refl).
Defined.

Lemma filter_length_le {A} (p q : A -> bool) (l : list A) :
  (forall x, In x l -> p x = true -> q x = true) ->
  List.length (List.filter p l) <= List.length (List.filter q l).
Proof.
  induction l as [|x l IH]; simpl; intros H; [lia|].
  assert (IH' : List.length (List.filter p l) <= List.length (List.filter q l))
    by (apply IH; intros y Hy; apply H; now right).
  destruct (p x) eqn:Ep.
  - rewrite (H x (or_introl eq_refl) Ep). simpl. lia.
  - destruct (q x); simpl; lia.
Qed.

(** A question whose letters are all Arabic, and that has one at least, is
    answered in Arabic. *)
Theorem question_in_arabic_letters_gets_the_arabic_text :
  forall (question error_type : string) (technical_error : option string),
    forallb (fun cp => negb (between 97 122 cp || between 65 90 cp))
      (code_points question) = true ->
    existsb (between 1536 1791) (code_points question) = true ->
    _is_arabic question = true /\
    In (get_professional_error_message question error_type technical_error)
       [msg_sql_generation_ar; msg_sql_execution_ar; msg_no_data_ar;
        msg_general_error_ar; msg_default_ar].
Proof.
  intros question error_type technical_error Hlatin Hone.
  assert (E : _is_arabic question = true).
  { unfold _is_arabic.
    destruct (is_empty question) eqn:Ee.
    { destruct question; [discriminate Hone | discriminate Ee]. }
    unfold count_class.
    set (l := code_points question) in *.
    assert (Hle : List.length (List.filter letter_class l) <=
                  List.length (List.filter arabic_class l)).
    { apply filter_length_le. intros cp Hin Hcp.
      rewrite forallb_forall in Hlatin. specialize (Hlatin cp Hin).
      apply negb_true_iff in Hlatin.
      unfold letter_class in Hcp. rewrite Hlatin in Hcp. simpl in Hcp.
      unfold arabic_class. now rewrite Hcp. }
    assert (Hpos : 1 <= List.length (List.filter letter_class l)).
    { apply existsb_exists in Hone as (cp & Hin & Hcp).
      assert (Hf : In cp (List.filter letter_class l)).
      { apply filter_In. split; [exact Hin|].
        unfold letter_class. rewrite Hcp. apply orb_true_r. }
      destruct (List.filter letter_class l); [destruct Hf | simpl; lia]. }
    destruct (N.eqb_spec (N.of_nat (List.length (List.filter letter_class l))) 0);
      [lia|].
    apply N.ltb_lt. lia. }
  split; [exact E|].
  unfold get_professional_error_message. rewrite E.
  destruct (String.eqb error_type "sql_generation"); [simpl; tauto|].
  destruct (String.eqb error_type "sql_execution" ||
            String.eqb error_type "incomplete_query"); [simpl; tauto|].
  destruct (String.eqb error_type "no_data"); [simpl; tauto|].
  destruct (String.eqb error_type "general_error"); simpl; tauto.
Qed.

Lemma question_in_arabic_letters_gets_the_arabic_text_witness :
  _is_arabic "كم عدد الأفلام؟" = true.
Proof.
  exact (proj1 (question_in_arabic_letters_gets_the_arabic_text
                  "كم عدد الأفلام؟" "no_data" None eq_refl eq_refl)).
Defined.

(** With the messages of [error_messages.py], the answer of a request that
    ends in the SQL stage is one of four fixed texts: the text for a
    failed generation when no query was generated, the text for a failed
    execution otherwise, in Arabic or in English according to the
    question.  The technical error, and the choice between the error
    types of a failed execution, leave no trace in it. *)
Theorem sql_stage_failure_answers_with_a_fixed_text :
  forall (settings : Settings) (parse : string -> ParseOutcome)
         (db_execute : string -> DbOutcome) (db_name : string)
         (llm_invoke : string -> string -> LLMOutcome)
         (question question_to_use schema_context : string) (steps : list string),
    match fst (sql_stage settings parse db_execute db_name llm_invoke
                 get_professional_error_message
                 question question_to_use schema_context steps) with
    | Terminal outcome =>
        answer outcome =
          Some (match sql_query outcome with
                | None =>
                    if _is_arabic question
                    then msg_sql_generation_ar else msg_sql_generation_en
                | Some _ =>
                    if _is_arabic question
                    then msg_sql_execution_ar else msg_sql_execution_en
                end)
    | Executed _ _ _ => True
    end.
Proof.
  intros settings parse db_execute db_name llm_invoke
    question question_to_use schema_context steps.
  unfold sql_stage.
  pose proof (generate_result llm_invoke question_to_use schema_context) as H.
  destruct (generate llm_invoke question_to_use schema_context)
    as [[[ok sql] error] t].
  simpl in H |- *.
  destruct ok; simpl.
  - destruct H as (content & q & _ & _ & -> & ->).
    destruct (execute settings parse db_execute db_name q) as [[[ok data] err] t2].
    simpl. destruct ok; simpl; [exact I|].
    destruct (contains "incomplete" (lower (str_of_option err))); reflexivity.
  - reflexivity.
Qed.

End ErrorMessageFacts.

(* ================================================================= *)
(** ** The question classifier *)

Section ClassifierFacts.
Import PyStr Chains QuestionClassifier.

Lemma count_in_positive (indicators : list string) (text : string) :
  1 <= count_in indicators text ->
  exists indicator, In indicator indicators /\ contains indicator text = true.
Proof.
  unfold count_in. intros H.
  destruct (List.filter (fun i => contains i text) indicators) as [|i l] eqn:E;
    [simpl in H; lia|].
  assert (Hin : In i (List.filter (fun i => contains i text) indicators))
    by (rewrite E; now left).
  apply filter_In in Hin. now exists i.
Qed.

Lemma first_word_contained (text : string) :
  contains (first_word text) text = true.
Proof.
  unfold first_word.
  destruct (lstrip_by_suffix isspace text) as [a Ea].
  remember (lstrip_by isspace text) as l eqn:El. clear El.
  destruct (span nospace l) as [w r] eqn:Es.
  destruct (span_shape _ _ _ _ Es) as [Ew _].
  cbn [fst]. rewrite Ea, Ew. apply contains_append.
Qed.

(** The decision is "general" only when the answer of the model, cleaned,
    holds one of the general indicators. *)
Lemma decide_general (content : string) :
  decide content = false ->
  exists indicator,
    In indicator general_indicators /\
    contains indicator (cleaned content) = true.
Proof.
  unfold decide.
  destruct (count_in general_indicators (cleaned content)
            <? count_in database_indicators (cleaned content)); [discriminate|].
  destruct (count_in database_indicators (cleaned content)
            <? count_in general_indicators (cleaned content)) eqn:E.
  - intros _. apply count_in_positive. apply Nat.ltb_lt in E. lia.
  - destruct (mem _ _); [discriminate|].
    destruct (String.eqb (first_word (cleaned content)) "general") eqn:Ef;
      [|discriminate].
    intros _. apply String.eqb_eq in Ef.
    exists "general". split; [now left|].
    rewrite <- Ef. apply first_word_contained.
Qed.

(** [classify] never reports a failure.  It answers "general" only when
    the classifier is available, the model answered, and the answer,
    cleaned, holds one of the general indicators; when the classifier is
    not available or the model raises, and when the answer names no
    general indicator, the question is taken as database-related. *)
Theorem classify_defaults_to_database :
  forall (available : bool) (gemini_invoke : string -> LLMOutcome)
         (question : string),
    let result := fst (classify available gemini_invoke question) in
    fst (fst result) = true /\
    (snd (fst result) = false ->
     available = true /\
     exists content indicator,
       gemini_invoke question = Response content /\
       In indicator general_indicators /\
       contains indicator (cleaned content) = true).
Proof.
  intros available gemini_invoke question result. subst result.
  unfold classify. destruct available; cbn [negb]; [|split; [reflexivity|discriminate]].
  destruct (gemini_invoke question) as [content|m]; cbn.
  - split; [reflexivity|]. intros H. split; [reflexivity|].
    destruct (decide_general content H) as (indicator & Hin & Hc).
    now exists content, indicator.
  - split; [reflexivity | discriminate].
Qed.

End ClassifierFacts.

(* ================================================================= *)
(** ** The visualization service and the reply *)

Section VisualizationFacts.
Import PyStr QueryIntent StatisticalAnalysis VisualizationService.

(** What [generate_chart] returns, case by case. *)
Lemma generate_chart_result available build_prompt engine
  (data : list Row) (visualization_type : string) (intent : Intent)
  (insights : list (string * PyValue)) :
  let result :=
    fst (generate_chart available build_prompt engine
           data visualization_type intent insights) in
  if chart_success result then
    available = true /\ data <> [] /\
    visualization_type <> "none" /\ visualization_type <> "table" /\
    chart_error result = None /\
    exists chart_url chart_path,
      engine (make_DataFrame data)
        (build_prompt visualization_type intent insights) visualization_type
        = EngineChart chart_url chart_path /\
      chart result = Some {| chart_type := visualization_type;
                             url := chart_url; path := chart_path |}
  else
    chart result = None /\ exists e, chart_error result = Some e.
Proof.
  unfold generate_chart.
  destruct available; cbn [negb]; [|cbn; eauto].
  destruct data as [|row rest]; [cbn; eauto|].
  destruct (String.eqb visualization_type "none") eqn:En; [cbn; eauto|].
  destruct (String.eqb visualization_type "table") eqn:Et; [cbn; eauto|].
  cbn [orb].
  destruct (engine _ _ _) as [u p|e|m] eqn:Ee; cbn; eauto.
  apply String.eqb_neq in En, Et.
  repeat split; try assumption; try discriminate. now exists u, p.
Qed.

(** [generate_chart] reports a chart only when the service is available,
    the result set is not empty, the type asked for is neither none nor
    table, and the engine drew the chart; the chart then carries the type
    asked for and what the engine returned.  In every other case it
    reports a failure, with an error message and without a chart. *)
Theorem generate_chart_result_shape :
  forall (available : bool)
         (build_prompt : string -> Intent -> list (string * PyValue) -> string)
         (engine : DataFrame -> string -> string -> EngineOutcome)
         (data : list Row) (visualization_type : string) (intent : Intent)
         (insights : list (string * PyValue)),
    let result :=
      fst (generate_chart available build_prompt engine
             data visualization_type intent insights) in
    if chart_success result then
      available = true /\ data <> [] /\
      visualization_type <> "none" /\ visualization_type <> "table" /\
      chart_error result = None /\
      exists chart_url chart_path,
        engine (make_DataFrame data)
          (build_prompt visualization_type intent insights) visualization_type
          = EngineChart chart_url chart_path /\
        chart result = Some {| chart_type := visualization_type;
                               url := chart_url; path := chart_path |}
    else
      chart result = None /\ exists e, chart_error result = Some e.
Proof. intros. apply generate_chart_result. Qed.

End VisualizationFacts.

Section PresentationFacts.
Import PyStr QueryIntent StatisticalAnalysis VisualizationService Presentation.
Import Examples MoreExamples.

Lemma decide_visualization_type (question : string) (intent : Intent)
  (stat : Finding) (formatted : Formatted) :
  let r := fst (decide_visualization question intent stat formatted) in
  (fst r = true -> mem (snd r) ["chart"; "graph"; "none"] = false) /\
  (fst r = false -> snd r = llm_visualization_type formatted) /\
  (any_in chart_keywords (lower question) = true -> fst r = true) /\
  (llm_needs_visualization formatted = true -> fst r = true).
Proof.
  unfold decide_visualization.
  destruct (llm_needs_visualization formatted).
  - cbn [fst snd ret]. repeat split; try discriminate. intros _.
    set (t := if has_analysis stat then _ else _).
    destruct (mem t ["chart"; "graph"; "none"]) eqn:E; [|exact E].
    destruct (_ || _ || _); [reflexivity|].
    destruct (String.eqb _ "trend"); reflexivity.
  - destruct (any_in chart_keywords (lower question)); cbn;
      repeat split; try discriminate; reflexivity.
Qed.

(** The visualization of the reply.  When the reply asks for a
    visualization its type is never one of the generic chart, graph and
    none: those are replaced by bar or line.  A question that holds one
    of the chart keywords always gets a visualization, whatever the
    formatter answered, and so does a question for which the formatter
    asked for one.  Without a visualization the type is the one the
    formatter gave. *)
Theorem reply_visualization_is_specific :
  forall (show_sql : bool)
         (generate_chart :
            list Row -> string -> Intent -> list (string * PyValue)
            -> Traced ChartResult)
         (question : string) (sql_query : option string)
         (data : option (list Row)) (intent : Intent) (stat : Finding)
         (formatted : Formatted) (steps : list string),
    let reply :=
      fst (present show_sql generate_chart question sql_query data intent
             stat formatted steps) in
    (needs_visualization reply = true ->
     mem (visualization_type reply) ["chart"; "graph"; "none"] = false) /\
    (needs_visualization reply = false ->
     visualization_type reply = llm_visualization_type formatted) /\
    (any_in chart_keywords (lower question) = true ->
     needs_visualization reply = true) /\
    (llm_needs_visualization formatted = true ->
     needs_visualization reply = true).
Proof.
  intros show_sql generate_chart question sql_query data intent stat formatted
    steps reply. subst reply. unfold present.
  pose proof (decide_visualization_type question intent stat formatted) as H.
  destruct (decide_visualization question intent stat formatted) as [[n t] tr].
  cbn [fst snd] in H. cbn [bind].
  destruct (n && negb (String.eqb t "none") && negb (String.eqb t "table")).
  - destruct (generate_chart _ _ _ _) as [c tc]. cbn [bind].
    destruct (chart_success c); cbn; exact H.
  - cbn. exact H.
Qed.

(** The chart of the reply, with the visualization service in place.  A
    reply carries a chart only when it asks for a visualization, the
    service is available, the result set is not empty and the engine drew
    the chart; the type of the chart is the visualization type of the
    reply, which is then neither table nor one of the generic types. *)
Theorem reply_chart_matches_the_visualization :
  forall (show_sql available : bool)
         (build_prompt : string -> Intent -> list (string * PyValue) -> string)
         (engine : DataFrame -> string -> string -> EngineOutcome)
         (question : string) (sql_query : option string)
         (data : option (list Row)) (intent : Intent) (stat : Finding)
         (formatted : Formatted) (steps : list string) (c : Chart),
    let reply :=
      fst (present show_sql (generate_chart available build_prompt engine)
             question sql_query data intent stat formatted steps) in
    chart reply = Some c ->
    needs_visualization reply = true /\
    chart_type c = visualization_type reply /\
    mem (visualization_type reply) ["chart"; "graph"; "none"; "table"] = false /\
    available = true /\
    (exists row rest, data = Some (row :: rest)).
Proof.
  intros show_sql available build_prompt engine question sql_query data intent
    stat formatted steps c reply. subst reply. unfold present.
  pose proof (decide_visualization_type question intent stat formatted) as H.
  destruct (decide_visualization question intent stat formatted) as [[n t] tr].
  cbn [fst snd] in H. cbn [bind].
  destruct (n && negb (String.eqb t "none") && negb (String.eqb t "table")) eqn:E.
  - apply andb_true_iff in E as [E Et]. apply andb_true_iff in E as [En _].
    subst n. apply negb_true_iff in Et.
    pose proof (generate_chart_result available build_prompt engine
                  (match data with Some d => d | None => [] end) t intent
                  (statistical_result stat)) as G.
    cbv zeta in G.
    destruct (generate_chart available build_prompt engine _ _ _ _) as [r tc].
    cbn [fst] in G. cbn [bind].
    destruct (chart_success r) eqn:Ec; cbn; rewrite ?Ec; [|intros Hc; discriminate Hc].
    destruct G as (Ha & Hd & _ & _ & _ & u & p & _ & Hc).
    rewrite Hc. intros [= <-]. cbn [chart_type].
    destruct H as (H1 & _). specialize (H1 eq_refl).
    repeat split; try assumption.
    + revert H1. unfold mem. cbn [existsb]. rewrite Et.
      now rewrite !orb_false_r.
    + destruct data as [[|row rest]|]; try now elim Hd. now exists row, rest.
  - cbn. discriminate.
Qed.

Lemma reply_chart_matches_the_visualization_witness :
  needs_visualization sample_reply = true /\
  chart_type sample_chart = visualization_type sample_reply.
Proof.
  destruct (reply_chart_matches_the_visualization true true
              plain_prompt drawing_engine
              "top categories by revenue" (Some limited_sql) (Some category_rows)
              (intent_of IAggregate [])
              (no_analysis (Some "aggregate") None "bar")
              chart_request [] sample_chart eq_refl) as (H1 & H2 & _).
  exact (conj H1 H2).
Defined.

(** The answer of the reply is the response of the formatter; the
    interpretation of the analysis is put before it, with an empty line
    between the two, exactly when the question holds one of the analysis
    keywords and the analysis has a result and an interpretation.  The
    reply is a success without an error, and the query is shown only when
    the settings allow it. *)
Theorem reply_answer_shows_the_insight_on_request :
  forall (show_sql : bool)
         (generate_chart :
            list Row -> string -> Intent -> list (string * PyValue)
            -> Traced ChartResult)
         (question : string) (sql_query : option string)
         (data : option (list Row)) (intent : Intent) (stat : Finding)
         (formatted : Formatted) (steps : list string),
    let reply :=
      fst (present show_sql generate_chart question sql_query data intent
             stat formatted steps) in
    answer reply =
      match interpretation stat with
      | Some insight =>
          if _user_requested_analysis question && has_analysis stat &&
             negb (is_empty insight)
          then insight ++ nl ++ nl ++ response formatted
          else response formatted
      | None => response formatted
      end /\
    success reply = true /\ error reply = None /\
    is_database_related reply = true /\
    Presentation.sql_query reply = (if show_sql then sql_query else None) /\
    Presentation.data reply = formatted_data formatted /\
    statistical_insights reply = statistical_result stat.
Proof.
  intros show_sql generate_chart question sql_query data intent stat formatted
    steps reply. subst reply. unfold present.
  destruct (decide_visualization question intent stat formatted) as [[n t] tr].
  cbn [bind].
  assert (Ha : (if _user_requested_analysis question && has_analysis stat &&
                   negb (falsy (interpretation stat))
                then match interpretation stat with
                     | Some insight => insight ++ nl ++ nl ++ response formatted
                     | None => response formatted
                     end
                else response formatted) =
               match interpretation stat with
               | Some insight =>
                   if _user_requested_analysis question && has_analysis stat &&
                      negb (is_empty insight)
                   then insight ++ nl ++ nl ++ response formatted
                   else response formatted
               | None => response formatted
               end).
  { destruct (interpretation stat) as [i|]; cbn [falsy]; [reflexivity|].
    now destruct (_ && _ && _). }
  destruct (n && negb (String.eqb t "none") && negb (String.eqb t "table")).
  - destruct (generate_chart _ _ _ _) as [c tc]. cbn [bind].
    destruct (chart_success c);
      cbn [fst snd ret bind emit answer success error is_database_related
           Presentation.sql_query Presentation.data statistical_insights];
      rewrite Ha; repeat split.
  - cbn [fst snd ret bind emit answer success error is_database_related
         Presentation.sql_query Presentation.data statistical_insights].
    rewrite Ha. repeat split.
Qed.

(** [_determine_visualization] asks for a visualization only for more than
    one row: on an empty result set and on a single row it answers no
    visualization, whatever the intent and the suggestion of the model;
    the type is none exactly when no visualization is asked for. *)
Theorem determine_visualization_needs_two_rows :
  forall (data : list Row) (intent : Intent) (llm_suggestion : bool),
    let result := _determine_visualization data intent llm_suggestion in
    (List.length data <= 1 -> result = (false, "none")) /\
    (fst result = true -> 2 <= List.length data) /\
    (fst result = false <-> snd result = "none") /\
    In (snd result) ["none"; "chart"; "bar"; "table"].
Proof.
  intros data intent llm_suggestion result. subst result.
  unfold _determine_visualization.
  destruct data as [|first rest]; [cbn; intuition (try discriminate; try lia)|].
  cbn [List.length].
  destruct (1 <? S (List.length rest)) eqn:E;
    [apply Nat.ltb_lt in E | apply Nat.ltb_ge in E];
    destruct (mem (type_name (type intent)) ["comparison"; "trend"; "correlation"]);
    destruct (existsb (fun kv => is_int_or_float (snd kv)) first);
    destruct (String.eqb (type_name (type intent)) "aggregate");
    destruct llm_suggestion; cbn;
    intuition (try discriminate; try lia).
Qed.

End PresentationFacts.

(* ================================================================= *)
(** ** The JSON sanitizer *)

Section JsonFacts.
Import PyStr JsonSanitizer.

(** Induction on objects, through the members of the containers. *)
Lemma Obj_induction (P : Obj -> Prop) :
  P ONone ->
  (forall s, P (OStr s)) ->
  (forall b, P (OBool b)) ->
  (forall n, P (OInt n)) ->
  (forall f, P (OFloat f)) ->
  (forall t, P (ODate t)) ->
  (forall t, P (OUUID t)) ->
  (forall f, P (ODecimal f)) ->
  (forall n, P (ONpInteger n)) ->
  (forall f, P (ONpFloating f)) ->
  (forall b, P (ONpBool b)) ->
  (forall items, Forall (fun kv => P (snd kv)) items -> P (ODict items)) ->
  (forall members, Forall P members -> P (OList members)) ->
  (forall members, Forall P members -> P (OTuple members)) ->
  (forall members, Forall P members -> P (OSet members)) ->
  (forall f t, P (OOther f t)) ->
  forall obj, P obj.
Proof.
  intros H1 H2 H3 H4 H5 H6 H7 H8 H9 H10 H11 Hd Hl Ht Hs Ho.
  fix IH 1. intros obj.
  destruct obj as [|s|b|n|f|t|t|f|n|f|b|items|members|members|members|f t].
  - exact H1.
  - apply H2.
  - apply H3.
  - apply H4.
  - apply H5.
  - apply H6.
  - apply H7.
  - apply H8.
  - apply H9.
  - apply H10.
  - apply H11.
  - apply Hd. induction items as [|[k v] items IHi]; constructor; [apply IH | exact IHi].
  - apply Hl. induction members as [|m members IHm]; constructor; [apply IH | exact IHm].
  - apply Ht. induction members as [|m members IHm]; constructor; [apply IH | exact IHm].
  - apply Hs. induction members as [|m members IHm]; constructor; [apply IH | exact IHm].
  - apply Ho.
Qed.

Lemma finite_or_none_safe (f : PyFloat) : json_safe (finite_or_none f) = true.
Proof. destruct f; reflexivity. Qed.

Lemma dict_set_values (P : Obj -> Prop) (k : string) (v : Obj)
  (d : list (string * Obj)) :
  P v -> Forall (fun kv => P (snd kv)) d ->
  Forall (fun kv => P (snd kv)) (dict_set k v d).
Proof.
  intros Hv Hd. induction Hd as [|[k' v'] d Hk Hd IH]; cbn [dict_set].
  - now constructor.
  - destruct (String.eqb k' k); constructor; assumption.
Qed.

Lemma dict_of_values (P : Obj -> Prop) (pairs : list (string * Obj)) :
  Forall (fun kv => P (snd kv)) pairs ->
  Forall (fun kv => P (snd kv)) (dict_of pairs).
Proof.
  unfold dict_of.
  assert (G : forall d, Forall (fun kv => P (snd kv)) d ->
                Forall (fun kv => P (snd kv)) pairs ->
                Forall (fun kv => P (snd kv))
                  (fold_left (fun d kv => dict_set (fst kv) (snd kv) d) pairs d)).
  { induction pairs as [|[k v] pairs IH]; intros d Hd Hp; [exact Hd|].
    inversion Hp; subst. cbn [fold_left fst snd].
    apply IH; [|assumption]. now apply dict_set_values. }
  intros H. apply G; [constructor | exact H].
Qed.

(** A comprehension returns when every member does, and then holds what
    the members returned. *)
Lemma all_some_results {A B : Type} (f : A -> option B) (P : B -> Prop)
  (l : list A) (values : list B) :
  Forall (fun x => forall v, f x = Some v -> P v) l ->
  all_some (List.map f l) = Some values ->
  Forall P values.
Proof.
  intros H. revert values.
  induction H as [|x l Hx _ IH]; intros values E; cbn [List.map all_some] in E.
  - injection E as <-. constructor.
  - destruct (f x) as [v|] eqn:Ev; [|discriminate].
    destruct (all_some (List.map f l)) as [vs|]; [|discriminate].
    injection E as <-. constructor; [now apply Hx | now apply IH].
Qed.

Lemma all_some_raises {A B : Type} (f : A -> option B) (l : list A) :
  all_some (List.map f l) = None <-> exists x, In x l /\ f x = None.
Proof.
  induction l as [|x l IH]; cbn [List.map all_some].
  - split; [discriminate | intros (x & [] & _)].
  - destruct (f x) as [v|] eqn:Ev.
    + destruct (all_some (List.map f l)) as [vs|].
      * split; [discriminate|]. intros (y & [<-|Hy] & E); [congruence|].
        assert (N : Some vs = None) by (apply IH; now exists y).
        discriminate.
      * split; [|reflexivity]. intros _.
        destruct (proj1 IH eq_refl) as (y & Hy & E). exists y. split; [now right | exact E].
    + split; [|reflexivity]. intros _. exists x. split; [now left | exact Ev].
Qed.

Lemma all_some_fixed {A : Type} (f : A -> option A) (l : list A) :
  Forall (fun x => f x = Some x) l -> all_some (List.map f l) = Some l.
Proof.
  induction 1 as [|x l Hx _ IH]; [reflexivity|].
  cbn [List.map all_some]. now rewrite Hx, IH.
Qed.

Lemma forallb_safe (values : list Obj) :
  Forall (fun v => json_safe v = true) values -> forallb json_safe values = true.
Proof.
  induction 1 as [|v values Hv _ IH]; [reflexivity|].
  cbn [forallb]. now rewrite Hv, IH.
Qed.

Lemma sanitize_safe (obj value : Obj) :
  sanitize_for_json obj = Some value -> json_safe value = true.
Proof.
  revert value.
  induction obj as [|s|b|n|f|t|t|f|n|f|b|items IH|members IH|members IH|members IH|f t]
    using Obj_induction; intros value E; cbn [sanitize_for_json] in E;
    try (injection E as <-; reflexivity || apply finite_or_none_safe).
  - destruct f as [f|]; [|discriminate].
    injection E as <-. apply finite_or_none_safe.
  - destruct (all_some _) as [pairs|] eqn:Ep; [|discriminate].
    injection E as <-. cbn [json_safe].
    assert (F : Forall (fun kv : string * Obj => json_safe (snd kv) = true) pairs).
    { refine (all_some_results _ (fun kv : string * Obj => json_safe (snd kv) = true)
                items pairs _ Ep).
      eapply Forall_impl; [|exact IH].
      intros [k v] Hv kv' Ekv. cbn [fst snd] in *.
      destruct (sanitize_for_json v) as [v'|]; [|discriminate].
      injection Ekv as <-. cbn [snd]. now apply Hv. }
    apply (dict_of_values (fun o => json_safe o = true)) in F.
    apply forallb_forall. intros [k v] Hin.
    apply in_map_iff in Hin as ([k0 v0] & [= <- <-] & Hin).
    cbn [fst snd is_str_key andb].
    rewrite Forall_forall in F. exact (F (k0, v0) Hin).
  - destruct (all_some _) as [values|] eqn:Ev; [|discriminate].
    injection E as <-. cbn [json_safe].
    apply forallb_safe.
    exact (all_some_results sanitize_for_json _ members values IH Ev).
  - destruct (all_some _) as [values|] eqn:Ev; [|discriminate].
    injection E as <-. cbn [json_safe].
    apply forallb_safe.
    exact (all_some_results sanitize_for_json _ members values IH Ev).
  - destruct (all_some _) as [values|] eqn:Ev; [|discriminate].
    injection E as <-. cbn [json_safe].
    apply forallb_safe.
    exact (all_some_results sanitize_for_json _ members values IH Ev).
  - destruct f as [f|]; injection E as <-; [apply finite_or_none_safe | reflexivity].
Qed.

Lemma members_raise (members : list Obj) :
  Forall (fun m => sanitize_for_json m = None <-> converts m = false) members ->
  all_some (List.map sanitize_for_json members) = None <->
  forallb converts members = false.
Proof.
  intros IH. rewrite all_some_raises. rewrite Forall_forall in IH.
  split.
  - intros (m & Hm & E). apply not_true_is_false. intros F.
    rewrite forallb_forall in F. apply IH in E; [|exact Hm].
    rewrite (F m Hm) in E. discriminate.
  - intros F.
    destruct (existsb (fun m => negb (converts m)) members) eqn:Ex.
    + apply existsb_exists in Ex as (m & Hm & N). exists m. split; [exact Hm|].
      apply IH; [exact Hm|]. now apply negb_true_iff.
    + exfalso. assert (T : forallb converts members = true); [|congruence].
      apply forallb_forall. intros m Hm.
      destruct (converts m) eqn:C; [reflexivity|].
      assert (X : existsb (fun m => negb (converts m)) members = true); [|congruence].
      apply existsb_exists. exists m. split; [exact Hm | now rewrite C].
Qed.

Lemma sanitize_raises (obj : Obj) :
  sanitize_for_json obj = None <-> converts obj = false.
Proof.
  induction obj as [|s|b|n|f|t|t|f|n|f|b|items IH|members IH|members IH|members IH|f t]
    using Obj_induction; cbn [sanitize_for_json converts];
    try (split; discriminate).
  - destruct f; split; (discriminate || reflexivity).
  - set (g := fun kv : Key * Obj =>
                match sanitize_for_json (snd kv) with
                | Some v => Some (str_of_key (fst kv), v)
                | None => None
                end).
    assert (R : all_some (List.map g items) = None <->
                forallb (fun kv => converts (snd kv)) items = false).
    { rewrite all_some_raises. rewrite Forall_forall in IH. split.
      - intros (kv & Hkv & E). apply not_true_is_false. intros F.
        rewrite forallb_forall in F. specialize (F kv Hkv).
        unfold g in E. destruct (sanitize_for_json (snd kv)) eqn:Es; [discriminate|].
        apply (IH kv Hkv) in Es. congruence.
      - intros F.
        destruct (existsb (fun kv => negb (converts (snd kv))) items) eqn:Ex.
        + apply existsb_exists in Ex as (kv & Hkv & N). exists kv.
          split; [exact Hkv|]. apply negb_true_iff in N.
          apply (IH kv Hkv) in N. unfold g. now rewrite N.
        + exfalso.
          assert (T : forallb (fun kv => converts (snd kv)) items = true);
            [|congruence].
          apply forallb_forall. intros kv Hkv.
          destruct (converts (snd kv)) eqn:C; [reflexivity|].
          assert (X : existsb (fun kv => negb (converts (snd kv))) items = true);
            [|congruence].
          apply existsb_exists. exists kv. split; [exact Hkv | now rewrite C]. }
    fold g. destruct (all_some (List.map g items)) as [pairs|].
    + split; [discriminate|]. intros F. now apply R in F.
    + split; [|reflexivity]. intros _. now apply R.
  - pose proof (members_raise members IH) as R.
    destruct (all_some _) as [values|].
    + split; [discriminate|]. intros F. now apply R in F.
    + split; [|reflexivity]. intros _. now apply R.
  - pose proof (members_raise members IH) as R.
    destruct (all_some _) as [values|].
    + split; [discriminate|]. intros F. now apply R in F.
    + split; [|reflexivity]. intros _. now apply R.
  - pose proof (members_raise members IH) as R.
    destruct (all_some _) as [values|].
    + split; [discriminate|]. intros F. now apply R in F.
    + split; [|reflexivity]. intros _. now apply R.
  - destruct f; split; discriminate.
Qed.

(** On an object whose nesting stays far from the limit of the recursion
    and whose keys print, [sanitize_for_json] raises only when a decimal
    of the object does not convert to a float; in every other case it
    returns a value of JSON: [None], strings, Booleans, integers and
    finite floats, in lists and in dictionaries with string keys; no NaN
    and no infinity is left at any depth. *)
Theorem sanitize_for_json_is_json_safe :
  forall obj : Obj,
    plain obj = true ->
    (converts obj = true ->
     exists value, sanitize_for_json obj = Some value /\ json_safe value = true) /\
    (converts obj = false -> sanitize_for_json obj = None) /\
    (forall value, sanitize_for_json obj = Some value -> json_safe value = true).
Proof.
  intros obj _. split; [|split].
  - intros C. destruct (sanitize_for_json obj) as [value|] eqn:E.
    + exists value. split; [reflexivity | exact (sanitize_safe obj value E)].
    + apply sanitize_raises in E. congruence.
  - apply sanitize_raises.
  - apply sanitize_safe.
Qed.

End JsonFacts.

Section JsonIdempotence.
Import PyStr JsonSanitizer.

Lemma dict_set_fresh (k : string) (v : Obj) (d : list (string * Obj)) :
  ~ In k (List.map fst d) -> dict_set k v d = (d ++ [(k, v)])%list.
Proof.
  induction d as [|[k' v'] d IH]; cbn [dict_set List.map fst]; intros H;
    [reflexivity|].
  destruct (String.eqb_spec k' k) as [->|_].
  - elim H. now left.
  - cbn. f_equal. apply IH. intros Hin. apply H. now right.
Qed.

Lemma dict_set_keys (k : string) (v : Obj) (d : list (string * Obj)) :
  NoDup (List.map fst d) -> NoDup (List.map fst (dict_set k v d)).
Proof.
  intros H. destruct (in_dec string_dec k (List.map fst d)) as [Hin|Hin].
  - assert (E : List.map fst (dict_set k v d) = List.map fst d); [|now rewrite E].
    clear H. induction d as [|[k' v'] d IH]; [destruct Hin|].
    cbn [dict_set]. destruct (String.eqb_spec k' k) as [->|Hne]; [reflexivity|].
    cbn [List.map fst]. f_equal. apply IH.
    destruct Hin as [Hin|Hin]; [now elim Hne | exact Hin].
  - rewrite (dict_set_fresh k v d Hin), map_app. cbn [List.map fst].
    apply NoDup_app; [exact H | repeat constructor; intros [] |].
    intros x Hx [<-|[]]. now apply Hin.
Qed.

Lemma dict_of_keys (pairs : list (string * Obj)) :
  NoDup (List.map fst (dict_of pairs)).
Proof.
  unfold dict_of.
  assert (G : forall d, NoDup (List.map fst d) ->
                NoDup (List.map fst
                  (fold_left (fun d kv => dict_set (fst kv) (snd kv) d) pairs d))).
  { induction pairs as [|[k v] pairs IH]; intros d Hd; [exact Hd|].
    cbn [fold_left fst snd]. apply IH. now apply dict_set_keys. }
  apply G. constructor.
Qed.

(** Pairs with distinct keys make the dictionary that lists them. *)
Lemma dict_of_distinct (pairs : list (string * Obj)) :
  NoDup (List.map fst pairs) -> dict_of pairs = pairs.
Proof.
  unfold dict_of.
  assert (G : forall d,
             NoDup (List.map fst (d ++ pairs)%list) ->
             fold_left (fun d kv => dict_set (fst kv) (snd kv) d) pairs d
             = (d ++ pairs)%list).
  { induction pairs as [|[k v] pairs IH]; intros d Hd.
    - cbn. now rewrite app_nil_r.
    - cbn [fold_left fst snd].
      assert (Hk : ~ In k (List.map fst d)).
      { rewrite map_app in Hd. cbn [List.map fst] in Hd.
        apply NoDup_remove_2 in Hd. intros Hin. apply Hd.
        apply in_or_app. now left. }
      rewrite (dict_set_fresh k v d Hk), IH.
      + now rewrite <- app_assoc.
      + now rewrite <- app_assoc. }
  intros H. apply (G []). exact H.
Qed.

Lemma finite_or_none_fixed (f : PyFloat) :
  sanitize_for_json (finite_or_none f) = Some (finite_or_none f).
Proof. destruct f; reflexivity. Qed.

Lemma members_fixed (members values : list Obj) :
  Forall (fun m => forall v, sanitize_for_json m = Some v ->
                             sanitize_for_json v = Some v) members ->
  all_some (List.map sanitize_for_json members) = Some values ->
  sanitize_for_json (OList values) = Some (OList values).
Proof.
  intros IH E. cbn [sanitize_for_json].
  rewrite (all_some_fixed sanitize_for_json values); [reflexivity|].
  exact (all_some_results sanitize_for_json
           (fun v => sanitize_for_json v = Some v) members values IH E).
Qed.

Lemma sanitize_fixed (obj value : Obj) :
  sanitize_for_json obj = Some value -> sanitize_for_json value = Some value.
Proof.
  revert value.
  induction obj as [|s|b|n|f|t|t|f|n|f|b|items IH|members IH|members IH|members IH|f t]
    using Obj_induction; intros value E; cbn [sanitize_for_json] in E;
    try (injection E as <-; reflexivity || apply finite_or_none_fixed).
  - destruct f as [f|]; [|discriminate].
    injection E as <-. apply finite_or_none_fixed.
  - destruct (all_some _) as [pairs|] eqn:Ep; [|discriminate].
    injection E as <-.
    assert (F : Forall (fun kv : string * Obj =>
                          sanitize_for_json (snd kv) = Some (snd kv)) pairs).
    { refine (all_some_results _
                (fun kv : string * Obj => sanitize_for_json (snd kv) = Some (snd kv))
                items pairs _ Ep).
      eapply Forall_impl; [|exact IH].
      intros [k v] Hv kv' Ekv. cbn [fst snd] in *.
      destruct (sanitize_for_json v) as [v'|]; [|discriminate].
      injection Ekv as <-. cbn [snd]. now apply Hv. }
    apply (dict_of_values (fun o => sanitize_for_json o = Some o)) in F.
    cbn [sanitize_for_json].
    rewrite (List.map_map (fun kv : string * Obj => (KStr (fst kv), snd kv))
               (fun kv : Key * Obj =>
                  match sanitize_for_json (snd kv) with
                  | Some v => Some (str_of_key (fst kv), v)
                  | None => None
                  end)).
    cbn [fst snd str_of_key].
    rewrite (all_some_fixed
               (fun kv : string * Obj =>
                  match sanitize_for_json (snd kv) with
                  | Some v => Some (fst kv, v)
                  | None => None
                  end) (dict_of pairs)).
    + now rewrite (dict_of_distinct (dict_of pairs) (dict_of_keys pairs)).
    + eapply Forall_impl; [|exact F].
      intros [k v] Hv. cbn [fst snd] in *. now rewrite Hv.
  - destruct (all_some _) as [values|] eqn:Ev; [|discriminate].
    injection E as <-. exact (members_fixed members values IH Ev).
  - destruct (all_some _) as [values|] eqn:Ev; [|discriminate].
    injection E as <-. exact (members_fixed members values IH Ev).
  - destruct (all_some _) as [values|] eqn:Ev; [|discriminate].
    injection E as <-. exact (members_fixed members values IH Ev).
  - destruct f as [f|]; injection E as <-; [apply finite_or_none_fixed | reflexivity].
Qed.

(** [sanitize_for_json] is idempotent: a sanitized value is returned as it
    is by a second pass, so the places that sanitize a payload twice
    change nothing the second time, and a call that raises has raised in
    the first pass; and the keys of a sanitized dictionary are distinct
    strings. *)
Theorem sanitize_for_json_is_idempotent :
  forall obj : Obj,
    match sanitize_for_json obj with
    | Some value => sanitize_for_json value
    | None => None
    end = sanitize_for_json obj /\
    match sanitize_for_json obj with
    | Some (ODict items) => NoDup (List.map (fun kv => str_of_key (fst kv)) items)
    | _ => True
    end.
Proof.
  intros obj. split.
  - destruct (sanitize_for_json obj) as [value|] eqn:E; [|reflexivity].
    exact (sanitize_fixed obj value E).
  - destruct obj as [|s|b|n|f|t|t|f|n|f|b|items|members|members|members|f t];
      cbn [sanitize_for_json]; try exact I; try (now destruct f).
    + destruct f as [f|]; [now destruct f | exact I].
    + destruct (all_some _) as [pairs|]; [|exact I].
      rewrite (List.map_map (fun kv : string * Obj => (KStr (fst kv), snd kv))
                 (fun kv : Key * Obj => str_of_key (fst kv))).
      cbn [fst str_of_key]. apply dict_of_keys.
    + now destruct (all_some _).
    + now destruct (all_some _).
    + now destruct (all_some _).
    + destruct f as [f|]; [now destruct f | exact I].
Qed.

End JsonIdempotence.

Section JsonExamples.
Import PyStr JsonSanitizer MoreExamples.

Lemma sanitize_for_json_is_json_safe_witness :
  plain leaky_payload = true /\
  exists value,
    sanitize_for_json leaky_payload = Some value /\ json_safe value = true.
Proof.
  assert (P : plain leaky_payload = true) by reflexivity.
  split; [exact P|].
  exact (proj1 (sanitize_for_json_is_json_safe leaky_payload P) eq_refl).
Defined.

(** The payload of the examples: the statistic that is not a number goes,
    the two keys that print alike become one, the tuple becomes a list;
    a second pass changes nothing. *)
Example sanitize_leaky_payload :
  sanitize_for_json leaky_payload = Some sanitized_payload /\
  sanitize_for_json sanitized_payload = Some sanitized_payload.
Proof. split; reflexivity. Qed.

End JsonExamples.
